(** * JeepNiBackend: the resilient SMS gateway of [app.py] and the
      sliding-window rate limiter of [routes.py]

    A shallow embedding of the gateway code and the properties of its
    design document, settled against that embedding.

    Conventions of the embedding.
    - Python values that travel as JSON are terms of [json]; a Python dict
      is an association list in insertion order (keys are unique in every
      dict the code builds; [dict_lookup] takes the first binding).
    - A finite float is represented by the rational it denotes,
      [FNum q]; rounding to 53 bits is not modelled.  The three
      non-finite floats are separate constructors.
    - [time.monotonic()] readings are rationals (seconds).  The readings a
      call makes are inputs of the embedded function, in program order.
    - [datetime.now()] readings are integers (microseconds), the
      resolution of [datetime].
    - Strings are sequences of 8-bit characters; case mapping acts on the
      ASCII letters.
    - Builtins whose full grammar lies outside the repository ([float] and
      [int] of a string, [repr] of floats and containers) are the fields
      of the class [PyRuntime]; [Ref.runtime] is a small instance used to
      run the definitions. *)

From Stdlib Require Import ZArith QArith Qround Lqa String Ascii List Bool Lia.
From stdpp Require Import base gmap strings list pretty.

Local Open Scope string_scope.
Set Warnings "-register-all".

(** ** Strings *)

Module Str.

(** [str.isspace] on code points below 256. *)
Definition is_space (c : ascii) : bool :=
  let n := nat_of_ascii c in
  ((9 <=? n)%nat && (n <=? 13)%nat) || ((28 <=? n)%nat && (n <=? 32)%nat)
  || (n =? 133)%nat || (n =? 160)%nat.

Fixpoint lstrip (s : string) : string :=
  match s with
  | String c s' => if is_space c then lstrip s' else s
  | EmptyString => EmptyString
  end.

Fixpoint rstrip (s : string) : string :=
  match s with
  | String c s' =>
      match rstrip s' with
      | EmptyString => if is_space c then EmptyString else String c EmptyString
      | r => String c r
      end
  | EmptyString => EmptyString
  end.

(** [s.strip()] *)
Definition strip (s : string) : string := rstrip (lstrip s).

Definition upper_char (c : ascii) : ascii :=
  let n := nat_of_ascii c in
  if ((97 <=? n)%nat && (n <=? 122)%nat)%bool then ascii_of_nat (n - 32) else c.

Definition lower_char (c : ascii) : ascii :=
  let n := nat_of_ascii c in
  if ((65 <=? n)%nat && (n <=? 90)%nat)%bool then ascii_of_nat (n + 32) else c.

Fixpoint map_chars (f : ascii -> ascii) (s : string) : string :=
  match s with
  | String c s' => String (f c) (map_chars f s')
  | EmptyString => EmptyString
  end.

(** [s.upper()] and [s.lower()] *)
Definition upper : string -> string := map_chars upper_char.
Definition lower : string -> string := map_chars lower_char.

(** [s.startswith(p)] *)
Definition startswith (s p : string) : bool := String.prefix p s.

(** [needle in hay] *)
Fixpoint contains (needle hay : string) : bool :=
  String.prefix needle hay ||
  match hay with
  | String _ hay' => contains needle hay'
  | EmptyString => false
  end.

(** [s.split(sep)] for a one-character separator: [cur] collects the
    segment being read, in reverse. *)
Fixpoint split_go (sep : ascii) (cur : string) (s : string) : list string :=
  match s with
  | EmptyString => [String.rev cur]
  | String c s' =>
      if Ascii.eqb c sep then String.rev cur :: split_go sep EmptyString s'
      else split_go sep (String c cur) s'
  end.

Definition split (sep : ascii) (s : string) : list string :=
  split_go sep EmptyString s.

(** [sep.join(parts)] *)
Fixpoint join (sep : string) (parts : list string) : string :=
  match parts with
  | [] => EmptyString
  | [p] => p
  | p :: rest => p +:+ sep +:+ join sep rest
  end.

(** [s[:n]] *)
Fixpoint take (n : nat) (s : string) : string :=
  match n, s with
  | S n', String c s' => String c (take n' s')
  | _, _ => EmptyString
  end.

Definition nonempty (s : string) : bool :=
  match s with EmptyString => false | _ => true end.

End Str.

(** ** Python values *)

Inductive pyfloat : Type :=
| FNum (q : Q)
| FPosInf
| FNegInf
| FNaN.

Inductive json : Type :=
| JNull
| JBool (b : bool)
| JInt (z : Z)
| JFloat (f : pyfloat)
| JStr (s : string)
| JList (l : list json)
| JDict (d : list (string * json)).

Abbreviation dict := (list (string * json)).

(** Exceptions that the modelled code can meet. *)
Inductive pyexc : Type :=
| AttributeError
| OverflowError
| TypeError
| ValueError.

Inductive outcome (A : Type) : Type :=
| Returned (a : A)
| Raised (e : pyexc).
Arguments Returned {A} a.
Arguments Raised {A} e.

Definition bind {A B} (m : outcome A) (k : A -> outcome B) : outcome B :=
  match m with
  | Returned a => k a
  | Raised e => Raised e
  end.

Notation "'try' x <- m 'in' k" := (bind m (fun x => k))
  (at level 10, x name, m at level 100, k at level 200).

(** [math.isfinite] *)
Definition isfinite (f : pyfloat) : bool :=
  match f with FNum _ => true | _ => false end.

Definition float_truthy (f : pyfloat) : bool :=
  match f with
  | FNum q => negb (Qeq_bool q 0)
  | _ => true
  end.

(** [bool(v)] *)
Definition truthy (v : json) : bool :=
  match v with
  | JNull => false
  | JBool b => b
  | JInt z => negb (z =? 0)%Z
  | JFloat f => float_truthy f
  | JStr s => Str.nonempty s
  | JList l => match l with [] => false | _ => true end
  | JDict d => match d with [] => false | _ => true end
  end.

(** [a or b] *)
Definition py_or (a b : json) : json := if truthy a then a else b.

Fixpoint dict_lookup (k : string) (d : dict) : option json :=
  match d with
  | [] => None
  | (k', v) :: d' => if String.eqb k k' then Some v else dict_lookup k d'
  end.

(** [d.get(k)] *)
Definition dict_get (k : string) (d : dict) : json :=
  match dict_lookup k d with Some v => v | None => JNull end.

(** [d[k] = v]: an existing key keeps its place, a new one goes last. *)
Fixpoint dict_set (k : string) (v : json) (d : dict) : dict :=
  match d with
  | [] => [(k, v)]
  | (k', v') :: d' =>
      if String.eqb k k' then (k', v) :: d' else (k', v') :: dict_set k v d'
  end.

(** The builtins whose grammar is outside the repository. *)
Class PyRuntime : Type := {
  (** [float(s)]; [None] is [ValueError] *)
  float_of_str : string -> option pyfloat;
  (** [int(s)]; [None] is [ValueError] *)
  int_of_str : string -> option Z;
  (** [str(v)] for a float, a list or a dict *)
  repr_compound : json -> string
}.

(** The first integer that [float] refuses: from [2^1024 - 2^970] on, the
    nearest double does not exist and [float(int)] raises
    [OverflowError]. *)
Definition float_int_limit : Z := (2 ^ 1024 - 2 ^ 970)%Z.

(** Truncation toward zero, [int(x)] of a float. *)
Definition py_int_of_Q (q : Q) : Z := Z.quot (Qnum q) (Zpos (Qden q)).

Definition Qltb (a b : Q) : bool := negb (Qle_bool b a).

Section Builtins.
Context `{RT : PyRuntime}.

(** [str(v)] *)
Definition py_str (v : json) : string :=
  match v with
  | JStr s => s
  | JNull => "None"
  | JBool true => "True"
  | JBool false => "False"
  | JInt z => pretty z
  | _ => repr_compound v
  end.

(** [float(v)] *)
Definition py_float (v : json) : outcome pyfloat :=
  match v with
  | JFloat f => Returned f
  | JInt z =>
      if (Z.abs z <? float_int_limit)%Z then Returned (FNum (inject_Z z))
      else Raised OverflowError
  | JBool b => Returned (FNum (if b then 1 else 0))
  | JStr s =>
      match float_of_str s with
      | Some f => Returned f
      | None => Raised ValueError
      end
  | JNull | JList _ | JDict _ => Raised TypeError
  end.

End Builtins.

(** ** Configuration ([app.py], module level) *)

(** [_normalise_api_key(raw_key)] *)
Definition _normalise_api_key (raw_key : option string) : string :=
  match raw_key with
  | None => ""
  | Some raw =>
      if negb (Str.nonempty raw) then ""
      else
        let key := Str.strip raw in
        if negb (Str.nonempty key) then ""
        else
          let upper := Str.upper key in
          if Str.startswith upper "SET_" || Str.startswith upper "ENTER_"
             || Str.startswith upper "REPLACE_" || Str.startswith upper "YOUR_"
             || Str.contains "CHANGE" upper
          then ""
          else key
  end.

Record config : Type := {
  SEMAPHORE_API_KEY : string;
  SEMAPHORE_SENDER_NAME : string;
  BALANCE_CACHE_SECONDS : Z
}.

(** The module-level assignments: the key goes through
    [_normalise_api_key], the sender name defaults to ["SEMAPHORE"]. *)
Definition load_config (env_key env_sender : option string) (cache_seconds : Z)
  : config :=
  {| SEMAPHORE_API_KEY := _normalise_api_key env_key;
     SEMAPHORE_SENDER_NAME :=
       match env_sender with Some s => s | None => "SEMAPHORE" end;
     BALANCE_CACHE_SECONDS := cache_seconds |}.

Definition not_configured_error : json :=
  JDict [("success", JBool false);
         ("error", JStr "SMS service is not configured on the server.")].

(** ** What an upstream call can do *)

Record http_response : Type := {
  status_code : Z;
  (** [response.json()]; [None] is the [ValueError] of a body that is not
      JSON *)
  json_body : option json;
  text : string;
  (** [response.headers.get("Retry-After")] *)
  retry_after_header : option string;
  (** [str(http_error)] of the [HTTPError] that [raise_for_status] builds *)
  http_error_message : string
}.

Inductive request_result : Type :=
| Responded (r : http_response)
(** [requests.HTTPError] raised with no response object, message [msg] *)
| HTTPErrorRaised (msg : string)
(** any other [requests.RequestException] *)
| RequestExceptionRaised (msg : string).

(** [response.raise_for_status()] raises for 4xx and 5xx. *)
Definition raises_for_status (r : http_response) : bool :=
  (400 <=? status_code r)%Z && (status_code r <? 600)%Z.

(** A Flask response: the JSON body and the status. *)
Definition response : Type := (json * Z)%type.

Section Gateway.
Context `{RT : PyRuntime}.

(** [_is_rate_limit_payload(payload)], on the values [response.json()]
    can produce (the [bytes] branch has no counterpart here). *)
Definition haystack_of (payload : json) : string :=
  match payload with
  | JStr s => s
  | JDict d =>
      Str.join " "
        (concat (map (fun kv : string * json =>
                        py_str (JStr (fst kv)) ::
                        match snd kv with
                        | JList items => map py_str items
                        | value => [py_str value]
                        end) d))
  | other => py_str other
  end.

Definition _is_rate_limit_payload (payload : json) : bool :=
  match payload with
  | JNull => false
  | _ => Str.contains "rate limit" (Str.lower (haystack_of payload))
  end.

(** [_normalise_recipients(raw_numbers)] *)
Definition _normalise_recipients (raw_numbers : json) : string :=
  match raw_numbers with
  | JNull => ""
  | JStr s =>
      Str.join ","
        (map Str.strip
           (filter (fun segment => Str.nonempty (Str.strip segment) = true)
                   (Str.split "," s)))
  | JList items =>
      Str.join ","
        (map (fun item => Str.strip (py_str item))
           (filter (fun item => Str.nonempty (Str.strip (py_str item)) = true)
                   items))
  | other => Str.strip (py_str other)
  end.

(** The local function [_to_float] of [_build_balance_payload]: only
    [TypeError] and [ValueError] are caught. *)
Definition _to_float (value : json) : outcome pyfloat :=
  match py_float value with
  | Returned f => Returned f
  | Raised TypeError | Raised ValueError => Returned (FNum 0)
  | Raised e => Raised e
  end.

(** [x.get(k)] on an arbitrary value: only a dict has the method. *)
Definition method_get (x : json) (k : string) : outcome json :=
  match x with
  | JDict d => Returned (dict_get k d)
  | _ => Raised AttributeError
  end.

(** Lines 120 to 125: the record the fields are read from. *)
Definition account_data_of (raw_payload : json) : json :=
  match raw_payload with
  | JList l => match l with x :: _ => x | [] => JDict [] end
  | JDict d => py_or (dict_get "account" d) raw_payload
  | _ => JDict []
  end.

(** Lines 134 to 137: the argument of [_to_float]. *)
Definition balance_source (account_data : dict) : json :=
  py_or (dict_get "balance" account_data)
    (py_or (dict_get "credit_balance" account_data)
       (py_or (dict_get "credits" account_data) (JInt 0))).

(** [_build_balance_payload(raw_payload)]; [utcnow_iso] is
    [datetime.utcnow().isoformat()].  The first [.get] raises when the
    account data is not a dict; after it the others cannot. *)
Definition _build_balance_payload (cfg : config) (utcnow_iso : string)
    (raw_payload : json) : outcome dict :=
  let account_data := account_data_of raw_payload in
  try b0 <- method_get account_data "balance" in
  try b1 <- method_get account_data "credit_balance" in
  try b2 <- method_get account_data "credits" in
  try balance_value <- _to_float (py_or b0 (py_or b1 (py_or b2 (JInt 0)))) in
  let balance_value :=
    if isfinite balance_value then balance_value else FNum 0 in
  try account_id <- method_get account_data "account_id" in
  try id <- method_get account_data "id" in
  try account_name <- method_get account_data "account_name" in
  try name <- method_get account_data "name" in
  try status <- method_get account_data "status" in
  try account_status <- method_get account_data "account_status" in
  try email <- method_get account_data "email" in
  try sendername <- method_get account_data "sendername" in
  try sender_name <- method_get account_data "sender_name" in
  let account_summary :=
    [("id", py_or account_id id);
     ("name", py_or account_name (py_or name (JStr "")));
     ("status", py_or status (py_or account_status (JStr "unknown")));
     ("email", py_or email (JStr ""));
     ("sender", py_or sendername
                  (py_or sender_name (JStr (SEMAPHORE_SENDER_NAME cfg))))] in
  Returned
    [("success", JBool true);
     ("balance", JFloat balance_value);
     ("account", JDict account_summary);
     ("raw", raw_payload);
     ("stale", JBool false);
     ("retrieved_at", JStr (utcnow_iso +:+ "Z"))].

End Gateway.

(** ** [send_sms] *)

Record sms_form : Type := {
  form_apikey : string;
  form_number : string;
  form_message : string;
  form_sendername : string
}.

Definition missing_recipients_error : json :=
  JDict [("success", JBool false);
         ("error", JStr "At least one recipient number is required.")].

Definition missing_message_error : json :=
  JDict [("success", JBool false);
         ("error", JStr "Message content is required.")].

Definition message_too_long_error : json :=
  JDict [("success", JBool false);
         ("error",
          JStr "Message exceeds 160 character limit for single SMS segment.")].

Definition unreachable_payload : dict :=
  [("success", JBool false);
   ("error", JStr "Unable to reach SMS service. Please try again later.")].

Definition unreachable_error : json := JDict unreachable_payload.

(** [x.strip()] on an arbitrary value: only a string has the method. *)
Definition method_strip (x : json) : outcome string :=
  match x with
  | JStr s => Returned (Str.strip s)
  | _ => Raised AttributeError
  end.

(** The [error_body] of [send_sms]: the decoded JSON, else the raw text
    (or the exception's message when the text is empty) under ["error"]. *)
Definition sms_error_body (r : http_response) : json :=
  match json_body r with
  | Some b => b
  | None =>
      JDict [("error",
              JStr (if Str.nonempty (text r) then text r
                    else http_error_message r))]
  end.

Section SendSms.
Context `{RT : PyRuntime}.

(** The request as read by the handler, lines 167 to 172: the message,
    the sender name and the recipients. *)
Definition read_sms_request (cfg : config) (request_json : option json)
  : outcome (string * string * string) :=
  let payload :=
    match request_json with
    | Some j => py_or j (JDict [])
    | None => JDict []
    end in
  try m <- method_get payload "message" in
  try message <- method_strip (py_or m (JStr "")) in
  try s1 <- method_get payload "sender" in
  try s2 <- method_get payload "sendername" in
  try sender <- method_strip (py_or s1 (py_or s2 (JStr ""))) in
  let sender_name :=
    if Str.nonempty sender then sender else SEMAPHORE_SENDER_NAME cfg in
  try n1 <- method_get payload "number" in
  try n2 <- method_get payload "numbers" in
  try n3 <- method_get payload "recipients" in
  Returned (message, sender_name, _normalise_recipients (py_or n1 (py_or n2 n3))).

(** What the handler answers once the provider has been called. *)
Definition sms_upstream_response (up : request_result) : response :=
  match up with
  | Responded r =>
      if raises_for_status r then
        (JDict [("success", JBool false); ("error", sms_error_body r)],
         status_code r)
      else
        match json_body r with
        | Some result => (result, 200%Z)
        | None => (JDict [("success", JBool true); ("raw", JStr (text r))], 200%Z)
        end
  | HTTPErrorRaised _ =>
      (JDict [("success", JBool false); ("error", JDict [])], 502%Z)
  | RequestExceptionRaised _ => (unreachable_error, 502%Z)
  end.

(** [send_sms()]: the answer, and the form posted to the provider when a
    call was made.  [up] is what [requests.post] does if it is called. *)
Definition send_sms (cfg : config) (request_json : option json)
    (up : request_result) : outcome response * option sms_form :=
  if negb (Str.nonempty (SEMAPHORE_API_KEY cfg)) then
    (Returned (not_configured_error, 500%Z), None)
  else
    match read_sms_request cfg request_json with
    | Raised e => (Raised e, None)
    | Returned (message, sender_name, recipients) =>
        if negb (Str.nonempty recipients) then
          (Returned (missing_recipients_error, 400%Z), None)
        else if negb (Str.nonempty message) then
          (Returned (missing_message_error, 400%Z), None)
        else if (160 <? String.length message)%nat then
          (Returned (message_too_long_error, 400%Z), None)
        else
          let data :=
            {| form_apikey := SEMAPHORE_API_KEY cfg;
               form_number := recipients;
               form_message := message;
               form_sendername := Str.take 11 sender_name |} in
          (Returned (sms_upstream_response up), Some data)
    end.

End SendSms.

(** ** The balance caches *)

(** [_balance_cache] *)
Record success_cache : Type := {
  timestamp : Q;
  ttl : Q;
  payload : option dict;
  status : Z;
  retrieved_timestamp : Q
}.

(** [_balance_error_cache] *)
Record error_cache : Type := {
  err_timestamp : Q;
  err_ttl : Q;
  err_payload : option dict;
  err_status : Z
}.

Record caches : Type := {
  _balance_cache : success_cache;
  _balance_error_cache : error_cache
}.

Definition initial_caches : caches :=
  {| _balance_cache :=
       {| timestamp := 0; ttl := 0; payload := None; status := 200;
          retrieved_timestamp := 0 |};
     _balance_error_cache :=
       {| err_timestamp := 0; err_ttl := 0; err_payload := None;
          err_status := 429 |} |}.

(** The value every success write resets the error cache to. *)
Definition cleared_error_cache : error_cache :=
  {| err_timestamp := 0; err_ttl := 0; err_payload := None; err_status := 429 |}.

(** The test on [_balance_cache], lines 228 to 238 and again 253 to 263. *)
Definition read_success (c : caches) (now : Q) : option response :=
  let cache_ttl := ttl (_balance_cache c) in
  let cache_timestamp := timestamp (_balance_cache c) in
  let cache_status := status (_balance_cache c) in
  match payload (_balance_cache c) with
  | Some p =>
      if (cache_status <? 400)%Z && Qltb 0 cache_ttl
         && Qltb (now - cache_timestamp) cache_ttl
      then Some (JDict p, status (_balance_cache c))
      else None
  | None => None
  end.

(** The test on [_balance_error_cache], lines 240 to 248 and 265 to 273. *)
Definition read_error (c : caches) (now : Q) : option response :=
  let error_ttl := err_ttl (_balance_error_cache c) in
  let error_timestamp := err_timestamp (_balance_error_cache c) in
  match err_payload (_balance_error_cache c) with
  | Some p =>
      if Qltb 0 error_ttl && Qltb (now - error_timestamp) error_ttl
      then Some (JDict p, err_status (_balance_error_cache c))
      else None
  | None => None
  end.

(** One pass under [_balance_cache_lock]: the success entry first, then
    the error entry. *)
Definition cached_response (c : caches) (now : Q) : option response :=
  match read_success c now with
  | Some r => Some r
  | None => read_error c now
  end.

(** The two [update] calls after a fresh fetch, lines 296 to 312 and 316
    to 332: nothing is stored when the configured duration is not
    positive. *)
Definition store_fresh (cfg : config) (c : caches) (p : dict) (now_ts : Q)
  : caches :=
  let cache_duration := Z.max (BALANCE_CACHE_SECONDS cfg) 0 in
  if (0 <? cache_duration)%Z then
    {| _balance_cache :=
         {| timestamp := now_ts; retrieved_timestamp := now_ts;
            ttl := inject_Z cache_duration; payload := Some p; status := 200 |};
       _balance_error_cache := cleared_error_cache |}
  else c.

Definition store_error (c : caches) (p : dict) (code : Z) (error_ttl : Z)
    (now_ts : Q) : caches :=
  {| _balance_cache := _balance_cache c;
     _balance_error_cache :=
       {| err_timestamp := now_ts; err_ttl := inject_Z error_ttl;
          err_payload := Some p; err_status := code |} |}.

(** [max(5, min(BALANCE_CACHE_SECONDS, 30)) if BALANCE_CACHE_SECONDS > 0
    else 10] *)
Definition generic_error_ttl (cfg : config) : Z :=
  if (0 <? BALANCE_CACHE_SECONDS cfg)%Z
  then Z.max 5 (Z.min (BALANCE_CACHE_SECONDS cfg) 30)
  else 10%Z.

Definition header_truthy (h : option string) : bool :=
  match h with Some s => Str.nonempty s | None => false end.

(** The readings of one [get_sms_balance] call, in program order, and
    what the provider does if it is called. *)
Record balance_env : Type := {
  (** line 226 *)
  t_fast : Q;
  (** line 251, under the fetch lock *)
  t_locked : Q;
  (** line 381, the reading the age of the stale payload is taken from *)
  t_elapsed : Q;
  (** the reading stored as the entry's [timestamp] in the branch taken *)
  t_write : Q;
  (** [datetime.utcnow().isoformat()] *)
  utcnow_iso : string;
  upstream : request_result
}.

Section Balance.
Context `{RT : PyRuntime}.

(** Lines 336 to 342: what the handler reads off the response, which is
    [None] when the exception came without one. *)
Definition http_error_status (resp : option http_response) : Z :=
  match resp with Some r => status_code r | None => 502%Z end.

Definition http_error_body (resp : option http_response) : json :=
  match resp with
  | Some r =>
      match json_body r with
      | Some b => b
      | None => JDict [("error", JStr (text r))]
      end
  | None => JDict []
  end.

Definition http_error_header (resp : option http_response) : option string :=
  match resp with Some r => retry_after_header r | None => None end.

(** Lines 344 to 357: the status after the two rate-limit signals. *)
Definition effective_status (status_code : Z) (retry_after_header : option string)
    (error_body : json) : Z :=
  if negb (status_code =? 429)%Z then
    if header_truthy retry_after_header then 429%Z
    else if _is_rate_limit_payload error_body then 429%Z
    else status_code
  else status_code.

(** Lines 362 to 368. *)
Definition retry_after_of (cfg : config) (retry_after_header : option string) : Z :=
  let parsed :=
    match retry_after_header with
    | Some h => int_of_str h
    | None => None
    end in
  let retry_after :=
    match parsed with
    | Some n => n
    | None =>
        if (0 <? BALANCE_CACHE_SECONDS cfg)%Z then BALANCE_CACHE_SECONDS cfg
        else 30%Z
    end in
  Z.max retry_after 5.

(** Lines 375 to 383: the payload served in place of a fresh one. *)
Definition stale_payload_of (cached_payload : dict) (retry_after : Z)
    (cached_retrieved_ts now : Q) : dict :=
  dict_set "last_updated_seconds_ago"
    (if negb (Qeq_bool cached_retrieved_ts 0)
     then JInt (Z.max (py_int_of_Q (now - cached_retrieved_ts)) 0)
     else JNull)
    (dict_set "retry_after" (JInt retry_after)
       (dict_set "note"
          (JStr "Showing cached balance. Semaphore rate limit reached; please retry later.")
          (dict_set "success" (JBool true)
             (dict_set "stale" (JBool true) cached_payload)))).

(** Lines 403 to 408: the answer when there is nothing stale to serve. *)
Definition rate_limited_payload (retry_after : Z) (error_body : json) : dict :=
  [("success", JBool false);
   ("error",
    JStr "Semaphore rate limit reached. Please wait before refreshing the balance.");
   ("retry_after", JInt retry_after);
   ("details", error_body)].

(** The [except requests.HTTPError] handler, lines 335 to 427. *)
Definition handle_http_error (cfg : config) (c : caches) (env : balance_env)
    (resp : option http_response) : caches * response :=
  let status_code := http_error_status resp in
  let error_body := http_error_body resp in
  let retry_after_header := http_error_header resp in
  let status_code := effective_status status_code retry_after_header error_body in
  if (status_code =? 429)%Z then
    let retry_after := retry_after_of cfg retry_after_header in
    let cached_payload := payload (_balance_cache c) in
    let cached_status := status (_balance_cache c) in
    let cached_retrieved_ts := retrieved_timestamp (_balance_cache c) in
    match cached_payload with
    | Some cp =>
        if truthy (JDict cp) && (cached_status <? 400)%Z then
          let stale_payload :=
            stale_payload_of cp retry_after cached_retrieved_ts (t_elapsed env) in
          let now_ts := t_write env in
          ({| _balance_cache :=
                {| timestamp := now_ts; ttl := inject_Z retry_after;
                   payload := Some stale_payload; status := 200;
                   retrieved_timestamp :=
                     if negb (Qeq_bool cached_retrieved_ts 0)
                     then cached_retrieved_ts else now_ts |};
              _balance_error_cache := cleared_error_cache |},
           (JDict stale_payload, 200%Z))
        else
          let p := rate_limited_payload retry_after error_body in
          (store_error c p 429 retry_after (t_write env), (JDict p, 429%Z))
    | None =>
        let p := rate_limited_payload retry_after error_body in
        (store_error c p 429 retry_after (t_write env), (JDict p, 429%Z))
    end
  else
    let error_payload := [("success", JBool false); ("error", error_body)] in
    (store_error c error_payload status_code (generic_error_ttl cfg) (t_write env),
     (JDict error_payload, status_code)).

(** Lines 275 to 439: the provider has been called and did [upstream env]. *)
Definition fetch_balance (cfg : config) (c : caches) (env : balance_env)
  : caches * outcome response :=
  match upstream env with
  | Responded r =>
      if raises_for_status r then
        let '(c', resp) := handle_http_error cfg c env (Some r) in
        (c', Returned resp)
      else
        match json_body r with
        | None =>
            let p :=
              [("success", JBool true);
               ("balance", JNull);
               ("account", JDict []);
               ("raw", JStr (text r));
               ("stale", JBool false);
               ("note", JStr "Semaphore returned a non-JSON response.");
               ("retrieved_at", JStr (utcnow_iso env +:+ "Z"))] in
            (store_fresh cfg c p (t_write env), Returned (JDict p, 200%Z))
        | Some account_payload =>
            match _build_balance_payload cfg (utcnow_iso env) account_payload with
            | Returned p =>
                (store_fresh cfg c p (t_write env), Returned (JDict p, 200%Z))
            | Raised e => (c, Raised e)
            end
        end
  | HTTPErrorRaised _ =>
      let '(c', resp) := handle_http_error cfg c env None in
      (c', Returned resp)
  | RequestExceptionRaised _ =>
      (store_error c unreachable_payload 502 (generic_error_ttl cfg) (t_write env),
       Returned (unreachable_error, 502%Z))
  end.

(** [get_sms_balance()]: the caches afterwards, the answer, and the number
    of calls made to the provider's account endpoint. *)
Definition get_sms_balance (cfg : config) (c : caches) (env : balance_env)
  : caches * outcome response * nat :=
  if negb (Str.nonempty (SEMAPHORE_API_KEY cfg)) then
    (c, Returned (not_configured_error, 500%Z), 0%nat)
  else
    match cached_response c (t_fast env) with
    | Some r => (c, Returned r, 0%nat)
    | None =>
        match cached_response c (t_locked env) with
        | Some r => (c, Returned r, 0%nat)
        | None =>
            let '(c', r) := fetch_balance cfg c env in
            (c', r, 1%nat)
        end
    end.

End Balance.

(** ** Concurrent callers of [get_sms_balance]

    Every access to the two caches is made under [_balance_cache_lock],
    and every write to them is made by the holder of
    [_balance_fetch_lock]; so a system state changes by the atomic steps
    below.  The provider call itself is not atomic: it starts at the
    re-check that misses and ends at [step_complete], and other threads
    run in between. *)

Module SingleFlight.

Inductive pc : Type :=
(** before line 226 *)
| AtFastPath
(** the fast path missed; blocked on [with _balance_fetch_lock] *)
| WaitingFetchLock
(** holds the fetch lock, before the re-check of line 251 *)
| HoldingFetchLock
(** the re-check missed: [requests.get] is in flight *)
| CallingUpstream
| Finished (r : outcome response).

Record system : Type := {
  sys_caches : caches;
  (** the index of the thread that holds [_balance_fetch_lock] *)
  fetch_lock : option nat;
  threads : list pc;
  (** calls issued to the provider's account endpoint so far *)
  upstream_calls : nat;
  (** the latest reading of the monotonic clock *)
  clock : Q
}.

Definition set_thread (i : nat) (p : pc) (s : system) : list pc :=
  <[i := p]> (threads s).

Section Steps.
Context `{RT : PyRuntime}.
Variable cfg : config.

Inductive step : system -> system -> Prop :=
| step_not_configured (s : system) (i : nat) :
    threads s !! i = Some AtFastPath ->
    Str.nonempty (SEMAPHORE_API_KEY cfg) = false ->
    step s {| sys_caches := sys_caches s; fetch_lock := fetch_lock s;
              threads := set_thread i (Finished (Returned (not_configured_error, 500%Z))) s;
              upstream_calls := upstream_calls s; clock := clock s |}
| step_fast_hit (s : system) (i : nat) (now : Q) (r : response) :
    threads s !! i = Some AtFastPath ->
    Str.nonempty (SEMAPHORE_API_KEY cfg) = true ->
    (clock s <= now)%Q ->
    cached_response (sys_caches s) now = Some r ->
    step s {| sys_caches := sys_caches s; fetch_lock := fetch_lock s;
              threads := set_thread i (Finished (Returned r)) s;
              upstream_calls := upstream_calls s; clock := now |}
| step_fast_miss (s : system) (i : nat) (now : Q) :
    threads s !! i = Some AtFastPath ->
    Str.nonempty (SEMAPHORE_API_KEY cfg) = true ->
    (clock s <= now)%Q ->
    cached_response (sys_caches s) now = None ->
    step s {| sys_caches := sys_caches s; fetch_lock := fetch_lock s;
              threads := set_thread i WaitingFetchLock s;
              upstream_calls := upstream_calls s; clock := now |}
| step_acquire (s : system) (i : nat) :
    threads s !! i = Some WaitingFetchLock ->
    fetch_lock s = None ->
    step s {| sys_caches := sys_caches s; fetch_lock := Some i;
              threads := set_thread i HoldingFetchLock s;
              upstream_calls := upstream_calls s; clock := clock s |}
| step_recheck_hit (s : system) (i : nat) (now : Q) (r : response) :
    threads s !! i = Some HoldingFetchLock ->
    (clock s <= now)%Q ->
    cached_response (sys_caches s) now = Some r ->
    step s {| sys_caches := sys_caches s; fetch_lock := None;
              threads := set_thread i (Finished (Returned r)) s;
              upstream_calls := upstream_calls s; clock := now |}
| step_recheck_miss (s : system) (i : nat) (now : Q) :
    threads s !! i = Some HoldingFetchLock ->
    (clock s <= now)%Q ->
    cached_response (sys_caches s) now = None ->
    step s {| sys_caches := sys_caches s; fetch_lock := fetch_lock s;
              threads := set_thread i CallingUpstream s;
              upstream_calls := S (upstream_calls s); clock := now |}
| step_complete (s : system) (i : nat) (env : balance_env) :
    threads s !! i = Some CallingUpstream ->
    (clock s <= t_elapsed env)%Q ->
    (t_elapsed env <= t_write env)%Q ->
    step s {| sys_caches := fst (fetch_balance cfg (sys_caches s) env);
              fetch_lock := None;
              threads :=
                set_thread i (Finished (snd (fetch_balance cfg (sys_caches s) env))) s;
              upstream_calls := upstream_calls s; clock := t_write env |}.

(** Any number of steps. *)
Definition steps : system -> system -> Prop := rtc step.

(** A run from [s]: each state of [path] follows from the one before it
    by a step. *)
Fixpoint is_run (s : system) (path : list system) : Prop :=
  match path with
  | [] => True
  | s' :: rest => step s s' /\ is_run s' rest
  end.

End Steps.

(** [n] callers that all missed on the fast path at [now], over caches
    [c]: nobody holds the fetch lock, nothing has been asked upstream. *)
Definition cold_start (c : caches) (n : nat) (now : Q) : system :=
  {| sys_caches := c; fetch_lock := None;
     threads := replicate n WaitingFetchLock;
     upstream_calls := 0; clock := now |}.

Definition finished (p : pc) : bool :=
  match p with Finished _ => true | _ => false end.

Definition all_finished (s : system) : bool := forallb finished (threads s).

(** Where a run from [s] along [path] ends. *)
Fixpoint last_state (s : system) (path : list system) : system :=
  match path with
  | [] => s
  | s' :: rest => last_state s' rest
  end.

Definition calling (p : pc) : bool :=
  match p with CallingUpstream => true | _ => false end.

(** Between [s] and [s'] a provider call has ended: a caller that was in
    [requests.get] is there no longer.  The only step that does this is
    [step_complete], and the clock of [s'] is then the reading stored
    with the answer. *)
Definition call_ended (s s' : system) : bool :=
  existsb (fun before_after : pc * pc =>
             calling (fst before_after) && negb (calling (snd before_after)))
          (zip (threads s) (threads s')).

(** Every provider call that ends on the run does so less than [span]
    seconds before the reading [final]. *)
Fixpoint answered_in_time (span final : Q) (s : system) (path : list system)
  : Prop :=
  match path with
  | [] => True
  | s' :: rest =>
      (call_ended s s' = true -> (final < clock s' + span)%Q)
      /\ answered_in_time span final s' rest
  end.

(** The run is over before any answer stored on it is [span] seconds
    old: the time is counted from the cache write, however long the
    provider took. *)
Definition answers_still_fresh (span : Q) (s : system) (path : list system)
  : Prop :=
  answered_in_time span (clock (last_state s path)) s path.

(** The caches answer every reading before [deadline]. *)
Definition served_before (deadline : Q) (cs : caches) : Prop :=
  forall now, (now < deadline)%Q -> cached_response cs now <> None.

(** The caches answer every reading up to [horizon]. *)
Definition served_through (horizon : Q) (cs : caches) : Prop :=
  forall now, (now <= horizon)%Q -> cached_response cs now <> None.

(** Some caller left by an exception. *)
Definition some_raised (s : system) : Prop :=
  exists i e, threads s !! i = Some (Finished (Raised e)).

(** What holds of every state on a run from [cold_start c n t0] that is
    over at [horizon] with its answers still fresh. *)
Record invariant (c : caches) (t0 horizon : Q) (n : nat) (s : system) : Prop := {
  inv_clock : (t0 <= clock s)%Q;
  inv_length : length (threads s) = n;
  inv_past_fast_path : forall i, threads s !! i <> Some AtFastPath;
  inv_lock :
    forall i, threads s !! i = Some HoldingFetchLock
              \/ threads s !! i = Some CallingUpstream ->
              fetch_lock s = Some i;
  inv_before_call :
    upstream_calls s = 0%nat ->
    sys_caches s = c
    /\ forall i p, threads s !! i = Some p ->
                   p = WaitingFetchLock \/ p = HoldingFetchLock;
  inv_after_call :
    upstream_calls s <> 0%nat ->
    some_raised s
    \/ (upstream_calls s = 1%nat
        /\ ((exists i, threads s !! i = Some CallingUpstream)
            \/ served_through horizon (sys_caches s)))
}.

End SingleFlight.

(** ** [routes.py]: [SimpleRateLimiter] *)

Module RateLimiter.

(** [timedelta(seconds=n)] in microseconds. *)
Definition timedelta (seconds : Z) : Z := (seconds * 1000000)%Z.

Record SimpleRateLimiter : Type := {
  (** [self.requests], a [defaultdict(list)] of [datetime] readings *)
  requests : gmap string (list Z)
}.

(** [SimpleRateLimiter()] *)
Definition init : SimpleRateLimiter := {| requests := ∅ |}.

(** [self.requests[key]], read *)
Definition requests_of (self : SimpleRateLimiter) (key : string) : list Z :=
  default [] (requests self !! key).

(** [min(l)] of a non-empty list *)
Definition list_min (t : Z) (ts : list Z) : Z := foldr Z.min t ts.

(** [is_allowed(key, max_requests, window_seconds)], [now] being the
    reading of [datetime.now()]. *)
Definition is_allowed (self : SimpleRateLimiter) (key : string)
    (max_requests window_seconds : Z) (now : Z) : bool * SimpleRateLimiter :=
  let window_start := (now - timedelta window_seconds)%Z in
  let kept :=
    filter (fun req_time => (window_start < req_time)%Z) (requests_of self key) in
  if (max_requests <=? Z.of_nat (length kept))%Z then
    (false, {| requests := <[key := kept]> (requests self) |})
  else
    (true, {| requests := <[key := (kept ++ [now])%list]> (requests self) |}).

(** [get_retry_after(key, window_seconds)]; reading a missing key of the
    [defaultdict] creates it. *)
Definition get_retry_after (self : SimpleRateLimiter) (key : string)
    (window_seconds : Z) (now : Z) : Z * SimpleRateLimiter :=
  let self' := {| requests := <[key := requests_of self key]> (requests self) |} in
  match requests_of self key with
  | [] => (0%Z, self')
  | t :: ts =>
      let oldest_request := list_min t ts in
      let reset_time := (oldest_request + timedelta window_seconds)%Z in
      if (now <? reset_time)%Z
      then (Z.quot (reset_time - now) 1000000, self')
      else (0%Z, self')
  end.

(** The decorator [rate_limit]: [None] lets the request through to the
    endpoint, [Some r] is the 429 answer.  [now] is the reading taken by
    [is_allowed], [now'] the later one taken by [get_retry_after]. *)
Definition rate_limit (max_requests window_seconds : Z)
    (self : SimpleRateLimiter) (client_ip : string) (now now' : Z)
  : option response * SimpleRateLimiter :=
  let '(allowed, self1) := is_allowed self client_ip max_requests window_seconds now in
  if allowed then (None, self1)
  else
    let '(retry_after, self2) := get_retry_after self1 client_ip window_seconds now' in
    (Some (JDict [("success", JBool false);
                  ("error",
                   JStr ("Rate limit exceeded. Try again in "
                         +:+ pretty retry_after +:+ " seconds."));
                  ("retry_after", JInt retry_after)], 429%Z),
     self2).

End RateLimiter.

(** ** A reference runtime

    Plain decimal numerals, the spellings of the non-finite floats, and
    [repr] without escape sequences: enough to run the definitions on
    the inputs used below. *)

Module Ref.

Definition digit_of (c : ascii) : option Z :=
  let n := nat_of_ascii c in
  if ((48 <=? n)%nat && (n <=? 57)%nat)%bool then Some (Z.of_nat (n - 48))
  else None.

Fixpoint digits_go (acc : Z) (s : string) : option Z :=
  match s with
  | EmptyString => Some acc
  | String c s' =>
      match digit_of c with
      | Some d => digits_go (10 * acc + d) s'
      | None => None
      end
  end.

Definition digits (s : string) : option Z :=
  match s with
  | EmptyString => None
  | _ => digits_go 0 s
  end.

Definition signed {A} (body : string -> option A) (neg : A -> A) (s : string)
  : option A :=
  match s with
  | String "+" r => body r
  | String "-" r => option_map neg (body r)
  | _ => body s
  end.

Definition parse_int (s : string) : option Z :=
  signed digits Z.opp (Str.strip s).

Definition float_neg (f : pyfloat) : pyfloat :=
  match f with
  | FNum q => FNum (- q)
  | FPosInf => FNegInf
  | FNegInf => FPosInf
  | FNaN => FNaN
  end.

Definition unsigned_float (s : string) : option pyfloat :=
  if String.eqb s "nan" then Some FNaN
  else if String.eqb s "inf" || String.eqb s "infinity" then Some FPosInf
  else
    match Str.split "." s with
    | [a] => option_map (fun n => FNum (inject_Z n)) (digits a)
    | [a; b] =>
        match a, b with
        | EmptyString, EmptyString => None
        | _, _ =>
            match digits_go 0 a, digits_go 0 b with
            | Some n, Some m =>
                let scale := (10 ^ Z.of_nat (String.length b))%Z in
                Some (FNum (Qred (Qmake (n * scale + m) (Z.to_pos scale))))
            | _, _ => None
            end
        end
    | _ => None
    end.

Definition parse_float (s : string) : option pyfloat :=
  signed unsigned_float float_neg (Str.lower (Str.strip s)).

(** At most [fuel] digits of the fractional part [r / den]. *)
Fixpoint frac_digits (fuel : nat) (r den : Z) : string :=
  match fuel with
  | O => EmptyString
  | S fuel' =>
      if (r =? 0)%Z then EmptyString
      else pretty (10 * r / den)%Z +:+ frac_digits fuel' ((10 * r) mod den)%Z den
  end.

Definition repr_float (f : pyfloat) : string :=
  match f with
  | FNaN => "nan"
  | FPosInf => "inf"
  | FNegInf => "-inf"
  | FNum q =>
      let n := Z.abs (Qnum q) in
      let d := Zpos (Qden q) in
      let frac := frac_digits 17 (n mod d)%Z d in
      (if (Qnum q <? 0)%Z then "-" else "") +:+ pretty (n / d)%Z +:+ "."
      +:+ (if Str.nonempty frac then frac else "0")
  end.

Fixpoint repr (v : json) : string :=
  match v with
  | JNull => "None"
  | JBool true => "True"
  | JBool false => "False"
  | JInt z => pretty z
  | JFloat f => repr_float f
  | JStr s => "'" +:+ s +:+ "'"
  | JList l => "[" +:+ Str.join ", " (map repr l) +:+ "]"
  | JDict d =>
      "{" +:+ Str.join ", "
                (map (fun '(k, x) => "'" +:+ k +:+ "': " +:+ repr x) d) +:+ "}"
  end.

#[export] Instance runtime : PyRuntime :=
  {| float_of_str := parse_float;
     int_of_str := parse_int;
     repr_compound := repr |}.

End Ref.

(** ** The caches of a running gateway *)

Section Reachable.
Context `{RT : PyRuntime}.
Variable cfg : config.

(** The caches start as at module load and are written in one place
    only, [fetch_balance], by the holder of the fetch lock.  The
    monotonic clock is taken to read above zero. *)
Inductive reachable : caches -> Prop :=
| reachable_initial : reachable initial_caches
| reachable_fetch (c : caches) (env : balance_env) :
    reachable c -> (0 < t_write env)%Q ->
    reachable (fst (fetch_balance cfg c env)).

End Reachable.

(** ** Notions used in the statements *)

Definition placeholder_prefixes : list string :=
  ["SET_"; "ENTER_"; "REPLACE_"; "YOUR_"].

(** The keys the claim speaks of, on the key with its surrounding
    whitespace removed. *)
Definition is_placeholder (key : string) : Prop :=
  key = ""
  \/ (exists p, In p placeholder_prefixes /\ Str.startswith (Str.upper key) p = true)
  \/ Str.contains "CHANGE" key = true
  \/ Str.contains "CHANGE" (Str.upper key) = true.

(** The ["balance"] entry of what the normaliser returns. *)
Definition balance_of (o : outcome dict) : option json :=
  match o with
  | Returned p => dict_lookup "balance" p
  | Raised _ => None
  end.

(** A field the handler can call [.strip()] on: a string, or a falsy value,
    which [or ""] replaces by the empty string. *)
Definition text_or_falsy (v : json) : Prop :=
  truthy v = false \/ exists s, v = JStr s.

(** What the normaliser makes of the value [v] that the fallback chain
    has selected: its float value, 0.0 in place of a float that is not
    finite or of a value that is not a number; and no payload at all for
    an integer too large for a float. *)
Definition balance_follows `{RT : PyRuntime} (v : json) (result : outcome dict)
  : Prop :=
  match py_float v with
  | Returned f =>
      balance_of result = Some (JFloat (if isfinite f then f else FNum 0))
  | Raised OverflowError => result = Raised OverflowError
  | Raised _ => balance_of result = Some (JFloat (FNum 0))
  end.

(** A string of [n] copies of [c]. *)
Fixpoint replicate_char (n : nat) (c : ascii) : string :=
  match n with
  | O => EmptyString
  | S n' => String c (replicate_char n' c)
  end.

(** ** Sample inputs *)

Module Sample.

Definition cfg : config := load_config (Some "live-key-123") None 60.

(** The same gateway with [SEMAPHORE_BALANCE_CACHE_SECONDS=0]. *)
Definition uncached_cfg : config := load_config (Some "live-key-123") None 0.

(** The provider's account record, wrapped in a list. *)
Definition account_json : json :=
  JList [JDict [("account_id", JInt 42); ("account_name", JStr "JeepNi");
                ("status", JStr "Active"); ("credit_balance", JStr "12.5")]].

Definition answers (code : Z) (body : option json) (retry_after : option string)
  : request_result :=
  Responded {| status_code := code; json_body := body; text := "";
               retry_after_header := retry_after;
               http_error_message := "" |}.

(** A call all of whose clock readings are [t]. *)
Definition at_time (t : Q) (up : request_result) : balance_env :=
  {| t_fast := t; t_locked := t; t_elapsed := t; t_write := t;
     utcnow_iso := "2026-01-05T08:00:00"; upstream := up |}.

(** What [_build_balance_payload] makes of [account_json]. *)
Definition balance_payload : dict :=
  [("success", JBool true);
   ("balance", JFloat (FNum (25 # 2)));
   ("account",
    JDict [("id", JInt 42); ("name", JStr "JeepNi"); ("status", JStr "Active");
           ("email", JStr ""); ("sender", JStr "SEMAPHORE")]);
   ("raw", account_json);
   ("stale", JBool false);
   ("retrieved_at", JStr "2026-01-05T08:00:00Z")].

(** The caches after a fresh fetch at reading 100. *)
Definition cached : caches :=
  {| _balance_cache :=
       {| timestamp := 100; ttl := 60; payload := Some balance_payload; status := 200;
          retrieved_timestamp := 100 |};
     _balance_error_cache := cleared_error_cache |}.

(** Two callers that missed at reading 10, and a provider that takes
    six seconds: the first caller stores the answer at 16, the second
    re-checks at 17. *)
Definition fetch_at_16 : balance_env :=
  at_time 16 (answers 200 (Some account_json) None).

Definition two_callers (cs : caches) (lock : option nat)
    (first second : SingleFlight.pc) (calls : nat) (now : Q)
  : SingleFlight.system :=
  {| SingleFlight.sys_caches := cs; SingleFlight.fetch_lock := lock;
     SingleFlight.threads := [first; second];
     SingleFlight.upstream_calls := calls; SingleFlight.clock := now |}.

Definition slow_provider_run : list SingleFlight.system :=
  let stored :=
    fst (fetch_balance (RT := Ref.runtime) cfg initial_caches fetch_at_16) in
  let answer :=
    SingleFlight.Finished
      (snd (fetch_balance (RT := Ref.runtime) cfg initial_caches fetch_at_16)) in
  [two_callers initial_caches (Some 0%nat)
     SingleFlight.HoldingFetchLock SingleFlight.WaitingFetchLock 0 10;
   two_callers initial_caches (Some 0%nat)
     SingleFlight.CallingUpstream SingleFlight.WaitingFetchLock 1 10;
   two_callers stored None answer SingleFlight.WaitingFetchLock 1 16;
   two_callers stored (Some 1%nat) answer SingleFlight.HoldingFetchLock 1 16;
   two_callers stored None answer
     (SingleFlight.Finished (Returned (JDict balance_payload, 200%Z))) 1 17].

End Sample.

(** ** One client's requests in sequence ([routes.py]) *)

Module Traffic.

(** [is_allowed] called for one client at the readings [times], in order:
    the verdicts, and the limiter afterwards. *)
Fixpoint ask_all (self : RateLimiter.SimpleRateLimiter) (key : string)
    (max_requests window_seconds : Z) (times : list Z)
  : list bool * RateLimiter.SimpleRateLimiter :=
  match times with
  | [] => ([], self)
  | t :: rest =>
      let '(allowed, self1) :=
        RateLimiter.is_allowed self key max_requests window_seconds t in
      let '(verdicts, self2) :=
        ask_all self1 key max_requests window_seconds rest in
      (allowed :: verdicts, self2)
  end.

(** The readings of the requests that were let through. *)
Fixpoint accepted (times : list Z) (verdicts : list bool) : list Z :=
  match times, verdicts with
  | t :: rest, b :: verdicts' =>
      if b then t :: accepted rest verdicts' else accepted rest verdicts'
  | _, _ => []
  end.

(** Readings that never go back, starting not before [prev]. *)
Fixpoint ascending (prev : Z) (times : list Z) : Prop :=
  match times with
  | [] => True
  | t :: rest => (prev <= t)%Z /\ ascending t rest
  end.

(** The last reading, [prev] when there is none. *)
Fixpoint last_reading (prev : Z) (times : list Z) : Z :=
  match times with
  | [] => prev
  | t :: rest => last_reading t rest
  end.

End Traffic.

(** ** Notions used in the further properties *)

(** [c in s] for one character. *)
Fixpoint has_char (c : ascii) (s : string) : bool :=
  match s with
  | EmptyString => false
  | String c' s' => Ascii.eqb c' c || has_char c s'
  end.

(** No whitespace at the front. *)
Definition starts_clean (s : string) : Prop :=
  match s with
  | EmptyString => True
  | String c _ => Str.is_space c = false
  end.

(** A recipient as [_normalise_recipients] writes it: no comma inside,
    no whitespace around, not empty. *)
Definition clean_recipient (x : string) : Prop :=
  has_char "," x = false /\ Str.strip x = x /\ Str.nonempty x = true.

(** ** Callers of [get_sms_balance] from its first line *)

Module Arrivals.
Import SingleFlight.

(** [n] callers about to enter [get_sms_balance], over the caches [c];
    nobody holds the fetch lock. *)
Definition arrive (c : caches) (n : nat) (now : Q) : system :=
  {| sys_caches := c; fetch_lock := None;
     threads := replicate n AtFastPath;
     upstream_calls := 0; clock := now |}.

(** Inside [with _balance_fetch_lock]. *)
Definition in_fetch_region (p : pc) : bool :=
  match p with
  | HoldingFetchLock | CallingUpstream => true
  | _ => false
  end.

(** The fetch lock is held by the one caller inside the region, and by
    nobody when no caller is there. *)
Definition lock_matches_region (s : system) : Prop :=
  (forall i p, threads s !! i = Some p -> in_fetch_region p = true ->
               fetch_lock s = Some i)
  /\ (forall i, fetch_lock s = Some i ->
                exists p, threads s !! i = Some p /\ in_fetch_region p = true).

(** Two callers arrived at reading 10 over cold caches: the first has
    missed twice and is calling the provider, the second has missed on
    the fast path and waits for the fetch lock. *)
Definition one_in_flight : system :=
  {| sys_caches := initial_caches; fetch_lock := Some 0%nat;
     threads := [CallingUpstream; WaitingFetchLock];
     upstream_calls := 1; clock := 10 |}.

End Arrivals.

(** ** [routes.py]: the admin endpoints *)

Module Admin.

(** What the [try] body of a handler can raise. *)
Inductive raised : Type :=
(** [request.get_json(force=True)] on a body that is not JSON *)
| BadRequest
(** [.get] or [.items] on a value that has no such method *)
| NoAttribute (v : json)
(** [**res] on a value that is not a mapping *)
| NotAMapping (v : json)
(** raised inside [firebase_service] *)
| ServiceFailed (message : string).

(** How a handler ends. *)
Inductive result : Type :=
| Answered (r : response)
(** [e] read after its [except] clause has unbound it *)
| UnboundLocalError.

(** The calls made to [firebase_service], with their arguments. *)
Inductive service_call : Type :=
| write_user_profile (uid profile : json)
| write_role_profile (role uid profile : json)
| create_user_and_profiles (name email password role : json) (extra : dict).

(** What lies outside the two files: how each function of
    [firebase_service] ends when called ([Some message] and
    [inl message] are exceptions), and [str(e)]. *)
Record environment : Type := {
  on_write_user_profile : json -> json -> option string;
  on_write_role_profile : json -> json -> json -> option string;
  on_create_user_and_profiles :
    json -> json -> json -> json -> dict -> string + json;
  str_of_exception : raised -> string
}.

(** [role in ('driver','passenger')] *)
Definition valid_role (role : json) : bool :=
  match role with
  | JStr s => String.eqb s "driver" || String.eqb s "passenger"
  | _ => false
  end.

Definition invalid_profile_request : response :=
  (JDict [("success", JBool false); ("error", JStr "uid and valid role required")],
   400%Z).

(** The [try] body of [api_admin_create_profile], lines 260 to 269:
    what it returns or raises, and the calls it has made by then.
    [request_json] is what [request.get_json(force=True)] yields, [None]
    when it raises. *)
Definition create_profile_body (env : environment) (request_json : option json)
  : (raised + response) * list service_call :=
  match request_json with
  | None => (inl BadRequest, [])
  | Some j =>
      match py_or j (JDict []) with
      | JDict data =>
          let uid := dict_get "uid" data in
          let role := dict_get "role" data in
          let profile := py_or (dict_get "profile" data) (JDict []) in
          if negb (truthy uid) || negb (valid_role role) then
            (inr invalid_profile_request, [])
          else
            match on_write_user_profile env uid profile with
            | Some message =>
                (inl (ServiceFailed message), [write_user_profile uid profile])
            | None =>
                match on_write_role_profile env role uid profile with
                | Some message =>
                    (inl (ServiceFailed message),
                     [write_user_profile uid profile;
                      write_role_profile role uid profile])
                | None =>
                    (inr (JDict [("success", JBool true)], 200%Z),
                     [write_user_profile uid profile;
                      write_role_profile role uid profile])
                end
            end
      | other => (inl (NoAttribute other), [])
      end
  end.

(** [api_admin_create_profile()].  The [except] clause only logs; the
    [return] of line 272 stands after it, where [e] is no longer bound. *)
Definition api_admin_create_profile (env : environment)
    (request_json : option json) : result * list service_call :=
  match create_profile_body env request_json with
  | (inr r, calls) => (Answered r, calls)
  | (inl _, calls) => (UnboundLocalError, calls)
  end.

Definition extra_keys : list string :=
  ["phone"; "notes"; "route"; "plate"; "created_at"; "created_ts"].

(** [k in ('phone', ...)] *)
Definition is_extra_key (k : string) : bool :=
  existsb (String.eqb k) extra_keys.

(** [{**base, **res}]: the keys of [res] are set one after the other. *)
Definition unpack_into (base res : dict) : dict :=
  fold_left (fun acc kv => dict_set (fst kv) (snd kv) acc) res base.

Definition invalid_account_request : response :=
  (JDict [("success", JBool false);
          ("error", JStr "name, email and valid role are required")],
   400%Z).

(** The [try] body of [api_admin_create_account], lines 280 to 289. *)
Definition create_account_body (env : environment) (request_json : option json)
  : (raised + response) * list service_call :=
  match request_json with
  | None => (inl BadRequest, [])
  | Some j =>
      match py_or j (JDict []) with
      | JDict data =>
          let name := py_or (dict_get "name" data) (JStr "") in
          let email := py_or (dict_get "email" data) (JStr "") in
          let password := dict_get "password" data in
          let role := dict_get "role" data in
          if negb (truthy name) || negb (truthy email) || negb (valid_role role)
          then (inr invalid_account_request, [])
          else
            let extra :=
              List.filter (fun kv : string * json => is_extra_key (fst kv)) data in
            let call := create_user_and_profiles name email password role extra in
            match on_create_user_and_profiles env name email password role extra with
            | inl message => (inl (ServiceFailed message), [call])
            | inr (JDict res) =>
                (inr (JDict (unpack_into [("success", JBool true)] res), 200%Z),
                 [call])
            | inr other => (inl (NotAMapping other), [call])
            end
      | other => (inl (NoAttribute other), [])
      end
  end.

(** [api_admin_create_account()]: here the [return] is inside the
    [except] clause. *)
Definition api_admin_create_account (env : environment)
    (request_json : option json) : result * list service_call :=
  match create_account_body env request_json with
  | (inr r, calls) => (Answered r, calls)
  | (inl e, calls) =>
      (Answered (JDict [("success", JBool false);
                        ("error", JStr (str_of_exception env e))], 500%Z),
       calls)
  end.

(** A service that never raises and answers [res] to an account
    request. *)
Definition obliging (res : json) : environment :=
  {| on_write_user_profile := fun _ _ => None;
     on_write_role_profile := fun _ _ _ => None;
     on_create_user_and_profiles := fun _ _ _ _ _ => inr res;
     str_of_exception := fun _ => "error" |}.

(** A service whose role write raises. *)
Definition role_write_fails : environment :=
  {| on_write_user_profile := fun _ _ => None;
     on_write_role_profile := fun _ _ _ => Some "permission denied";
     on_create_user_and_profiles := fun _ _ _ _ _ => inl "permission denied";
     str_of_exception := fun _ => "permission denied" |}.

End Admin.

(** * Properties *)

(** ** Strings *)

Lemma prefix_app (p r : string) : String.prefix p (p +:+ r) = true.
Proof.
  induction p as [|c p IH]; simpl.
  - now destruct r.
  - destruct (ascii_dec c c) as [_|Hne]; [exact IH | now destruct Hne].
Qed.

Lemma prefix_inv (p s : string) :
  String.prefix p s = true -> exists r, s = p +:+ r.
Proof.
  revert s; induction p as [|c p IH]; intros s H.
  - now exists s.
  - destruct s as [|c' s]; simpl in H; [discriminate|].
    destruct (ascii_dec c c') as [->|]; [|discriminate].
    destruct (IH _ H) as [r ->]. now exists r.
Qed.

Lemma contains_prefix (needle hay : string) :
  String.prefix needle hay = true -> Str.contains needle hay = true.
Proof. intros H. destruct hay; cbn [Str.contains]; rewrite H; reflexivity. Qed.

Lemma contains_intro (needle a b : string) :
  Str.contains needle (a +:+ needle +:+ b) = true.
Proof.
  induction a as [|c a IH].
  - change (Str.contains needle (needle +:+ b) = true).
    apply contains_prefix, prefix_app.
  - change (Str.contains needle (String c (a +:+ needle +:+ b)) = true).
    cbn [Str.contains]. rewrite IH. apply orb_true_r.
Qed.

Lemma contains_inv (needle hay : string) :
  Str.contains needle hay = true ->
  exists a b, hay = a +:+ needle +:+ b.
Proof.
  induction hay as [|c hay IH]; cbn [Str.contains]; intros H.
  - rewrite orb_false_r in H. destruct (prefix_inv _ _ H) as [r Hr].
    now exists EmptyString, r.
  - apply orb_true_iff in H as [H|H].
    + destruct (prefix_inv _ _ H) as [r Hr]. now exists EmptyString, r.
    + destruct (IH H) as (a & b & ->). now exists (String c a), b.
Qed.

Lemma map_chars_app (f : ascii -> ascii) (a b : string) :
  Str.map_chars f (a +:+ b) = Str.map_chars f a +:+ Str.map_chars f b.
Proof. induction a as [|c a IH]; simpl; [reflexivity | now rewrite IH]. Qed.

(** A pattern that the case mapping leaves alone is still found after
    the mapping. *)
Lemma contains_map_chars (f : ascii -> ascii) (needle hay : string) :
  Str.map_chars f needle = needle ->
  Str.contains needle hay = true ->
  Str.contains needle (Str.map_chars f hay) = true.
Proof.
  intros Hfix H. destruct (contains_inv _ _ H) as (a & b & ->).
  rewrite !map_chars_app, Hfix. apply contains_intro.
Qed.

Lemma nonempty_false (s : string) : Str.nonempty s = false <-> s = "".
Proof. destruct s; simpl; split; congruence. Qed.

Lemma nonempty_true (s : string) : Str.nonempty s = true <-> s <> "".
Proof. destruct s; simpl; split; congruence. Qed.

(** ** The API key (C10) *)

Lemma normalise_placeholder (raw_key : option string) :
  is_placeholder (Str.strip (default "" raw_key)) ->
  _normalise_api_key raw_key = "".
Proof.
  unfold _normalise_api_key. destruct raw_key as [raw|]; [|reflexivity].
  simpl default. intros H.
  destruct (Str.nonempty raw); [|reflexivity]. simpl negb. cbv iota.
  destruct (Str.nonempty (Str.strip raw)) eqn:Hne; [|reflexivity].
  simpl negb. cbv iota.
  assert (Hup : Str.contains "CHANGE" (Str.strip raw) = true ->
                Str.contains "CHANGE" (Str.upper (Str.strip raw)) = true)
    by (apply contains_map_chars; reflexivity).
  destruct H as [H | [(p & Hin & Hp) | [H | H]]].
  - apply nonempty_true in Hne. contradiction.
  - simpl in Hin.
    destruct Hin as [<- | [<- | [<- | [<- | []]]]]; rewrite Hp;
      rewrite ?orb_true_r; reflexivity.
  - rewrite (Hup H), !orb_true_r. reflexivity.
  - rewrite H, !orb_true_r. reflexivity.
Qed.

(** C10.  A configured key that, once stripped, is empty, starts (in any
    letter case) with SET_, ENTER_, REPLACE_ or YOUR_, or contains CHANGE,
    is normalised to the empty string; with that configuration [send_sms]
    and [get_sms_balance] both answer 500 with the fixed "not configured"
    error, whatever the request, the caches and the provider, and neither
    calls the provider. *)
Theorem placeholder_key_is_not_configured `{RT : PyRuntime}
    (raw_key env_sender : option string) (cache_seconds : Z) :
  is_placeholder (Str.strip (default "" raw_key)) ->
  _normalise_api_key raw_key = ""
  /\ (forall request_json up,
        send_sms (load_config raw_key env_sender cache_seconds) request_json up
        = (Returned (not_configured_error, 500%Z), None))
  /\ (forall c env,
        get_sms_balance (load_config raw_key env_sender cache_seconds) c env
        = (c, Returned (not_configured_error, 500%Z), 0%nat)).
Proof.
  intros H. pose proof (normalise_placeholder raw_key H) as Hk.
  split; [exact Hk|]. split; intros.
  - unfold send_sms, load_config. simpl SEMAPHORE_API_KEY. rewrite Hk. reflexivity.
  - unfold get_sms_balance, load_config. simpl SEMAPHORE_API_KEY. rewrite Hk.
    reflexivity.
Qed.

Lemma placeholder_key_is_not_configured_witness :
  _normalise_api_key (Some "  your_api_key_here ") = ""
  /\ (forall request_json up,
        send_sms (RT := Ref.runtime)
          (load_config (Some "  your_api_key_here ") None 60) request_json up
        = (Returned (not_configured_error, 500%Z), None))
  /\ (forall c env,
        get_sms_balance (RT := Ref.runtime)
          (load_config (Some "  your_api_key_here ") None 60) c env
        = (c, Returned (not_configured_error, 500%Z), 0%nat)).
Proof.
  apply (placeholder_key_is_not_configured (RT := Ref.runtime)
           (Some "  your_api_key_here ") None 60).
  right; left. exists "YOUR_". split; [simpl; tauto | reflexivity].
Defined.

(** ** The rate limiter (C8) *)

Section RateLimiterFacts.
Import RateLimiter.

Lemma requests_of_insert (m : gmap string (list Z)) (key : string) (l : list Z) :
  requests_of {| requests := <[key := l]> m |} key = l.
Proof. unfold requests_of. simpl. now rewrite lookup_insert_eq. Qed.

Lemma is_allowed_accept (self : SimpleRateLimiter) (key : string)
    (max_requests window_seconds now : Z) :
  let kept := filter (fun t => (now - timedelta window_seconds < t)%Z)
                     (requests_of self key) in
  (Z.of_nat (length kept) < max_requests)%Z ->
  is_allowed self key max_requests window_seconds now
  = (true, {| requests := <[key := (kept ++ [now])%list]> (requests self) |}).
Proof.
  intros kept H. unfold is_allowed. fold kept.
  destruct (Z.leb_spec max_requests (Z.of_nat (length kept))); [lia | reflexivity].
Qed.

Lemma is_allowed_reject (self : SimpleRateLimiter) (key : string)
    (max_requests window_seconds now : Z) :
  let kept := filter (fun t => (now - timedelta window_seconds < t)%Z)
                     (requests_of self key) in
  (max_requests <= Z.of_nat (length kept))%Z ->
  is_allowed self key max_requests window_seconds now
  = (false, {| requests := <[key := kept]> (requests self) |}).
Proof.
  intros kept H. unfold is_allowed. fold kept.
  destruct (Z.leb_spec max_requests (Z.of_nat (length kept))); [reflexivity | lia].
Qed.

Lemma list_min_le (t : Z) (ts : list Z) :
  (list_min t ts <= t)%Z /\ Forall (fun x => (list_min t ts <= x)%Z) ts.
Proof.
  unfold list_min. induction ts as [|x ts [IH1 IH2]]; simpl.
  - split; [lia | constructor].
  - split; [lia|]. constructor; [lia|].
    eapply Forall_impl; [exact IH2|]. simpl. intros; lia.
Qed.

Lemma list_min_member (t : Z) (ts : list Z) : list_min t ts ∈ t :: ts.
Proof.
  unfold list_min. induction ts as [|x ts IH]; simpl.
  - apply list_elem_of_here.
  - destruct (Z.min_spec x (foldr Z.min t ts)) as [[_ ->] | [_ ->]].
    + apply list_elem_of_further, list_elem_of_here.
    + apply elem_of_cons in IH as [IH | IH].
      * rewrite IH. apply list_elem_of_here.
      * do 2 apply list_elem_of_further. exact IH.
Qed.

(** The first three requests of a client at [t0], a fourth one second
    later, the retry hint then, and a request 61 seconds after the
    first: limit 3, window 60 seconds. *)
Lemma window_scenario (key : string) (t0 : Z) :
  let request self now := is_allowed self key 3 60 now in
  let s1 := request init t0 in
  let s2 := request (snd s1) t0 in
  let s3 := request (snd s2) t0 in
  let s4 := request (snd s3) (t0 + timedelta 1)%Z in
  fst s1 = true /\ fst s2 = true /\ fst s3 = true
  /\ fst s4 = false
  /\ requests_of (snd s4) key = [t0; t0; t0]
  /\ fst (get_retry_after (snd s4) key 60 (t0 + timedelta 1)) = 59%Z
  /\ (forall now', (t0 + timedelta 1 <= now' < t0 + timedelta 2)%Z ->
        (58 <= fst (get_retry_after (snd s4) key 60 now') <= 59)%Z)
  /\ fst (request (snd s4) (t0 + timedelta 61)%Z) = true.
Proof.
  intros request s1 s2 s3 s4. unfold timedelta in *.
  assert (E1 : s1 = (true, {| requests := <[key := [t0]]> ∅ |})).
  { unfold s1, request. rewrite is_allowed_accept; [reflexivity|].
    unfold requests_of, init. simpl. rewrite lookup_empty. simpl. lia. }
  assert (E2 : s2 = (true, {| requests := <[key := [t0; t0]]> ∅ |})).
  { unfold s2, request. rewrite E1. simpl snd.
    rewrite is_allowed_accept; rewrite requests_of_insert.
    - rewrite filter_cons, decide_True by (unfold timedelta; lia).
      simpl. now rewrite insert_insert_eq.
    - rewrite filter_cons, decide_True by (unfold timedelta; lia). simpl. lia. }
  assert (E3 : s3 = (true, {| requests := <[key := [t0; t0; t0]]> ∅ |})).
  { unfold s3, request. rewrite E2. simpl snd.
    rewrite is_allowed_accept; rewrite requests_of_insert.
    - rewrite !filter_cons, !decide_True by (unfold timedelta; lia).
      simpl. now rewrite insert_insert_eq.
    - rewrite !filter_cons, !decide_True by (unfold timedelta; lia). simpl. lia. }
  assert (E4 : s4 = (false, {| requests := <[key := [t0; t0; t0]]> ∅ |})).
  { unfold s4, request. rewrite E3. simpl snd.
    rewrite is_allowed_reject; rewrite requests_of_insert.
    - rewrite !filter_cons, !decide_True by (unfold timedelta; lia).
      simpl. now rewrite insert_insert_eq.
    - rewrite !filter_cons, !decide_True by (unfold timedelta; lia). simpl. lia. }
  rewrite E1, E2, E3, E4. simpl fst. simpl snd.
  repeat split; try reflexivity.
  - apply requests_of_insert.
  - unfold get_retry_after. rewrite requests_of_insert. unfold list_min, timedelta.
    simpl foldr. rewrite !Z.min_id.
    destruct (Z.ltb_spec (t0 + 1 * 1000000) (t0 + 60 * 1000000)); [|lia].
    simpl fst. replace (t0 + 60 * 1000000 - (t0 + 1 * 1000000))%Z with 59000000%Z by lia.
    reflexivity.
  - unfold get_retry_after. rewrite requests_of_insert. unfold list_min, timedelta.
    simpl foldr. rewrite !Z.min_id.
    destruct (Z.ltb_spec now' (t0 + 60 * 1000000)); [|lia].
    simpl fst. apply Z.quot_le_lower_bound; lia.
  - unfold get_retry_after. rewrite requests_of_insert. unfold list_min, timedelta.
    simpl foldr. rewrite !Z.min_id.
    destruct (Z.ltb_spec now' (t0 + 60 * 1000000)); [|lia].
    simpl fst. apply Z.quot_le_upper_bound; lia.
  - unfold request. rewrite is_allowed_accept; [reflexivity|].
    rewrite requests_of_insert.
    rewrite !filter_cons, !decide_False by (unfold timedelta; lia).
    rewrite filter_nil. simpl. lia.
Qed.

(** The claim prunes what is older than [now] minus the window.  The
    code also prunes a record that is exactly one window old: after three
    requests at reading 0 (limit 3, window 60 seconds), none of the
    three records is older than the window at reading 60 s, and yet the
    request made then is let through, with only itself on record. *)
Lemma request_one_window_later_is_admitted :
  let self :=
    snd (is_allowed (snd (is_allowed (snd (is_allowed init "10.0.0.7" 3 60 0))
                            "10.0.0.7" 3 60 0)) "10.0.0.7" 3 60 0) in
  requests_of self "10.0.0.7" = [0; 0; 0]%Z
  /\ (60000000 - timedelta 60 = 0)%Z
  /\ fst (is_allowed self "10.0.0.7" 3 60 60000000) = true
  /\ requests_of (snd (is_allowed self "10.0.0.7" 3 60 60000000)) "10.0.0.7"
     = [60000000%Z].
Proof. vm_compute. repeat split; reflexivity. Qed.

(** C8, amended.  [is_allowed] keeps, of the client's recorded requests,
    exactly those later than [now] minus the window (a record that is
    older, or exactly one window old, is pruned), rejects and records
    nothing when at least [max_requests] are kept, and otherwise records
    [now] after them and accepts; other clients' records are untouched.
    [get_retry_after] is 0 for a client without records and otherwise
    the whole seconds from [now'] to the oldest record plus the window,
    never negative; the oldest record is the smallest reading on record,
    wherever it stands in the list (records 5 s and 0, in that order,
    give 54 at reading 6 s).  With limit 3 and window 60 seconds: three
    requests at [t0] pass, a fourth one second later is rejected, the
    hint is 59 at that instant and 58 or 59 during the following
    second, and a request at [t0] plus 61 seconds passes. *)
Theorem sliding_window_admission (self : SimpleRateLimiter) (key : string)
    (max_requests window_seconds now : Z) :
  let kept := filter (fun t => (now - timedelta window_seconds < t)%Z)
                     (requests_of self key) in
  let result := is_allowed self key max_requests window_seconds now in
  (forall t, t ∈ kept <->
             t ∈ requests_of self key /\ (now - timedelta window_seconds < t)%Z)
  /\ ((max_requests <= Z.of_nat (length kept))%Z ->
      fst result = false /\ requests_of (snd result) key = kept)
  /\ ((Z.of_nat (length kept) < max_requests)%Z ->
      fst result = true /\ requests_of (snd result) key = (kept ++ [now])%list)
  /\ (forall other, other <> key ->
        requests (snd result) !! other = requests self !! other)
  /\ (forall now',
        let hint := fst (get_retry_after self key window_seconds now') in
        match requests_of self key with
        | [] => hint = 0%Z
        | _ :: _ =>
            exists oldest,
              oldest ∈ requests_of self key
              /\ (forall t, t ∈ requests_of self key -> (oldest <= t)%Z)
              /\ hint
                 = Z.max 0 (Z.quot (oldest + timedelta window_seconds - now')
                                   1000000)
        end)
  /\ (requests_of self key = [5000000; 0]%Z ->
      fst (get_retry_after self key 60 6000000) = 54%Z)
  /\ (forall (client : string) (t0 : Z),
        let request s at_time := is_allowed s client 3 60 at_time in
        let s1 := request init t0 in
        let s2 := request (snd s1) t0 in
        let s3 := request (snd s2) t0 in
        let s4 := request (snd s3) (t0 + timedelta 1)%Z in
        fst s1 = true /\ fst s2 = true /\ fst s3 = true
        /\ fst s4 = false
        /\ requests_of (snd s4) client = [t0; t0; t0]
        /\ fst (get_retry_after (snd s4) client 60 (t0 + timedelta 1)) = 59%Z
        /\ (forall now', (t0 + timedelta 1 <= now' < t0 + timedelta 2)%Z ->
              (58 <= fst (get_retry_after (snd s4) client 60 now') <= 59)%Z)
        /\ fst (request (snd s4) (t0 + timedelta 61)%Z) = true).
Proof.
  intros kept result. repeat apply conj.
  - intros t. unfold kept. rewrite list_elem_of_filter. tauto.
  - intros H. unfold result. rewrite is_allowed_reject by exact H.
    simpl. split; [reflexivity | apply requests_of_insert].
  - intros H. unfold result. rewrite is_allowed_accept by exact H.
    simpl. split; [reflexivity | apply requests_of_insert].
  - intros other Hne. unfold result, is_allowed. fold kept.
    destruct (max_requests <=? Z.of_nat (length kept))%Z; simpl;
      now rewrite lookup_insert_ne.
  - intros now'. unfold get_retry_after.
    destruct (requests_of self key) as [|t ts]; [reflexivity|].
    exists (list_min t ts). split; [apply list_min_member|]. split.
    { intros x Hx. destruct (list_min_le t ts) as [Ht Hts].
      apply elem_of_cons in Hx as [-> | Hx]; [exact Ht|].
      rewrite Forall_forall in Hts. now apply Hts. }
    destruct (Z.ltb_spec now' (list_min t ts + timedelta window_seconds)); simpl fst.
    + rewrite Z.max_r; [reflexivity|]. apply Z.quot_pos; lia.
    + rewrite Z.max_l; [reflexivity|].
      destruct (Z.eq_dec (list_min t ts + timedelta window_seconds - now')%Z 0%Z) as [->|Hne];
        [reflexivity|].
      assert (Hq : (Z.quot (- (list_min t ts + timedelta window_seconds - now')) 1000000 >= 0)%Z)
        by (apply Z.le_ge, Z.quot_pos; lia).
      rewrite Z.quot_opp_l in Hq by lia. lia.
  - intros Hrec. unfold get_retry_after. rewrite Hrec. reflexivity.
  - intros client t0. apply window_scenario.
Qed.

Lemma sliding_window_admission_witness :
  let self := snd (is_allowed init "10.0.0.7" 3 60 0) in
  (Z.of_nat (length (filter (fun t => (5000000 - timedelta 60 < t)%Z)
                            (requests_of self "10.0.0.7"))) < 3)%Z
  /\ fst (is_allowed self "10.0.0.7" 3 60 5000000) = true
  /\ requests_of (snd (is_allowed self "10.0.0.7" 3 60 5000000)) "10.0.0.7"
     = [0%Z; 5000000%Z].
Proof.
  intros self.
  assert (H : (Z.of_nat (length (filter (fun t => (5000000 - timedelta 60 < t)%Z)
                                        (requests_of self "10.0.0.7"))) < 3)%Z)
    by (vm_compute; reflexivity).
  split; [exact H|].
  destruct (sliding_window_admission self "10.0.0.7" 3 60 5000000)
    as (_ & _ & Haccept & _).
  destruct (Haccept H) as [Hfst Hreq]. split; [exact Hfst|].
  rewrite Hreq. vm_compute. reflexivity.
Defined.

End RateLimiterFacts.

(** ** The success cache (C3) *)

Lemma Qltb_true (a b : Q) : Qltb a b = true <-> (a < b)%Q.
Proof.
  unfold Qltb. rewrite negb_true_iff. split; intros H.
  - apply Qnot_le_lt. intros Hle. apply Qle_bool_iff in Hle. congruence.
  - destruct (Qle_bool b a) eqn:E; [|reflexivity].
    apply Qle_bool_iff in E. exfalso. exact (Qlt_not_le _ _ H E).
Qed.

Lemma Qltb_false (a b : Q) : Qltb a b = false <-> (b <= a)%Q.
Proof.
  unfold Qltb. rewrite negb_false_iff. apply Qle_bool_iff.
Qed.

Lemma read_success_hit (c : caches) (now : Q) (p : dict) :
  payload (_balance_cache c) = Some p ->
  (status (_balance_cache c) < 400)%Z ->
  (0 < ttl (_balance_cache c))%Q ->
  (now - timestamp (_balance_cache c) < ttl (_balance_cache c))%Q ->
  read_success c now = Some (JDict p, status (_balance_cache c)).
Proof.
  intros Hp Hs Ht Hage. unfold read_success. rewrite Hp.
  apply Z.ltb_lt in Hs. apply Qltb_true in Ht, Hage.
  now rewrite Hs, Ht, Hage.
Qed.

Lemma read_success_expired (c : caches) (now : Q) :
  (ttl (_balance_cache c) <= now - timestamp (_balance_cache c))%Q ->
  read_success c now = None.
Proof.
  intros H. unfold read_success. destruct (payload (_balance_cache c)); [|reflexivity].
  apply Qltb_false in H. rewrite H, andb_false_r. reflexivity.
Qed.

Lemma read_success_no_ttl (c : caches) (now : Q) :
  (ttl (_balance_cache c) <= 0)%Q -> read_success c now = None.
Proof.
  intros H. unfold read_success. destruct (payload (_balance_cache c)); [|reflexivity].
  apply Qltb_false in H. rewrite H, andb_false_r. reflexivity.
Qed.

(** C3.  Take a success entry with a payload and a status below 400, and
    a configured gateway.  While the entry is younger than its positive
    ttl, [get_sms_balance] answers with exactly that payload and the
    stored status, leaves the caches alone and does not call the
    provider.  From the moment its age reaches the ttl the success test
    fails at every reading, and the call is not answered from the
    success entry: it goes on to the error entry at the two readings and
    then to the provider.  An entry whose ttl is 0 is served at no
    reading. *)
Theorem success_entry_served_until_ttl `{RT : PyRuntime}
    (cfg : config) (c : caches) (env : balance_env) (p : dict) :
  Str.nonempty (SEMAPHORE_API_KEY cfg) = true ->
  payload (_balance_cache c) = Some p ->
  (status (_balance_cache c) < 400)%Z ->
  let T := ttl (_balance_cache c) in
  let age now := (now - timestamp (_balance_cache c))%Q in
  ((0 < T)%Q -> (age (t_fast env) < T)%Q ->
   get_sms_balance cfg c env
   = (c, Returned (JDict p, status (_balance_cache c)), 0%nat))
  /\ (forall now, (T <= age now)%Q -> read_success c now = None)
  /\ ((T <= age (t_fast env))%Q -> (t_fast env <= t_locked env)%Q ->
      get_sms_balance cfg c env
      = match read_error c (t_fast env) with
        | Some r => (c, Returned r, 0%nat)
        | None =>
            match read_error c (t_locked env) with
            | Some r => (c, Returned r, 0%nat)
            | None =>
                (fst (fetch_balance cfg c env), snd (fetch_balance cfg c env),
                 1%nat)
            end
        end)
  /\ ((T == 0)%Q -> forall now, read_success c now = None).
Proof.
  intros Hkey Hp Hs T age. repeat apply conj.
  - intros HT Hage. unfold get_sms_balance, cached_response. rewrite Hkey. simpl negb.
    now rewrite (read_success_hit c (t_fast env) p Hp Hs HT Hage).
  - intros now H. now apply read_success_expired.
  - intros H Hmono. unfold get_sms_balance, cached_response.
    rewrite Hkey. simpl negb. cbv iota.
    rewrite (read_success_expired c (t_fast env)) by exact H.
    rewrite (read_success_expired c (t_locked env))
      by (unfold T, age in H; lra).
    destruct (read_error c (t_fast env)); [reflexivity|].
    destruct (read_error c (t_locked env)); [reflexivity|].
    now destruct (fetch_balance cfg c env).
  - intros H now. apply read_success_no_ttl. unfold T in H. lra.
Qed.

(** The sample caches are what a first call leaves behind. *)
Lemma sample_cached_is_fetched :
  get_sms_balance (RT := Ref.runtime) Sample.cfg initial_caches
    (Sample.at_time 100 (Sample.answers 200 (Some Sample.account_json) None))
  = (Sample.cached, Returned (JDict Sample.balance_payload, 200%Z), 1%nat).
Proof. vm_compute. reflexivity. Qed.

Lemma success_entry_served_until_ttl_witness :
  get_sms_balance (RT := Ref.runtime) Sample.cfg Sample.cached
    (Sample.at_time 130 (RequestExceptionRaised "unused"))
  = (Sample.cached, Returned (JDict Sample.balance_payload, 200%Z), 0%nat).
Proof.
  destruct (success_entry_served_until_ttl (RT := Ref.runtime) Sample.cfg
              Sample.cached
              (Sample.at_time 130 (RequestExceptionRaised "unused"))
              Sample.balance_payload) as (Hserved & _).
  - reflexivity.
  - reflexivity.
  - reflexivity.
  - apply Hserved; reflexivity.
Defined.

(** ** Stale fallback (C2) *)

Lemma dict_lookup_set_eq (k : string) (v : json) (d : dict) :
  dict_lookup k (dict_set k v d) = Some v.
Proof.
  induction d as [|[k' v'] d IH]; simpl.
  - now rewrite String.eqb_refl.
  - destruct (String.eqb k k') eqn:E; simpl; rewrite E; [reflexivity | exact IH].
Qed.

Lemma dict_lookup_set_ne (k k' : string) (v : json) (d : dict) :
  k <> k' -> dict_lookup k (dict_set k' v d) = dict_lookup k d.
Proof.
  intros Hne. pose proof (proj2 (String.eqb_neq k k') Hne) as Hf.
  induction d as [|[k0 v0] d IH]; simpl.
  - now rewrite Hf.
  - destruct (String.eqb k' k0) eqn:E; simpl.
    + apply String.eqb_eq in E. subst k0. now rewrite Hf.
    + now rewrite IH.
Qed.

Lemma dict_set_nonempty (k : string) (v : json) (d : dict) : dict_set k v d <> [].
Proof. destruct d as [|[k' v'] d]; simpl; [|destruct (String.eqb k k')]; discriminate. Qed.

Lemma truthy_dict (d : dict) : truthy (JDict d) = true <-> d <> [].
Proof. destruct d; simpl; split; congruence. Qed.

Lemma Qeq_bool_false_pos (q : Q) : (0 < q)%Q -> Qeq_bool q 0 = false.
Proof.
  intros H. destruct (Qeq_bool q 0) eqn:E; [|reflexivity].
  apply Qeq_bool_iff in E. lra.
Qed.

Lemma py_int_of_Q_nonneg (q : Q) : (0 <= q)%Q -> py_int_of_Q q = Qfloor q.
Proof.
  destruct q as [n d]. unfold Qle, py_int_of_Q, Qfloor. simpl. intros H.
  apply Z.quot_div_nonneg; lia.
Qed.

Lemma Qfloor_between (q : Q) (n : Z) :
  (inject_Z n <= q)%Q -> (q < inject_Z n + 1)%Q -> Qfloor q = n.
Proof.
  intros Hlo Hhi.
  assert (H1 : (n <= Qfloor q)%Z)
    by (rewrite <- (Qfloor_Z n); now apply Qfloor_resp_le).
  assert (H2 : (Qfloor q < n + 1)%Z).
  { rewrite Zlt_Qlt, inject_Z_plus.
    eapply Qle_lt_trans; [apply Qfloor_le | exact Hhi]. }
  lia.
Qed.

Section StaleFallback.
Context `{RT : PyRuntime}.
Variable cfg : config.

Lemma build_payload_nonempty (iso : string) (raw : json) (p : dict) :
  _build_balance_payload cfg iso raw = Returned p -> p <> [].
Proof.
  unfold _build_balance_payload.
  destruct (account_data_of raw); simpl; try discriminate.
  match goal with |- context [_to_float ?v] => destruct (_to_float v) end;
    simpl; [|discriminate].
  intros [= <-]. discriminate.
Qed.

(** Whatever a running gateway holds as its success payload is a
    non-empty dict with status 200 and a retrieval reading above zero. *)
Lemma reachable_success_entry (c : caches) (p : dict) :
  reachable cfg c ->
  payload (_balance_cache c) = Some p ->
  p <> [] /\ status (_balance_cache c) = 200%Z
  /\ (0 < retrieved_timestamp (_balance_cache c))%Q.
Proof.
  intros Hr. revert p. induction Hr as [|c env Hr IH Hpos]; intros p.
  - discriminate.
  - assert (Hfresh : forall q, q <> [] ->
              payload (_balance_cache (store_fresh cfg c q (t_write env))) = Some p ->
              p <> [] /\ status (_balance_cache (store_fresh cfg c q (t_write env))) = 200%Z
              /\ (0 < retrieved_timestamp
                        (_balance_cache (store_fresh cfg c q (t_write env))))%Q).
    { intros q Hq. unfold store_fresh.
      destruct (0 <? Z.max (BALANCE_CACHE_SECONDS cfg) 0)%Z; simpl.
      - intros [= <-]. auto.
      - apply IH. }
    assert (Herr : forall resp,
              payload (_balance_cache (fst (handle_http_error cfg c env resp))) = Some p ->
              p <> [] /\ status (_balance_cache (fst (handle_http_error cfg c env resp))) = 200%Z
              /\ (0 < retrieved_timestamp
                        (_balance_cache (fst (handle_http_error cfg c env resp))))%Q).
    { intros resp. unfold handle_http_error.
      destruct (effective_status _ _ _ =? 429)%Z; [|simpl; apply IH].
      destruct (payload (_balance_cache c)) as [cp|] eqn:Hcp;
        [|simpl; rewrite Hcp; apply IH].
      destruct (truthy (JDict cp) && (status (_balance_cache c) <? 400)%Z);
        [|simpl; rewrite Hcp; apply IH].
      simpl. intros [= <-]. split; [apply dict_set_nonempty|]. split; [reflexivity|].
      destruct (IH cp eq_refl) as (_ & _ & Hts).
      now rewrite (Qeq_bool_false_pos _ Hts). }
    unfold fetch_balance. destruct (upstream env) as [r| |].
    + destruct (raises_for_status r).
      * specialize (Herr (Some r)).
        destruct (handle_http_error cfg c env (Some r)). exact Herr.
      * destruct (json_body r) as [body|]; simpl.
        -- destruct (_build_balance_payload cfg (utcnow_iso env) body) as [q|] eqn:Hb;
             simpl; [|apply IH].
           apply Hfresh. eapply build_payload_nonempty, Hb.
        -- apply Hfresh. discriminate.
    + specialize (Herr None).
      destruct (handle_http_error cfg c env None). exact Herr.
    + simpl. apply IH.
Qed.

End StaleFallback.

(** C2.  A configured gateway holds a success payload (status below 400)
    that no longer counts as fresh, so the call reaches the provider; the
    provider answers with an HTTP error whose effective status is 429.
    Then the answer is 200 with the cached payload, ["stale"] set to
    true and ["last_updated_seconds_ago"] the whole seconds elapsed
    since the stored [retrieved_timestamp] (70 when between 70 and 71
    seconds have passed); the entry written back carries that payload
    and the same [retrieved_timestamp] as before. *)
Theorem stale_fallback_on_rate_limit `{RT : PyRuntime}
    (cfg : config) (c : caches) (env : balance_env) (r : http_response)
    (p : dict) :
  reachable cfg c ->
  Str.nonempty (SEMAPHORE_API_KEY cfg) = true ->
  cached_response c (t_fast env) = None ->
  cached_response c (t_locked env) = None ->
  upstream env = Responded r ->
  raises_for_status r = true ->
  effective_status (status_code r) (retry_after_header r)
    (http_error_body (Some r)) = 429%Z ->
  payload (_balance_cache c) = Some p ->
  (status (_balance_cache c) < 400)%Z ->
  (retrieved_timestamp (_balance_cache c) <= t_elapsed env)%Q ->
  let elapsed := (t_elapsed env - retrieved_timestamp (_balance_cache c))%Q in
  exists (stale_payload : dict) (c' : caches),
    get_sms_balance cfg c env = (c', Returned (JDict stale_payload, 200%Z), 1%nat)
    /\ dict_lookup "stale" stale_payload = Some (JBool true)
    /\ dict_lookup "last_updated_seconds_ago" stale_payload
       = Some (JInt (Qfloor elapsed))
    /\ ((70 <= elapsed)%Q -> (elapsed < 71)%Q ->
        dict_lookup "last_updated_seconds_ago" stale_payload = Some (JInt 70))
    /\ (forall k, k <> "stale" -> k <> "success" -> k <> "note" ->
                  k <> "retry_after" -> k <> "last_updated_seconds_ago" ->
                  dict_lookup k stale_payload = dict_lookup k p)
    /\ payload (_balance_cache c') = Some stale_payload
    /\ retrieved_timestamp (_balance_cache c')
       = retrieved_timestamp (_balance_cache c).
Proof.
  intros Hreach Hkey Hfast Hlocked Hup Hraise Heff Hp Hstatus Hmono elapsed.
  destruct (reachable_success_entry cfg c p Hreach Hp) as (Hne & _ & Hts).
  pose proof (Qeq_bool_false_pos _ Hts) as Hnz.
  assert (Hlast :
    Z.max (py_int_of_Q elapsed) 0 = Qfloor elapsed).
  { assert (H0 : (0 <= elapsed)%Q) by (unfold elapsed; lra).
    rewrite py_int_of_Q_nonneg by exact H0.
    pose proof (Qfloor_resp_le 0 elapsed H0) as Hf.
    change (Qfloor 0) with 0%Z in Hf. lia. }
  eexists. eexists.
  unfold get_sms_balance. rewrite Hkey, Hfast, Hlocked. simpl negb. cbv iota.
  unfold fetch_balance. rewrite Hup, Hraise.
  unfold handle_http_error.
  change (http_error_status (Some r)) with (status_code r).
  change (http_error_header (Some r)) with (retry_after_header r).
  rewrite Heff. change (429 =? 429)%Z with true. cbv iota.
  rewrite Hp. apply truthy_dict in Hne. rewrite Hne.
  apply Z.ltb_lt in Hstatus. rewrite Hstatus. simpl andb. cbv iota.
  split; [reflexivity|].
  unfold stale_payload_of. rewrite Hnz. simpl negb. cbv iota.
  repeat apply conj.
  - rewrite !dict_lookup_set_ne by discriminate. apply dict_lookup_set_eq.
  - rewrite dict_lookup_set_eq. fold elapsed. now rewrite Hlast.
  - intros Hlo Hhi. rewrite dict_lookup_set_eq. fold elapsed. rewrite Hlast.
    rewrite (Qfloor_between elapsed 70); [reflexivity| |];
      change (inject_Z 70) with 70%Q; lra.
  - intros k H1 H2 H3 H4 H5. now rewrite !dict_lookup_set_ne by assumption.
  - reflexivity.
  - reflexivity.
Qed.

Lemma sample_cached_reachable : reachable (RT := Ref.runtime) Sample.cfg Sample.cached.
Proof.
  change Sample.cached
    with (fst (fetch_balance (RT := Ref.runtime) Sample.cfg initial_caches
                 (Sample.at_time 100
                    (Sample.answers 200 (Some Sample.account_json) None)))).
  apply reachable_fetch; [constructor | reflexivity].
Qed.

Lemma stale_fallback_on_rate_limit_witness :
  exists (stale_payload : dict) (c' : caches),
    get_sms_balance (RT := Ref.runtime) Sample.cfg Sample.cached
      (Sample.at_time 170 (Sample.answers 429 (Some (JDict [])) None))
    = (c', Returned (JDict stale_payload, 200%Z), 1%nat)
    /\ dict_lookup "stale" stale_payload = Some (JBool true)
    /\ dict_lookup "last_updated_seconds_ago" stale_payload = Some (JInt 70)
    /\ retrieved_timestamp (_balance_cache c') = 100%Q.
Proof.
  destruct (stale_fallback_on_rate_limit (RT := Ref.runtime) Sample.cfg
              Sample.cached
              (Sample.at_time 170 (Sample.answers 429 (Some (JDict [])) None))
              {| status_code := 429; json_body := Some (JDict []); text := "";
                 retry_after_header := None; http_error_message := "" |}
              Sample.balance_payload)
    as (sp & c' & Hcall & Hstale & _ & H70 & _ & _ & Hkept).
  - exact sample_cached_reachable.
  - reflexivity.
  - reflexivity.
  - reflexivity.
  - reflexivity.
  - reflexivity.
  - reflexivity.
  - reflexivity.
  - reflexivity.
  - simpl. lra.
  - exists sp, c'. split; [exact Hcall|]. split; [exact Hstale|].
    split; [apply H70; simpl; lra | exact Hkept].
Defined.

(** The reading 0.0 is the code's mark for "never retrieved": were it
    stored beside a payload, the age would be reported as null and the
    stale write would set [retrieved_timestamp] to its own reading. *)
Lemma stale_without_retrieval_reading (cp : dict) (n : Z) (now : Q) :
  dict_lookup "last_updated_seconds_ago" (stale_payload_of cp n 0 now) = Some JNull.
Proof. unfold stale_payload_of. simpl. apply dict_lookup_set_eq. Qed.

(** ** Rate-limit coercion (C4) *)

(** A [Retry-After] header that is present with an empty value does not
    count: a 503 carrying it, with nothing in the body, keeps its status
    and is answered as a plain upstream error. *)
Lemma empty_retry_after_header_not_coerced :
  let r := {| status_code := 503; json_body := Some (JDict []); text := "";
              retry_after_header := Some ""; http_error_message := "" |} in
  retry_after_header r = Some ""
  /\ status_code r <> 429%Z
  /\ effective_status (RT := Ref.runtime) (status_code r) (retry_after_header r)
       (http_error_body (Some r)) = 503%Z
  /\ snd (fst (get_sms_balance (RT := Ref.runtime) Sample.cfg initial_caches
                 (Sample.at_time 10 (Responded r))))
     = Returned (JDict [("success", JBool false); ("error", JDict [])], 503%Z).
Proof. vm_compute. repeat split; discriminate. Qed.

Section Coercion.
Context `{RT : PyRuntime}.

Lemma rate_limit_text_found (body : json) :
  Str.contains "rate limit" (haystack_of body) = true ->
  _is_rate_limit_payload body = true.
Proof.
  intros H. destruct body; try discriminate H;
    unfold _is_rate_limit_payload; apply contains_map_chars; first [reflexivity | exact H].
Qed.

Lemma retry_after_floor (cfg : config) (header : option string) :
  (5 <= retry_after_of cfg header)%Z.
Proof. unfold retry_after_of. lia. Qed.

(** C4, amended.  For an HTTP error of the account endpoint whose status
    is not 429: a [Retry-After] header with a non-empty value, or the
    text "rate limit" (in any letter case) in the flattened error body,
    makes the effective status 429.  The retry hint is the header's
    integer when [int] parses it, else [BALANCE_CACHE_SECONDS] when that
    is positive and 30 otherwise, and in every case at least 5; so a 503
    with [Retry-After: 12] has effective status 429 and hint 12, and
    with no stale payload to serve it is answered 429 with
    [retry_after] 12. *)
Theorem rate_limit_coercion (cfg : config) (code : Z)
    (header : option string) (error_body : json) :
  code <> 429%Z ->
  ((exists h, header = Some h /\ h <> "") ->
   effective_status code header error_body = 429%Z)
  /\ (Str.contains "rate limit" (haystack_of error_body) = true
      \/ Str.contains "rate limit" (Str.lower (haystack_of error_body)) = true ->
      effective_status code header error_body = 429%Z)
  /\ (forall h n, header = Some h -> int_of_str h = Some n ->
                  retry_after_of cfg header = Z.max n 5)
  /\ (header = None \/ (exists h, header = Some h /\ int_of_str h = None) ->
      retry_after_of cfg header
      = Z.max (if (0 <? BALANCE_CACHE_SECONDS cfg)%Z
               then BALANCE_CACHE_SECONDS cfg else 30%Z) 5)
  /\ (5 <= retry_after_of cfg header)%Z
  /\ (int_of_str "12" = Some 12%Z ->
      effective_status 503 (Some "12") error_body = 429%Z
      /\ retry_after_of cfg (Some "12") = 12%Z
      /\ forall c env r,
           Str.nonempty (SEMAPHORE_API_KEY cfg) = true ->
           cached_response c (t_fast env) = None ->
           cached_response c (t_locked env) = None ->
           payload (_balance_cache c) = None ->
           upstream env = Responded r ->
           status_code r = 503%Z ->
           retry_after_header r = Some "12" ->
           snd (fst (get_sms_balance cfg c env))
           = Returned (JDict (rate_limited_payload 12 (http_error_body (Some r))),
                       429%Z)).
Proof.
  intros Hcode.
  assert (Hne : (code =? 429)%Z = false) by now apply Z.eqb_neq.
  repeat apply conj.
  - intros (h & -> & Hh). unfold effective_status. rewrite Hne. simpl.
    apply nonempty_true in Hh. now rewrite Hh.
  - intros H. unfold effective_status. rewrite Hne. simpl negb. cbv iota.
    destruct (header_truthy header); [reflexivity|].
    assert (Hrl : _is_rate_limit_payload error_body = true).
    { destruct H as [H|H]; [now apply rate_limit_text_found|].
      destruct error_body; exact H. }
    now rewrite Hrl.
  - intros h n -> Hn. unfold retry_after_of. now rewrite Hn.
  - intros [-> | (h & -> & Hn)]; unfold retry_after_of; [|rewrite Hn]; reflexivity.
  - apply retry_after_floor.
  - intros H12.
    assert (Hret : retry_after_of cfg (Some "12") = 12%Z)
      by (unfold retry_after_of; rewrite H12; reflexivity).
    split; [reflexivity|]. split; [exact Hret|].
    intros c env r Hkey Hfast Hlocked Hp Hup Hst Hh.
    unfold get_sms_balance. rewrite Hkey, Hfast, Hlocked. simpl negb. cbv iota.
    unfold fetch_balance. rewrite Hup.
    unfold raises_for_status. rewrite Hst. simpl andb. cbv iota.
    unfold handle_http_error.
    change (http_error_status (Some r)) with (status_code r).
    change (http_error_header (Some r)) with (retry_after_header r).
    rewrite Hst, Hh. change (effective_status 503 (Some "12") _) with 429%Z.
    change (429 =? 429)%Z with true. cbv iota. rewrite Hp, Hret. reflexivity.
Qed.

End Coercion.

Lemma rate_limit_coercion_witness :
  effective_status (RT := Ref.runtime) 503 (Some "12") (JDict []) = 429%Z
  /\ retry_after_of (RT := Ref.runtime) Sample.cfg (Some "12") = 12%Z
  /\ snd (fst (get_sms_balance (RT := Ref.runtime) Sample.cfg initial_caches
                 (Sample.at_time 10 (Sample.answers 503 (Some (JDict [])) (Some "12")))))
     = Returned (JDict (rate_limited_payload 12 (JDict [])), 429%Z).
Proof.
  destruct (rate_limit_coercion (RT := Ref.runtime) Sample.cfg 503 (Some "12")
              (JDict [])) as (_ & _ & _ & _ & _ & H12); [discriminate|].
  destruct (H12 eq_refl) as (Heff & Hret & Hcall).
  split; [exact Heff|]. split; [exact Hret|].
  apply (Hcall initial_caches
           (Sample.at_time 10 (Sample.answers 503 (Some (JDict [])) (Some "12")))
           {| status_code := 503; json_body := Some (JDict []); text := "";
              retry_after_header := Some "12"; http_error_message := "" |});
    reflexivity.
Defined.

(** ** The payload normaliser (C5, C6, C7) *)

Section Normaliser.
Context `{RT : PyRuntime}.
Variables (cfg : config) (iso : string).

Lemma build_payload_balance (raw : json) (d : dict) :
  account_data_of raw = JDict d ->
  balance_of (_build_balance_payload cfg iso raw)
  = match _to_float (balance_source d) with
    | Returned f => Some (JFloat (if isfinite f then f else FNum 0))
    | Raised _ => None
    end.
Proof.
  intros Hd. unfold _build_balance_payload. rewrite Hd. simpl.
  fold (balance_source d). destruct (_to_float (balance_source d)); reflexivity.
Qed.

Lemma build_payload_not_dict (raw : json) :
  (forall d, account_data_of raw <> JDict d) ->
  _build_balance_payload cfg iso raw = Raised AttributeError.
Proof.
  intros H. unfold _build_balance_payload.
  destruct (account_data_of raw) as [| | | | | |d]; try reflexivity.
  now destruct (H d).
Qed.

Lemma balance_source_first_truthy (d : dict) (b : json) :
  dict_lookup "balance" d = Some b -> truthy b = true -> balance_source d = b.
Proof.
  intros Hb Ht. unfold balance_source, dict_get, py_or. now rewrite Hb, Ht.
Qed.

End Normaliser.

(** C5, at the inputs where the code fails.  When the provider's JSON
    has a non-dict where the account record is expected (a string under
    ["account"], a number as first list element), the normaliser raises
    [AttributeError]; an integer balance too large for a float raises
    [OverflowError].  [get_sms_balance] does not catch either: the
    exception leaves the handler, and nothing is cached. *)
Theorem normaliser_is_partial `{RT : PyRuntime} (cfg : config) (iso : string) :
  _build_balance_payload cfg iso (JDict [("account", JStr "ACME")])
  = Raised AttributeError
  /\ _build_balance_payload cfg iso (JList [JInt 5]) = Raised AttributeError
  /\ _build_balance_payload cfg iso (JDict [("balance", JInt (10 ^ 400))])
     = Raised OverflowError
  /\ get_sms_balance Sample.cfg initial_caches
       (Sample.at_time 10
          (Sample.answers 200 (Some (JDict [("account", JStr "ACME")])) None))
     = (initial_caches, Raised AttributeError, 1%nat).
Proof. repeat split; vm_compute; reflexivity. Qed.

(** A balance of null does not coerce ([float(None)] is a [TypeError]),
    yet the normalised balance is not 0.0: the chain has moved on to
    [credit_balance]. *)
Lemma null_balance_defers_to_credit_balance :
  let account := [("balance", JNull); ("credit_balance", JInt 7)] in
  dict_lookup "balance" account = Some JNull
  /\ py_float (RT := Ref.runtime) JNull = Raised TypeError
  /\ balance_of (_build_balance_payload (RT := Ref.runtime) Sample.cfg "" (JDict account))
     = Some (JFloat (FNum 7))
  /\ JFloat (FNum 7) <> JFloat (FNum 0).
Proof. vm_compute. repeat split; discriminate. Qed.

(** C6, amended.  In every account record, when the value the fallback
    chain selects (the first truthy one of [balance], [credit_balance],
    [credits]; the [balance] field itself whenever it is truthy) makes
    [float] raise [TypeError] or [ValueError] or yields a non-finite
    float, the normalised balance is exactly 0.0.  So it is for a
    [balance] string that [float] reads as nan or an infinity, or does
    not read at all. *)
Theorem non_finite_balance_is_zero `{RT : PyRuntime} (cfg : config) (iso : string)
    (raw : json) (d : dict) :
  account_data_of raw = JDict d ->
  (py_float (balance_source d) = Raised TypeError
   \/ py_float (balance_source d) = Raised ValueError
   \/ (exists f, py_float (balance_source d) = Returned f /\ isfinite f = false) ->
   balance_of (_build_balance_payload cfg iso raw) = Some (JFloat (FNum 0)))
  /\ (forall s, dict_lookup "balance" d = Some (JStr s) -> s <> "" ->
       float_of_str s = None \/ float_of_str s = Some FNaN
       \/ float_of_str s = Some FPosInf \/ float_of_str s = Some FNegInf ->
       balance_of (_build_balance_payload cfg iso raw) = Some (JFloat (FNum 0))).
Proof.
  intros Hd.
  assert (Hmain :
    py_float (balance_source d) = Raised TypeError
    \/ py_float (balance_source d) = Raised ValueError
    \/ (exists f, py_float (balance_source d) = Returned f /\ isfinite f = false) ->
    balance_of (_build_balance_payload cfg iso raw) = Some (JFloat (FNum 0))).
  { intros H. rewrite (build_payload_balance cfg iso raw d Hd). unfold _to_float.
    destruct H as [H | [H | (f & H & Hf)]]; rewrite H; [reflexivity..|].
    now rewrite Hf. }
  split; [exact Hmain|].
  intros s Hs Hne Hparse. apply Hmain.
  rewrite (balance_source_first_truthy d (JStr s) Hs)
    by (simpl; now apply nonempty_true).
  simpl. destruct Hparse as [H | [H | [H | H]]]; rewrite H.
  - right; left; reflexivity.
  - right; right; now exists FNaN.
  - right; right; now exists FPosInf.
  - right; right; now exists FNegInf.
Qed.

Lemma non_finite_balance_is_zero_witness :
  balance_of (_build_balance_payload (RT := Ref.runtime) Sample.cfg ""
                (JList [JDict [("balance", JStr "nan")]]))
  = Some (JFloat (FNum 0))
  /\ balance_of (_build_balance_payload (RT := Ref.runtime) Sample.cfg ""
                   (JDict [("account", JDict [("balance", JStr "inf")])]))
     = Some (JFloat (FNum 0)).
Proof.
  split.
  - apply (non_finite_balance_is_zero (RT := Ref.runtime) Sample.cfg ""
             (JList [JDict [("balance", JStr "nan")]]) [("balance", JStr "nan")]
             eq_refl).
    right; right. now exists FNaN.
  - destruct (non_finite_balance_is_zero (RT := Ref.runtime) Sample.cfg ""
                (JDict [("account", JDict [("balance", JStr "inf")])])
                [("balance", JStr "inf")] eq_refl) as [_ H].
    apply (H "inf"); [reflexivity | discriminate | right; right; left; reflexivity].
Defined.

(** A balance of 0 is present and numeric, and it is not what comes
    back: the chain skips it for [credit_balance]. *)
Lemma zero_balance_is_skipped :
  let account := [("balance", JInt 0); ("credit_balance", JInt 5)] in
  dict_lookup "balance" account = Some (JInt 0)
  /\ py_float (RT := Ref.runtime) (JInt 0) = Returned (FNum 0)
  /\ balance_of (_build_balance_payload (RT := Ref.runtime) Sample.cfg "" (JDict account))
     = Some (JFloat (FNum 5))
  /\ JFloat (FNum 5) <> JFloat (FNum 0).
Proof. vm_compute. repeat split; discriminate. Qed.

(** C7, amended.  The balance is read from the first of [balance],
    [credit_balance], [credits] whose value is truthy (present, and not
    null, zero, false or empty), and from the integer 0 when none is.
    For every account record, the normalised balance is the float value
    of the value so selected, 0.0 when that value is not a number or not
    finite; so it is for [balance] whenever [balance] is truthy, and it
    is 0.0 when none of the three is truthy.  The one exception is an
    integer too large for a float (from [2^1024 - 2^970] on in absolute
    value): the chain selects it like any other truthy value, [float]
    raises [OverflowError], and the normaliser returns nothing. *)
Theorem balance_fallback_chain `{RT : PyRuntime} (cfg : config) (iso : string)
    (raw : json) (d : dict) :
  account_data_of raw = JDict d ->
  let b := dict_get "balance" d in
  let cb := dict_get "credit_balance" d in
  let cr := dict_get "credits" d in
  let selected :=
    if truthy b then b
    else if truthy cb then cb
    else if truthy cr then cr
    else JInt 0 in
  balance_source d = selected
  /\ balance_follows selected (_build_balance_payload cfg iso raw)
  /\ (truthy b = true ->
      balance_follows b (_build_balance_payload cfg iso raw))
  /\ (py_float selected = Raised OverflowError
      <-> exists z, selected = JInt z /\ (float_int_limit <= Z.abs z)%Z)
  /\ (truthy b = false -> truthy cb = false -> truthy cr = false ->
      balance_of (_build_balance_payload cfg iso raw) = Some (JFloat (FNum 0))).
Proof.
  intros Hd b cb cr selected.
  assert (Hsrc : balance_source d = selected) by reflexivity.
  assert (Hfollows : balance_follows selected (_build_balance_payload cfg iso raw)).
  { unfold balance_follows.
    pose proof (build_payload_balance cfg iso raw d Hd) as Hbal.
    rewrite Hsrc in Hbal. unfold _to_float in Hbal.
    destruct (py_float selected) as [f|e] eqn:Hf; [exact Hbal|].
    destruct e; try exact Hbal.
    - destruct selected; simpl in Hf; try discriminate.
      + destruct (Z.abs z <? float_int_limit)%Z; discriminate.
      + destruct (float_of_str s); discriminate.
    - unfold _build_balance_payload. rewrite Hd. cbn [method_get bind].
      fold (balance_source d). rewrite Hsrc. unfold _to_float. now rewrite Hf. }
  repeat apply conj.
  - exact Hsrc.
  - exact Hfollows.
  - intros Ht. unfold selected in Hfollows. now rewrite Ht in Hfollows.
  - intros Hf. destruct selected; simpl in Hf; try discriminate.
    + destruct (Z.ltb_spec (Z.abs z) float_int_limit); [discriminate|]. now exists z.
    + destruct (float_of_str s); discriminate.
  - intros (z & -> & Hz). simpl.
    destruct (Z.ltb_spec (Z.abs z) float_int_limit); [lia | reflexivity].
  - intros H1 H2 H3. unfold selected in Hfollows.
    rewrite H1, H2, H3 in Hfollows. exact Hfollows.
Qed.

Lemma balance_fallback_chain_witness :
  balance_of (_build_balance_payload (RT := Ref.runtime) Sample.cfg ""
                (JDict [("balance", JStr "12.5"); ("credits", JInt 3)]))
  = Some (JFloat (FNum (25 # 2))).
Proof.
  destruct (balance_fallback_chain (RT := Ref.runtime) Sample.cfg ""
              (JDict [("balance", JStr "12.5"); ("credits", JInt 3)])
              [("balance", JStr "12.5"); ("credits", JInt 3)] eq_refl)
    as (_ & _ & H & _).
  exact (H eq_refl).
Defined.

(** ** The message length limit (C9) *)

(** The limit applies to the message with its surrounding whitespace
    removed: 160 letters followed by a space are 161 characters, and the
    request is forwarded with the 160 letters. *)
Lemma padded_message_of_161_characters_is_forwarded :
  let message := replicate_char 160 "a" +:+ " " in
  let request_json :=
    Some (JDict [("number", JStr "09171234567"); ("message", JStr message)]) in
  let up := Sample.answers 200 (Some (JDict [("message_id", JInt 1)])) None in
  String.length message = 161%nat
  /\ send_sms (RT := Ref.runtime) Sample.cfg request_json up
     = (Returned (JDict [("message_id", JInt 1)], 200%Z),
        Some {| form_apikey := "live-key-123"; form_number := "09171234567";
                form_message := replicate_char 160 "a";
                form_sendername := "SEMAPHORE" |}).
Proof. vm_compute. split; reflexivity. Qed.

Lemma length_nonempty (s : string) : (0 < String.length s)%nat -> Str.nonempty s = true.
Proof. destruct s; simpl; [lia | reflexivity]. Qed.

Lemma read_sms_request_raises `{RT : PyRuntime} (cfg : config)
    (request_json : option json) (e : pyexc) :
  read_sms_request cfg request_json = Raised e -> e = AttributeError.
Proof.
  unfold read_sms_request.
  destruct (match request_json with
            | Some j => py_or j (JDict [])
            | None => JDict []
            end) as [| | | | | |d];
    cbn [method_get bind]; try (now intros [= <-]).
  destruct (py_or (dict_get "message" d) (JStr ""));
    cbn [method_strip bind]; try (now intros [= <-]).
  destruct (py_or (dict_get "sender" d) (py_or (dict_get "sendername" d) (JStr "")));
    cbn [method_strip bind]; now intros [= <-].
Qed.

(** C9, amended.  Take a configured gateway and any request.  When the
    handler cannot read it (a body that is not an object, a message or
    sender without [.strip()]), it raises [AttributeError] before it
    validates anything, and the provider is not called.  It does read
    every request whose body is an object with a message and a sender
    ([sender], else [sendername]) that are strings or falsy.  Then,
    [message] being the message field stripped of surrounding
    whitespace, the checks run in this order: without recipients the answer is the 400
    "recipient number is required" whatever the message; with
    recipients and an empty message it is the 400 "Message content is
    required"; with recipients and 161 characters or more it is the 400
    "exceeds 160 character limit"; and with recipients and 1 to 160
    characters, so with exactly 160, the message is posted to the
    provider unchanged.  In each of the three refusals no call is
    made. *)
Theorem message_length_boundary `{RT : PyRuntime} (cfg : config)
    (request_json : option json) (up : request_result) :
  Str.nonempty (SEMAPHORE_API_KEY cfg) = true ->
  (forall d, request_json = Some (JDict d) ->
     text_or_falsy (dict_get "message" d) ->
     text_or_falsy (py_or (dict_get "sender" d) (dict_get "sendername" d)) ->
     exists message sender_name recipients,
       read_sms_request cfg request_json
       = Returned (message, sender_name, recipients))
  /\
  match read_sms_request cfg request_json with
  | Raised e =>
      e = AttributeError
      /\ send_sms cfg request_json up = (Raised AttributeError, None)
  | Returned (message, sender_name, recipients) =>
      (recipients = "" ->
       send_sms cfg request_json up
       = (Returned (missing_recipients_error, 400%Z), None))
      /\ (recipients <> "" -> message = "" ->
          send_sms cfg request_json up
          = (Returned (missing_message_error, 400%Z), None))
      /\ (recipients <> "" -> (161 <= String.length message)%nat ->
          send_sms cfg request_json up
          = (Returned (message_too_long_error, 400%Z), None))
      /\ (recipients <> "" -> (1 <= String.length message <= 160)%nat ->
          send_sms cfg request_json up
          = (Returned (sms_upstream_response up),
             Some {| form_apikey := SEMAPHORE_API_KEY cfg;
                     form_number := recipients;
                     form_message := message;
                     form_sendername := Str.take 11 sender_name |}))
      /\ (forall d m, request_json = Some (JDict d) ->
                      dict_lookup "message" d = Some (JStr m) ->
                      message = Str.strip m)
  end.
Proof.
  intros Hkey. split.
  { intros d -> Hmessage Hsender. unfold read_sms_request.
    assert (Hpay : py_or (JDict d) (JDict []) = JDict d)
      by (unfold py_or; destruct d; reflexivity).
    rewrite Hpay. cbn [method_get bind].
    assert (Hstrip : forall v, text_or_falsy v ->
              exists s, method_strip (py_or v (JStr "")) = Returned s).
    { intros v [Hv | [s0 ->]]; unfold py_or.
      - rewrite Hv. now eexists.
      - destruct (truthy (JStr s0)); now eexists. }
    destruct (Hstrip _ Hmessage) as [m ->]. cbn [bind].
    assert (Hsend : exists s,
              method_strip (py_or (dict_get "sender" d)
                              (py_or (dict_get "sendername" d) (JStr "")))
              = Returned s).
    { unfold py_or at 1. unfold py_or at 1 in Hsender.
      destruct (truthy (dict_get "sender" d)) eqn:Hs1.
      - destruct Hsender as [Hf | [s0 Hs0]]; [congruence|]. rewrite Hs0. now eexists.
      - now apply Hstrip. }
    destruct Hsend as [sn ->]. cbn [bind]. now eexists _, _, _. }
  destruct (read_sms_request cfg request_json)
    as [[[message sender_name] recipients]|e] eqn:Hread.
  - repeat apply conj.
    + intros ->. unfold send_sms. rewrite Hkey, Hread. reflexivity.
    + intros Hrec ->. unfold send_sms. rewrite Hkey, Hread. simpl negb. cbv iota beta.
      apply nonempty_true in Hrec. rewrite Hrec. reflexivity.
    + intros Hrec Hlen. unfold send_sms. rewrite Hkey, Hread. simpl negb.
      cbv iota beta. apply nonempty_true in Hrec. rewrite Hrec.
      rewrite (length_nonempty message) by lia. simpl negb. cbv iota.
      destruct (Nat.ltb_spec 160 (String.length message)); [reflexivity | lia].
    + intros Hrec Hlen. unfold send_sms. rewrite Hkey, Hread. simpl negb.
      cbv iota beta. apply nonempty_true in Hrec. rewrite Hrec.
      rewrite (length_nonempty message) by lia. simpl negb. cbv iota.
      destruct (Nat.ltb_spec 160 (String.length message)); [lia | reflexivity].
    + intros d m -> Hm. revert Hread. unfold read_sms_request.
      assert (Hpay : py_or (JDict d) (JDict []) = JDict d)
        by (unfold py_or; destruct d; reflexivity).
      rewrite Hpay. cbn [method_get bind]. unfold dict_get at 1. rewrite Hm.
      assert (Hmsg : method_strip (py_or (JStr m) (JStr "")) = Returned (Str.strip m))
        by (unfold py_or; destruct m; reflexivity).
      rewrite Hmsg. clear Hmsg. cbn [bind].
      match goal with
      | |- context [method_strip ?x] => destruct (method_strip x) as [sender|]
      end; cbn [bind]; [|discriminate].
      intros H. inversion H. reflexivity.
  - pose proof (read_sms_request_raises cfg request_json e Hread) as ->.
    split; [reflexivity|]. unfold send_sms. now rewrite Hkey, Hread.
Qed.

Lemma message_length_boundary_witness :
  let message := replicate_char 160 "a" in
  let request_json :=
    Some (JDict [("numbers", JList [JStr "09171234567"; JStr " 09181234567 "]);
                 ("message", JStr message); ("sender", JStr "JeepNiDispatch")]) in
  let up := Sample.answers 200 (Some (JDict [("message_id", JInt 1)])) None in
  send_sms (RT := Ref.runtime) Sample.cfg request_json up
  = (Returned (JDict [("message_id", JInt 1)], 200%Z),
     Some {| form_apikey := "live-key-123";
             form_number := "09171234567,09181234567";
             form_message := message; form_sendername := "JeepNiDispa" |}).
Proof.
  intros message request_json up.
  assert (Hread :
    read_sms_request (RT := Ref.runtime) Sample.cfg request_json
    = Returned (message, "JeepNiDispatch", "09171234567,09181234567"))
    by (vm_compute; reflexivity).
  pose proof (message_length_boundary (RT := Ref.runtime) Sample.cfg request_json up
                eq_refl) as H.
  destruct H as [_ H]. rewrite Hread in H.
  destruct H as (_ & _ & _ & Hforward & _).
  rewrite Hforward; [reflexivity | discriminate | vm_compute; lia].
Defined.

(** ** Single flight (C1) *)

Section SingleFlightFacts.
Import SingleFlight.
Context `{RT : PyRuntime}.
Variable cfg : config.

(** Without a write, caches that miss keep missing: ages only grow. *)
Lemma Qltb_age_mono (t t' ts limit : Q) :
  (t <= t')%Q -> Qltb (t - ts) limit = false -> Qltb (t' - ts) limit = false.
Proof. rewrite !Qltb_false. intros; lra. Qed.

Lemma read_success_stays_cold (c : caches) (t t' : Q) :
  (t <= t')%Q -> read_success c t = None -> read_success c t' = None.
Proof.
  intros Hle. unfold read_success.
  destruct (payload (_balance_cache c)); [|reflexivity].
  destruct (status (_balance_cache c) <? 400)%Z; [|reflexivity].
  destruct (Qltb 0 (ttl (_balance_cache c))); [|reflexivity]. simpl andb.
  destruct (Qltb (t - _) _) eqn:E; [discriminate|].
  now rewrite (Qltb_age_mono _ _ _ _ Hle E).
Qed.

Lemma read_error_stays_cold (c : caches) (t t' : Q) :
  (t <= t')%Q -> read_error c t = None -> read_error c t' = None.
Proof.
  intros Hle. unfold read_error.
  destruct (err_payload (_balance_error_cache c)); [|reflexivity].
  destruct (Qltb 0 (err_ttl (_balance_error_cache c))); [|reflexivity]. simpl andb.
  destruct (Qltb (t - _) _) eqn:E; [discriminate|].
  now rewrite (Qltb_age_mono _ _ _ _ Hle E).
Qed.

Lemma cached_response_stays_cold (c : caches) (t t' : Q) :
  (t <= t')%Q -> cached_response c t = None -> cached_response c t' = None.
Proof.
  intros Hle. unfold cached_response.
  destruct (read_success c t) eqn:Es; [discriminate|]. intros He.
  now rewrite (read_success_stays_cold c t t' Hle Es),
              (read_error_stays_cold c t t' Hle He).
Qed.

(** An entry written at [tw] with a ttl of [T] seconds answers every
    reading before [tw + T]. *)
Lemma success_entry_serves (cs : caches) (deadline : Q) (p : dict) :
  payload (_balance_cache cs) = Some p ->
  (status (_balance_cache cs) < 400)%Z ->
  (0 < ttl (_balance_cache cs))%Q ->
  (deadline <= timestamp (_balance_cache cs) + ttl (_balance_cache cs))%Q ->
  served_before deadline cs.
Proof.
  intros Hp Hs Ht Hd now Hnow. unfold cached_response.
  rewrite (read_success_hit cs now p Hp Hs Ht) by lra. discriminate.
Qed.

Lemma error_entry_serves (cs : caches) (deadline : Q) (p : dict) :
  err_payload (_balance_error_cache cs) = Some p ->
  (0 < err_ttl (_balance_error_cache cs))%Q ->
  (deadline <= err_timestamp (_balance_error_cache cs)
               + err_ttl (_balance_error_cache cs))%Q ->
  served_before deadline cs.
Proof.
  intros Hp Ht Hd now Hnow. unfold cached_response.
  destruct (read_success cs now); [discriminate|].
  unfold read_error. rewrite Hp.
  apply Qltb_true in Ht. rewrite Ht.
  assert (Hage : Qltb (now - err_timestamp (_balance_error_cache cs))
                      (err_ttl (_balance_error_cache cs)) = true)
    by (apply Qltb_true; lra).
  rewrite Hage. discriminate.
Qed.

Section AfterFetch.
Variables (t0 : Q) (cs : caches) (env : balance_env).
Hypothesis Hcache : (0 < BALANCE_CACHE_SECONDS cfg)%Z.
Hypothesis Hwrite : (t0 <= t_write env)%Q.

(** The shortest ttl any branch writes. *)
Let deadline : Q := (t0 + inject_Z (Z.min (BALANCE_CACHE_SECONDS cfg) 5))%Q.

Lemma ttl_covers_deadline (T : Z) :
  (Z.min (BALANCE_CACHE_SECONDS cfg) 5 <= T)%Z ->
  (0 < inject_Z T)%Q /\ (deadline <= t_write env + inject_Z T)%Q.
Proof.
  intros HT.
  assert (H0 : (0 < T)%Z) by lia.
  rewrite Zlt_Qlt in H0. rewrite Zle_Qle in HT.
  change (inject_Z 0) with 0%Q in H0. unfold deadline. split; lra.
Qed.

Lemma store_fresh_serves (p : dict) :
  served_before deadline (store_fresh cfg cs p (t_write env)).
Proof.
  unfold store_fresh.
  destruct (Z.ltb_spec 0 (Z.max (BALANCE_CACHE_SECONDS cfg) 0)); [|lia].
  destruct (ttl_covers_deadline (Z.max (BALANCE_CACHE_SECONDS cfg) 0)) as [H1 H2];
    [lia|].
  eapply success_entry_serves; simpl; [reflexivity | lia | exact H1 | exact H2].
Qed.

Lemma store_error_serves (p : dict) (code T : Z) :
  (5 <= T)%Z -> served_before deadline (store_error cs p code T (t_write env)).
Proof.
  intros HT. destruct (ttl_covers_deadline T) as [H1 H2]; [lia|].
  eapply error_entry_serves; simpl; [reflexivity | exact H1 | exact H2].
Qed.

Lemma generic_error_ttl_floor : (5 <= generic_error_ttl cfg)%Z.
Proof. unfold generic_error_ttl. destruct (0 <? BALANCE_CACHE_SECONDS cfg)%Z; lia. Qed.

Lemma handle_http_error_serves (resp : option http_response) :
  served_before deadline (fst (handle_http_error cfg cs env resp)).
Proof.
  unfold handle_http_error.
  pose proof (retry_after_floor cfg (http_error_header resp)) as Hra.
  destruct (effective_status _ _ _ =? 429)%Z;
    [|apply store_error_serves, generic_error_ttl_floor].
  destruct (payload (_balance_cache cs)) as [cp|];
    [|now apply store_error_serves].
  destruct (truthy (JDict cp) && (status (_balance_cache cs) <? 400)%Z);
    [|now apply store_error_serves].
  destruct (ttl_covers_deadline (retry_after_of cfg (http_error_header resp)))
    as [H1 H2]; [lia|].
  eapply success_entry_serves; simpl; [reflexivity | lia | exact H1 | exact H2].
Qed.

(** Once the call is over, either the caller left by an exception or
    the caches answer until the deadline. *)
Lemma fetch_balance_serves :
  (exists e, snd (fetch_balance cfg cs env) = Raised e)
  \/ served_before deadline (fst (fetch_balance cfg cs env)).
Proof.
  unfold fetch_balance. destruct (upstream env) as [r| |].
  - destruct (raises_for_status r).
    + right. pose proof (handle_http_error_serves (Some r)) as H.
      now destruct (handle_http_error cfg cs env (Some r)).
    + destruct (json_body r) as [body|]; [|right; apply store_fresh_serves].
      destruct (_build_balance_payload cfg (utcnow_iso env) body) as [p|e].
      * right. apply store_fresh_serves.
      * left. now exists e.
  - right. pose proof (handle_http_error_serves None) as H.
    now destruct (handle_http_error cfg cs env None).
  - right. apply store_error_serves, generic_error_ttl_floor.
Qed.

End AfterFetch.

Lemma lookup_set_thread (s : system) (i j : nat) (p q : pc) :
  set_thread i p s !! j = Some q ->
  (j = i /\ q = p) \/ (j <> i /\ threads s !! j = Some q).
Proof.
  unfold set_thread. intros H. apply list_lookup_insert_Some in H.
  destruct H as [(-> & -> & _) | (Hne & H)]; [left | right]; auto.
Qed.

Lemma lookup_set_thread_same (s : system) (i : nat) (p p0 : pc) :
  threads s !! i = Some p0 -> set_thread i p s !! i = Some p.
Proof.
  intros H. unfold set_thread. apply list_lookup_insert_eq.
  eapply lookup_lt_Some, H.
Qed.

(** A caller that has left stays as it is when another one moves. *)
Lemma some_raised_stable (s s' : system) (i : nat) (p p0 : pc) :
  threads s !! i = Some p0 -> finished p0 = false ->
  threads s' = set_thread i p s ->
  some_raised s -> some_raised s'.
Proof.
  intros Hi Hp0 Hs' (j & e & Hj). exists j, e. rewrite Hs'. unfold set_thread.
  rewrite list_lookup_insert_ne; [exact Hj|].
  intros ->. rewrite Hi in Hj. injection Hj as ->. discriminate.
Qed.

Lemma step_clock_mono (s s' : system) : step cfg s s' -> (clock s <= clock s')%Q.
Proof. intros H; destruct H; simpl; lra. Qed.

Lemma invariant_cold_start (c : caches) (n : nat) (t0 deadline : Q) :
  invariant c t0 deadline n (cold_start c n t0).
Proof.
  constructor; simpl.
  - lra.
  - apply length_replicate.
  - intros i H. apply lookup_replicate in H as [H _]. discriminate.
  - intros i [H|H]; apply lookup_replicate in H as [H _]; discriminate.
  - intros _. split; [reflexivity|]. intros i p H.
    apply lookup_replicate in H as [-> _]. now left.
  - intros H. now destruct H.
Qed.

Section Preservation.
Variables (c : caches) (t0 horizon : Q) (n : nat).
Hypothesis Hcache : (0 < BALANCE_CACHE_SECONDS cfg)%Z.
Hypothesis Hcold : cached_response c t0 = None.

(** The shortest ttl any branch writes. *)
Let span : Q := inject_Z (Z.min (BALANCE_CACHE_SECONDS cfg) 5).

(** The holder of the fetch lock is alone in the locked region. *)
Lemma lock_holder_unique (s : system) (i j : nat) :
  invariant c t0 horizon n s ->
  threads s !! i = Some HoldingFetchLock \/ threads s !! i = Some CallingUpstream ->
  threads s !! j = Some HoldingFetchLock \/ threads s !! j = Some CallingUpstream ->
  i = j.
Proof.
  intros Inv Hi Hj. pose proof (inv_lock _ _ _ _ _ Inv i Hi) as Li.
  pose proof (inv_lock _ _ _ _ _ Inv j Hj) as Lj. congruence.
Qed.

(** The step that ends a provider call is seen by [call_ended]. *)
Lemma call_ended_complete (s s' : system) (i : nat) (r : outcome response) :
  threads s !! i = Some CallingUpstream ->
  threads s' = set_thread i (Finished r) s ->
  call_ended s s' = true.
Proof.
  unfold call_ended, set_thread. intros Hi ->. revert i Hi.
  induction (threads s) as [|p l IH]; intros [|i] Hi; try discriminate.
  - injection Hi as ->. reflexivity.
  - simpl. rewrite (IH i Hi). apply orb_true_r.
Qed.

Lemma step_preserves_invariant (s s' : system) :
  invariant c t0 horizon n s -> step cfg s s' -> (clock s' <= horizon)%Q ->
  (call_ended s s' = true -> (horizon < clock s' + span)%Q) ->
  invariant c t0 horizon n s'.
Proof.
  intros Inv Hstep Hdl Hfresh.
  pose proof (inv_clock _ _ _ _ _ Inv) as Hclk.
  destruct Hstep as [s i Hi Hk | s i now r Hi Hk Hnow Hhit | s i now Hi Hk Hnow Hmiss
                    | s i Hi Hfree | s i now r Hi Hnow Hhit | s i now Hi Hnow Hmiss
                    | s i env Hi Hel Hwr];
    try (now destruct (inv_past_fast_path _ _ _ _ _ Inv i)).
  - (* the fetch lock is taken *)
    constructor; simpl.
    + exact Hclk.
    + unfold set_thread. rewrite length_insert. apply (inv_length _ _ _ _ _ Inv).
    + intros j Hj. apply lookup_set_thread in Hj as [[_ Hq] | [_ Hj]];
        [discriminate | exact (inv_past_fast_path _ _ _ _ _ Inv j Hj)].
    + intros j Hj.
      assert (Hcase : j = i \/ (threads s !! j = Some HoldingFetchLock
                                \/ threads s !! j = Some CallingUpstream)).
      { destruct Hj as [Hj|Hj]; apply lookup_set_thread in Hj as [[-> _] | [_ Hj]];
          auto. }
      destruct Hcase as [-> | Hold]; [reflexivity|].
      pose proof (inv_lock _ _ _ _ _ Inv j Hold) as L. congruence.
    + intros Hc. destruct (inv_before_call _ _ _ _ _ Inv Hc) as [Hcs Hth].
      split; [exact Hcs|]. intros j q Hj.
      apply lookup_set_thread in Hj as [[_ ->] | [_ Hj]]; [now right | eauto].
    + intros Hc. destruct (inv_after_call _ _ _ _ _ Inv Hc)
        as [Hr | [H1 [[k Hcall] | Hhot]]].
      * left. eapply some_raised_stable; [exact Hi | reflexivity | reflexivity | exact Hr].
      * pose proof (inv_lock _ _ _ _ _ Inv k (or_intror Hcall)) as L. congruence.
      * right. split; [exact H1 | now right].
  - (* the re-check hits *)
    constructor; simpl.
    + lra.
    + unfold set_thread. rewrite length_insert. apply (inv_length _ _ _ _ _ Inv).
    + intros j Hj. apply lookup_set_thread in Hj as [[_ Hq] | [_ Hj]];
        [discriminate | exact (inv_past_fast_path _ _ _ _ _ Inv j Hj)].
    + intros j Hj.
      assert (Hold : j <> i /\ (threads s !! j = Some HoldingFetchLock
                                \/ threads s !! j = Some CallingUpstream)).
      { destruct Hj as [Hj|Hj]; apply lookup_set_thread in Hj as [[_ Hq] | [Hne Hj]];
          try discriminate; auto. }
      destruct Hold as [Hne Hold]. destruct Hne.
      exact (lock_holder_unique s j i Inv Hold (or_introl Hi)).
    + intros Hc. destruct (inv_before_call _ _ _ _ _ Inv Hc) as [Hcs _].
      rewrite Hcs in Hhit.
      rewrite (cached_response_stays_cold c t0 now) in Hhit by (lra || exact Hcold).
      discriminate.
    + intros Hc. destruct (inv_after_call _ _ _ _ _ Inv Hc)
        as [Hr | [H1 [[k Hcall] | Hhot]]].
      * left. eapply some_raised_stable; [exact Hi | reflexivity | reflexivity | exact Hr].
      * pose proof (lock_holder_unique s k i Inv (or_intror Hcall) (or_introl Hi)) as ->.
        congruence.
      * right. split; [exact H1 | now right].
  - (* the re-check misses: the provider is called *)
    simpl in Hdl. constructor; simpl.
    + lra.
    + unfold set_thread. rewrite length_insert. apply (inv_length _ _ _ _ _ Inv).
    + intros j Hj. apply lookup_set_thread in Hj as [[_ Hq] | [_ Hj]];
        [discriminate | exact (inv_past_fast_path _ _ _ _ _ Inv j Hj)].
    + intros j Hj.
      assert (Hcase : j = i \/ (threads s !! j = Some HoldingFetchLock
                                \/ threads s !! j = Some CallingUpstream)).
      { destruct Hj as [Hj|Hj]; apply lookup_set_thread in Hj as [[-> _] | [_ Hj]];
          auto. }
      destruct Hcase as [-> | Hold];
        [exact (inv_lock _ _ _ _ _ Inv i (or_introl Hi))
        | exact (inv_lock _ _ _ _ _ Inv j Hold)].
    + discriminate.
    + intros _. destruct (Nat.eq_dec (upstream_calls s) 0) as [Hz | Hnz].
      * right. split; [now rewrite Hz|]. left. exists i.
        eapply lookup_set_thread_same, Hi.
      * destruct (inv_after_call _ _ _ _ _ Inv Hnz) as [Hr | [H1 [[k Hcall] | Hhot]]].
        -- left. eapply some_raised_stable;
             [exact Hi | reflexivity | reflexivity | exact Hr].
        -- pose proof (lock_holder_unique s k i Inv (or_intror Hcall) (or_introl Hi))
             as ->. congruence.
        -- now destruct (Hhot now Hdl).
  - (* the provider call is over: the answer is stored at [t_write env] *)
    assert (Hended : (horizon < t_write env + span)%Q).
    { apply Hfresh. eapply call_ended_complete; [exact Hi | reflexivity]. }
    simpl in Hdl. constructor; simpl.
    + lra.
    + unfold set_thread. rewrite length_insert. apply (inv_length _ _ _ _ _ Inv).
    + intros j Hj. apply lookup_set_thread in Hj as [[_ Hq] | [_ Hj]];
        [discriminate | exact (inv_past_fast_path _ _ _ _ _ Inv j Hj)].
    + intros j Hj.
      assert (Hold : j <> i /\ (threads s !! j = Some HoldingFetchLock
                                \/ threads s !! j = Some CallingUpstream)).
      { destruct Hj as [Hj|Hj]; apply lookup_set_thread in Hj as [[_ Hq] | [Hne Hj]];
          try discriminate; auto. }
      destruct Hold as [Hne Hold]. destruct Hne.
      exact (lock_holder_unique s j i Inv Hold (or_intror Hi)).
    + intros Hc. destruct (inv_before_call _ _ _ _ _ Inv Hc) as [_ Hth].
      destruct (Hth i _ Hi); discriminate.
    + intros Hc. destruct (inv_after_call _ _ _ _ _ Inv Hc)
        as [Hr | [H1 _]].
      * left. eapply some_raised_stable; [exact Hi | reflexivity | reflexivity | exact Hr].
      * destruct (fetch_balance_serves (t_write env) (sys_caches s) env Hcache)
          as [[e He] | Hhot]; [lra | |].
        -- left. exists i, e. rewrite He. eapply lookup_set_thread_same, Hi.
        -- right. split; [exact H1|]. right. intros now Hnow. apply Hhot.
           unfold span in Hended. lra.
Qed.

Lemma run_clock_mono (path : list system) (s : system) :
  is_run cfg s path -> (clock s <= clock (last_state s path))%Q.
Proof.
  revert s. induction path as [|s' rest IH]; intros s; simpl; [lra|].
  intros [Hstep Hrest]. pose proof (step_clock_mono _ _ Hstep).
  specialize (IH s' Hrest). lra.
Qed.

Lemma run_preserves_invariant (path : list system) (s : system) :
  invariant c t0 horizon n s -> is_run cfg s path ->
  (clock (last_state s path) <= horizon)%Q ->
  answered_in_time span horizon s path ->
  invariant c t0 horizon n (last_state s path).
Proof.
  revert s. induction path as [|s' rest IH]; intros s Inv; simpl; [auto|].
  intros [Hstep Hrest] Hend [Hfresh Htime].
  pose proof (run_clock_mono rest s' Hrest) as Hmono.
  apply (IH s'); [|exact Hrest | exact Hend | exact Htime].
  apply (step_preserves_invariant s s'); [exact Inv | exact Hstep | lra | exact Hfresh].
Qed.

Lemma is_run_steps (path : list system) (s : system) :
  is_run cfg s path -> steps cfg s (last_state s path).
Proof.
  revert s. induction path as [|s' rest IH]; intros s; simpl; [intros _; apply rtc_refl|].
  intros [Hstep Hrest]. eapply rtc_l; [exact Hstep | now apply IH].
Qed.

End Preservation.

End SingleFlightFacts.

Section SingleFlightRuns.
Import SingleFlight.

Lemma slow_provider_is_run :
  is_run (RT := Ref.runtime) Sample.cfg (cold_start initial_caches 2 10)
    Sample.slow_provider_run.
Proof.
  repeat split.
  - apply (step_acquire (RT := Ref.runtime) Sample.cfg
             (cold_start initial_caches 2 10) 0); reflexivity.
  - apply (step_recheck_miss (RT := Ref.runtime) Sample.cfg
             (Sample.two_callers initial_caches (Some 0%nat)
                HoldingFetchLock WaitingFetchLock 0 10) 0 10);
      [reflexivity | simpl; lra | reflexivity].
  - apply (step_complete (RT := Ref.runtime) Sample.cfg
             (Sample.two_callers initial_caches (Some 0%nat)
                CallingUpstream WaitingFetchLock 1 10) 0 Sample.fetch_at_16);
      [reflexivity | simpl; lra | simpl; lra].
  - apply (step_acquire (RT := Ref.runtime) Sample.cfg
             (Sample.two_callers
                (fst (fetch_balance (RT := Ref.runtime) Sample.cfg initial_caches
                        Sample.fetch_at_16))
                None
                (Finished (snd (fetch_balance (RT := Ref.runtime) Sample.cfg
                                  initial_caches Sample.fetch_at_16)))
                WaitingFetchLock 1 16) 1); reflexivity.
  - apply (step_recheck_hit (RT := Ref.runtime) Sample.cfg
             (Sample.two_callers
                (fst (fetch_balance (RT := Ref.runtime) Sample.cfg initial_caches
                        Sample.fetch_at_16))
                (Some 1%nat)
                (Finished (snd (fetch_balance (RT := Ref.runtime) Sample.cfg
                                  initial_caches Sample.fetch_at_16)))
                HoldingFetchLock 1 16) 1 17
             (JDict Sample.balance_payload, 200%Z));
      [reflexivity | simpl; lra | reflexivity].
Qed.

(** The time limit cannot be dropped: with a ttl of 60 seconds, a waiter
    that re-checks 69 seconds after the answer was stored finds the
    entry expired and calls the provider again. *)
Lemma waiter_after_expiry_calls_again :
  exists s,
    steps (RT := Ref.runtime) Sample.cfg (cold_start initial_caches 2 10) s
    /\ all_finished s = true
    /\ (forall i e, threads s !! i <> Some (Finished (Raised e)))
    /\ upstream_calls s = 2%nat.
Proof.
  eexists. split.
  { eapply rtc_l.
    { apply (step_acquire (RT := Ref.runtime) Sample.cfg _ 0); reflexivity. }
    eapply rtc_l.
    { apply (step_recheck_miss (RT := Ref.runtime) Sample.cfg _ 0 10);
        [reflexivity | simpl; lra | reflexivity]. }
    eapply rtc_l.
    { apply (step_complete (RT := Ref.runtime) Sample.cfg _ 0
               (Sample.at_time 11 (Sample.answers 200 (Some Sample.account_json) None)));
        [reflexivity | simpl; lra | simpl; lra]. }
    eapply rtc_l.
    { apply (step_acquire (RT := Ref.runtime) Sample.cfg _ 1); reflexivity. }
    eapply rtc_l.
    { apply (step_recheck_miss (RT := Ref.runtime) Sample.cfg _ 1 80);
        [reflexivity | simpl; lra | reflexivity]. }
    eapply rtc_l.
    { apply (step_complete (RT := Ref.runtime) Sample.cfg _ 1
               (Sample.at_time 81 (Sample.answers 200 (Some Sample.account_json) None)));
        [reflexivity | simpl; lra | simpl; lra]. }
    apply rtc_refl. }
  split; [reflexivity|]. split; [|reflexivity].
  intros [|[|i]] e H; vm_compute in H; discriminate.
Qed.

(** With [SEMAPHORE_BALANCE_CACHE_SECONDS=0] a successful answer is not
    stored, so the second caller, re-checking under the fetch lock, still
    finds both caches cold and calls the provider too. *)
Lemma two_callers_call_twice_without_success_ttl :
  exists s,
    steps (RT := Ref.runtime) Sample.uncached_cfg (cold_start initial_caches 2 10) s
    /\ Str.nonempty (SEMAPHORE_API_KEY Sample.uncached_cfg) = true
    /\ cached_response initial_caches 10 = None
    /\ all_finished s = true
    /\ threads s
       = [Finished (Returned (JDict Sample.balance_payload, 200%Z));
          Finished (Returned (JDict Sample.balance_payload, 200%Z))]
    /\ (clock s == 10)%Q
    /\ upstream_calls s = 2%nat.
Proof.
  eexists. split.
  { eapply rtc_l.
    { apply (step_acquire (RT := Ref.runtime) Sample.uncached_cfg _ 0); reflexivity. }
    eapply rtc_l.
    { apply (step_recheck_miss (RT := Ref.runtime) Sample.uncached_cfg _ 0 10);
        [reflexivity | simpl; lra | reflexivity]. }
    eapply rtc_l.
    { apply (step_complete (RT := Ref.runtime) Sample.uncached_cfg _ 0
               (Sample.at_time 10 (Sample.answers 200 (Some Sample.account_json) None)));
        [reflexivity | simpl; lra | simpl; lra]. }
    eapply rtc_l.
    { apply (step_acquire (RT := Ref.runtime) Sample.uncached_cfg _ 1); reflexivity. }
    eapply rtc_l.
    { apply (step_recheck_miss (RT := Ref.runtime) Sample.uncached_cfg _ 1 10);
        [reflexivity | simpl; lra | reflexivity]. }
    eapply rtc_l.
    { apply (step_complete (RT := Ref.runtime) Sample.uncached_cfg _ 1
               (Sample.at_time 10 (Sample.answers 200 (Some Sample.account_json) None)));
        [reflexivity | simpl; lra | simpl; lra]. }
    apply rtc_refl. }
  repeat split; vm_compute; congruence.
Qed.

End SingleFlightRuns.

(** One caller alone goes through the steps to exactly what
    [get_sms_balance] computes: the step relation and the function are
    two readings of the same handler. *)
Lemma lone_caller_is_get_sms_balance `{RT : PyRuntime} (cfg : config) (c : caches)
    (env : balance_env) (t : Q) :
  (t <= t_fast env)%Q -> (t_fast env <= t_locked env)%Q ->
  (t_locked env <= t_elapsed env)%Q -> (t_elapsed env <= t_write env)%Q ->
  exists s',
    SingleFlight.steps cfg
      {| SingleFlight.sys_caches := c; SingleFlight.fetch_lock := None;
         SingleFlight.threads := [SingleFlight.AtFastPath];
         SingleFlight.upstream_calls := 0; SingleFlight.clock := t |} s'
    /\ SingleFlight.fetch_lock s' = None
    /\ get_sms_balance cfg c env
       = (SingleFlight.sys_caches s',
          match SingleFlight.threads s' with
          | [SingleFlight.Finished r] => r
          | _ => Raised ValueError
          end,
          SingleFlight.upstream_calls s').
Proof.
  intros H1 H2 H3 H4. unfold get_sms_balance.
  destruct (Str.nonempty (SEMAPHORE_API_KEY cfg)) eqn:Hkey; simpl negb; cbv iota.
  - destruct (cached_response c (t_fast env)) as [r|] eqn:Hfast.
    + eexists. split.
      { eapply rtc_once.
        apply (SingleFlight.step_fast_hit cfg _ 0 (t_fast env) r);
          [reflexivity | exact Hkey | exact H1 | exact Hfast]. }
      split; reflexivity.
    + destruct (cached_response c (t_locked env)) as [r|] eqn:Hlocked.
      * eexists. split.
        { eapply rtc_l.
          { apply (SingleFlight.step_fast_miss cfg _ 0 (t_fast env));
              [reflexivity | exact Hkey | exact H1 | exact Hfast]. }
          eapply rtc_l.
          { apply (SingleFlight.step_acquire cfg _ 0); reflexivity. }
          eapply rtc_once.
          apply (SingleFlight.step_recheck_hit cfg _ 0 (t_locked env) r);
            [reflexivity | exact H2 | exact Hlocked]. }
        split; reflexivity.
      * eexists. split.
        { eapply rtc_l.
          { apply (SingleFlight.step_fast_miss cfg _ 0 (t_fast env));
              [reflexivity | exact Hkey | exact H1 | exact Hfast]. }
          eapply rtc_l.
          { apply (SingleFlight.step_acquire cfg _ 0); reflexivity. }
          eapply rtc_l.
          { apply (SingleFlight.step_recheck_miss cfg _ 0 (t_locked env));
              [reflexivity | exact H2 | exact Hlocked]. }
          eapply rtc_once.
          apply (SingleFlight.step_complete cfg _ 0 env);
            [reflexivity | exact H3 | exact H4]. }
        split; [reflexivity|].
        simpl. now destruct (fetch_balance cfg c env).
  - eexists. split.
    { eapply rtc_once.
      apply (SingleFlight.step_not_configured cfg _ 0); [reflexivity | exact Hkey]. }
    split; reflexivity.
Qed.

(** C1, amended.  [n] callers have all found both caches cold at [t0];
    the success ttl [BALANCE_CACHE_SECONDS] is positive; the callers run
    in any interleaving, and the provider may take as long as it likes.
    The run is over before the answer stored by a provider call is as
    old as the shortest ttl the code writes (the configured one, or 5
    seconds if that is less), counted from the cache write, and no
    caller has left by an exception.  Then at most one call has gone to
    the provider, exactly one as soon as some caller has finished and so
    when the whole group has; the caller in the locked region is alone
    there and holds the fetch lock.  Each of the others re-checks the
    caches under the fetch lock ([step_recheck_hit]) and leaves with
    what it finds. *)
Theorem single_flight `{RT : PyRuntime} (cfg : config) (c : caches) (n : nat)
    (t0 : Q) (path : list SingleFlight.system) :
  (0 < BALANCE_CACHE_SECONDS cfg)%Z ->
  cached_response c t0 = None ->
  SingleFlight.is_run cfg (SingleFlight.cold_start c n t0) path ->
  SingleFlight.answers_still_fresh
    (inject_Z (Z.min (BALANCE_CACHE_SECONDS cfg) 5))
    (SingleFlight.cold_start c n t0) path ->
  let s := SingleFlight.last_state (SingleFlight.cold_start c n t0) path in
  (forall i e,
     SingleFlight.threads s !! i <> Some (SingleFlight.Finished (Raised e))) ->
  (SingleFlight.upstream_calls s <= 1)%nat
  /\ (forall i r, SingleFlight.threads s !! i = Some (SingleFlight.Finished r) ->
                  SingleFlight.upstream_calls s = 1%nat)
  /\ (SingleFlight.all_finished s = true -> (0 < n)%nat ->
      SingleFlight.upstream_calls s = 1%nat)
  /\ (forall i j,
        SingleFlight.threads s !! i = Some SingleFlight.CallingUpstream ->
        SingleFlight.threads s !! j = Some SingleFlight.CallingUpstream -> i = j)
  /\ (forall i,
        SingleFlight.threads s !! i = Some SingleFlight.HoldingFetchLock
        \/ SingleFlight.threads s !! i = Some SingleFlight.CallingUpstream ->
        SingleFlight.fetch_lock s = Some i).
Proof.
  intros Hcache Hcold Hrun Hfresh s Hnoexc.
  assert (Inv : SingleFlight.invariant c t0 (SingleFlight.clock s) n s).
  { apply (run_preserves_invariant cfg c t0 (SingleFlight.clock s) n Hcache Hcold);
      [apply invariant_cold_start | exact Hrun | apply Qle_refl | exact Hfresh]. }
  assert (Hone : SingleFlight.upstream_calls s <> 0%nat ->
                 SingleFlight.upstream_calls s = 1%nat).
  { intros Hnz.
    destruct (SingleFlight.inv_after_call _ _ _ _ _ Inv Hnz) as [(i & e & Hr) | [H1 _]];
      [now destruct (Hnoexc i e) | exact H1]. }
  assert (Hfin : forall i r,
            SingleFlight.threads s !! i = Some (SingleFlight.Finished r) ->
            SingleFlight.upstream_calls s = 1%nat).
  { intros i r Hi. apply Hone. intros Hz.
    destruct (SingleFlight.inv_before_call _ _ _ _ _ Inv Hz) as [_ Hth].
    destruct (Hth i _ Hi); discriminate. }
  repeat apply conj.
  - destruct (Nat.eq_dec (SingleFlight.upstream_calls s) 0) as [Hz | Hnz];
      [lia | rewrite (Hone Hnz); lia].
  - exact Hfin.
  - intros Hall Hn.
    pose proof (SingleFlight.inv_length _ _ _ _ _ Inv) as Hlen.
    destruct (lookup_lt_is_Some_2 (SingleFlight.threads s) 0%nat) as [p Hp]; [lia|].
    unfold SingleFlight.all_finished in Hall.
    rewrite forallb_forall in Hall.
    assert (Hfp : SingleFlight.finished p = true)
      by (apply Hall, list_elem_of_In; eapply list_elem_of_lookup_2, Hp).
    destruct p as [| | | |r]; try discriminate.
    exact (Hfin 0%nat r Hp).
  - intros i j Hi Hj.
    exact (lock_holder_unique c t0 (SingleFlight.clock s) n s i j Inv
             (or_intror Hi) (or_intror Hj)).
  - exact (SingleFlight.inv_lock _ _ _ _ _ Inv).
Qed.

Lemma single_flight_witness :
  let s :=
    SingleFlight.last_state (SingleFlight.cold_start initial_caches 2 10)
      Sample.slow_provider_run in
  SingleFlight.all_finished s = true
  /\ (10 + inject_Z (Z.min (BALANCE_CACHE_SECONDS Sample.cfg) 5)
      <= SingleFlight.clock s)%Q
  /\ SingleFlight.upstream_calls s = 1%nat.
Proof.
  intros s. split; [reflexivity|]. split; [vm_compute; discriminate|].
  destruct (single_flight (RT := Ref.runtime) Sample.cfg initial_caches 2 10
              Sample.slow_provider_run) as (_ & _ & Hall & _).
  - reflexivity.
  - reflexivity.
  - exact slow_provider_is_run.
  - repeat split; intros H; try discriminate H; vm_compute; reflexivity.
  - intros [|[|i]] e H; vm_compute in H; discriminate.
  - apply Hall; [reflexivity | lia].
Defined.

(** * Further properties of the code *)

(** ** The rate limiter, beyond one call *)

Section RateLimiterMore.
Import RateLimiter.

(** After [is_allowed], with a positive window, every record of the
    client is later than [now] minus the window.  When none of the
    client's earlier records is later than [now] (the clock has not gone
    back), none is afterwards, so that every record lies in the window
    that ends at [now].  After a request that was let through there are
    at most [max_requests] records. *)
Theorem records_within_window_and_limit (self : SimpleRateLimiter) (key : string)
    (max_requests window_seconds now : Z) :
  (0 < window_seconds)%Z ->
  let result := is_allowed self key max_requests window_seconds now in
  Forall (fun t => (now - timedelta window_seconds < t)%Z)
         (requests_of (snd result) key)
  /\ (Forall (fun t => (t <= now)%Z) (requests_of self key) ->
      Forall (fun t => (now - timedelta window_seconds < t <= now)%Z)
             (requests_of (snd result) key))
  /\ (fst result = true ->
      (Z.of_nat (length (requests_of (snd result) key)) <= max_requests)%Z).
Proof.
  intros Hw result. unfold result.
  set (kept := filter (fun t => (now - timedelta window_seconds < t)%Z)
                      (requests_of self key)).
  assert (Hkept : Forall (fun t => (now - timedelta window_seconds < t)%Z) kept).
  { apply Forall_forall. intros t Ht.
    unfold kept in Ht. now apply list_elem_of_filter in Ht as [Ht _]. }
  assert (Hpast : Forall (fun t => (t <= now)%Z) (requests_of self key) ->
                  Forall (fun t => (now - timedelta window_seconds < t <= now)%Z) kept).
  { intros Hold. apply Forall_forall. intros t Ht.
    unfold kept in Ht. apply list_elem_of_filter in Ht as [Hlo Hin].
    rewrite Forall_forall in Hold. split; [exact Hlo | now apply Hold]. }
  destruct (Z_le_gt_dec max_requests (Z.of_nat (length kept))) as [Hfull | Hroom].
  - rewrite is_allowed_reject by exact Hfull. simpl.
    rewrite requests_of_insert.
    split; [exact Hkept|]. split; [exact Hpast | discriminate].
  - rewrite is_allowed_accept by (fold kept; lia). simpl.
    rewrite requests_of_insert. repeat apply conj.
    + apply Forall_app. split; [exact Hkept|].
      constructor; [unfold timedelta; lia | constructor].
    + intros Hold. apply Forall_app. split; [now apply Hpast|].
      constructor; [unfold timedelta; lia | constructor].
    + intros _. fold kept. rewrite length_app. simpl. lia.
Qed.

Lemma records_within_window_and_limit_witness :
  Forall (fun t => (61000000 - timedelta 60 < t <= 61000000)%Z)
         (requests_of (snd (is_allowed
                              {| requests := {["10.0.0.7" := [0; 2000000]%Z]} |}
                              "10.0.0.7" 3 60 61000000)) "10.0.0.7").
Proof.
  destruct (records_within_window_and_limit
              {| requests := {["10.0.0.7" := [0; 2000000]%Z]} |}
              "10.0.0.7" 3 60 61000000) as (_ & Hwithin & _).
  - reflexivity.
  - apply Hwithin. repeat constructor; vm_compute; discriminate.
Defined.

(** Neither method ever removes a client: afterwards the limiter knows
    the clients it knew before, and the one it was asked about. *)
Theorem clients_are_never_evicted (self : SimpleRateLimiter) (key : string)
    (max_requests window_seconds now : Z) :
  dom (requests (snd (is_allowed self key max_requests window_seconds now)))
  = {[key]} ∪ dom (requests self)
  /\ dom (requests (snd (get_retry_after self key window_seconds now)))
     = {[key]} ∪ dom (requests self).
Proof.
  split.
  - unfold is_allowed.
    destruct (max_requests <=? _)%Z; simpl; apply dom_insert_L.
  - unfold get_retry_after.
    destruct (requests_of self key) as [|t ts] eqn:E.
    + simpl. rewrite <- E at 1. apply dom_insert_L.
    + destruct (now <? _)%Z; simpl; rewrite <- E; apply dom_insert_L.
Qed.

End RateLimiterMore.

Section TrafficFacts.
Import RateLimiter Traffic.
Variables (key : string) (max_requests window_seconds : Z).
Hypothesis Hwindow : (0 < window_seconds)%Z.

Lemma filter_window_shift (prev now : Z) (l : list Z) :
  (prev <= now)%Z ->
  filter (fun t => (now - timedelta window_seconds < t)%Z)
         (filter (fun t => (prev - timedelta window_seconds < t)%Z) l)
  = filter (fun t => (now - timedelta window_seconds < t)%Z) l.
Proof.
  intros Hle. induction l as [|x l IH]; [reflexivity|].
  rewrite (filter_cons (fun t => (prev - _ < t)%Z)).
  rewrite (filter_cons (fun t => (now - _ < t)%Z) x l).
  destruct (decide (prev - timedelta window_seconds < x)%Z) as [Hp|Hp];
    destruct (decide (now - timedelta window_seconds < x)%Z) as [Hn|Hn];
    try lia.
  - rewrite filter_cons, decide_True by exact Hn. now rewrite IH.
  - rewrite filter_cons, decide_False by exact Hn. exact IH.
  - exact IH.
Qed.

(** What the limiter holds for the client after a run of requests: the
    accepted readings that are still inside the window of the last
    one. *)
Lemma ask_all_records (times : list Z) :
  forall (self : SimpleRateLimiter) (acc : list Z) (prev : Z),
    requests_of self key
    = filter (fun t => (prev - timedelta window_seconds < t)%Z) acc ->
    ascending prev times ->
    requests_of (snd (ask_all self key max_requests window_seconds times)) key
    = filter (fun t => (last_reading prev times - timedelta window_seconds < t)%Z)
        (acc ++ accepted times
                  (fst (ask_all self key max_requests window_seconds times)))%list.
Proof.
  induction times as [|t rest IH]; intros self acc prev Hrec Hasc.
  - simpl. now rewrite app_nil_r.
  - destruct Hasc as [Hle Hasc]. cbn [ask_all last_reading].
    set (kept := filter (fun x => (t - timedelta window_seconds < x)%Z)
                        (requests_of self key)).
    assert (Hkept : kept = filter (fun x => (t - timedelta window_seconds < x)%Z) acc)
      by (unfold kept; rewrite Hrec; now apply filter_window_shift).
    destruct (Z_le_gt_dec max_requests (Z.of_nat (length kept))) as [Hfull | Hroom].
    + rewrite is_allowed_reject by exact Hfull. fold kept.
      specialize (IH {| requests := <[key := kept]> (requests self) |} acc t).
      destruct (ask_all _ key max_requests window_seconds rest) as [verdicts self2].
      cbn [fst snd accepted] in *. apply IH; [|exact Hasc].
      now rewrite requests_of_insert.
    + rewrite is_allowed_accept by (fold kept; lia). fold kept.
      specialize (IH {| requests := <[key := (kept ++ [t])%list]> (requests self) |}
                     (acc ++ [t])%list t).
      destruct (ask_all _ key max_requests window_seconds rest) as [verdicts self2].
      cbn [fst snd accepted] in *.
      rewrite <- app_assoc in IH. apply IH; [|exact Hasc].
      rewrite requests_of_insert, filter_app, <- Hkept.
      rewrite filter_cons, decide_True by (unfold timedelta; lia).
      now rewrite filter_nil.
Qed.

Lemma ask_all_count (times : list Z) :
  forall self : SimpleRateLimiter,
    (Z.of_nat (length (requests_of self key)) <= Z.max max_requests 0)%Z ->
    (Z.of_nat (length (requests_of
                         (snd (ask_all self key max_requests window_seconds times))
                         key))
     <= Z.max max_requests 0)%Z.
Proof.
  induction times as [|t rest IH]; intros self Hlen; [exact Hlen|].
  cbn [ask_all].
  set (kept := filter (fun x => (t - timedelta window_seconds < x)%Z)
                      (requests_of self key)).
  assert (Hk : (length kept <= length (requests_of self key))%nat)
    by apply length_filter.
  destruct (Z_le_gt_dec max_requests (Z.of_nat (length kept))) as [Hfull | Hroom].
  - rewrite is_allowed_reject by exact Hfull. fold kept.
    specialize (IH {| requests := <[key := kept]> (requests self) |}).
    destruct (ask_all _ key max_requests window_seconds rest) as [verdicts self2].
    cbn [snd] in *. apply IH. rewrite requests_of_insert. lia.
  - rewrite is_allowed_accept by (fold kept; lia). fold kept.
    specialize (IH {| requests := <[key := (kept ++ [t])%list]> (requests self) |}).
    destruct (ask_all _ key max_requests window_seconds rest) as [verdicts self2].
    cbn [snd] in *. apply IH. rewrite requests_of_insert, length_app. simpl. lia.
Qed.

End TrafficFacts.

(** A client's requests arrive at readings that never go back, at a
    limiter that has not seen the client, with a positive window.  At
    any point, of the requests let through so far, those inside the
    window that ends at the latest request number at most
    [max_requests]: the limit is kept over every window, not only
    between resets. *)
Theorem never_more_than_limit_in_a_window (key : string)
    (max_requests window_seconds prev : Z) (times : list Z) :
  (0 < window_seconds)%Z ->
  Traffic.ascending prev times ->
  let verdicts :=
    fst (Traffic.ask_all RateLimiter.init key max_requests window_seconds times) in
  let latest := Traffic.last_reading prev times in
  (Z.of_nat (length (filter
                       (fun t => (latest - RateLimiter.timedelta window_seconds < t)%Z)
                       (Traffic.accepted times verdicts)))
   <= Z.max max_requests 0)%Z.
Proof.
  intros Hw Hasc verdicts latest.
  pose proof (ask_all_records key max_requests window_seconds Hw times
                RateLimiter.init [] prev) as Hrec.
  simpl app in Hrec. unfold verdicts, latest. rewrite <- Hrec.
  - apply ask_all_count. unfold RateLimiter.requests_of, RateLimiter.init. simpl.
    rewrite lookup_empty. simpl. lia.
  - unfold RateLimiter.requests_of, RateLimiter.init. simpl.
    now rewrite lookup_empty.
  - exact Hasc.
Qed.

Lemma never_more_than_limit_in_a_window_witness :
  let times := [0; 1000000; 30000000; 59000000; 60500000; 61000000]%Z in
  fst (Traffic.ask_all RateLimiter.init "10.0.0.7" 2 60 times)
  = [true; true; false; false; true; true]
  /\ (Z.of_nat (length (filter
                          (fun t => (61000000 - RateLimiter.timedelta 60 < t)%Z)
                          (Traffic.accepted times
                             (fst (Traffic.ask_all RateLimiter.init "10.0.0.7" 2 60
                                     times)))))
      <= 2)%Z.
Proof.
  intros times. split; [vm_compute; reflexivity|].
  apply (never_more_than_limit_in_a_window "10.0.0.7" 2 60 0 times).
  - reflexivity.
  - simpl. lia.
Defined.

Section RetryHint.
Import RateLimiter.

(** What a rejecting [is_allowed] leaves behind. *)
Lemma is_allowed_rejected (self : SimpleRateLimiter) (key : string)
    (max_requests window_seconds now : Z) :
  fst (is_allowed self key max_requests window_seconds now) = false ->
  let kept := filter (fun t => (now - timedelta window_seconds < t)%Z)
                     (requests_of self key) in
  (max_requests <= Z.of_nat (length kept))%Z
  /\ requests_of (snd (is_allowed self key max_requests window_seconds now)) key
     = kept.
Proof.
  intros Hrej kept.
  destruct (Z_le_gt_dec max_requests (Z.of_nat (length kept))) as [Hfull | Hroom].
  - split; [exact Hfull|]. rewrite is_allowed_reject by exact Hfull.
    apply requests_of_insert.
  - rewrite is_allowed_accept in Hrej by (fold kept; lia). discriminate.
Qed.




(** The decorator's 429 answer, when the client's records are not later
    than the reading [now'] and the window is not negative: the body
    says [success] false and carries a [retry_after] between 0 and the
    window, and the rejected request has not been recorded. *)
Theorem rate_limit_rejection_hint (self : SimpleRateLimiter) (client_ip : string)
    (max_requests window_seconds now now' : Z) (answer : response)
    (self' : SimpleRateLimiter) :
  (0 <= window_seconds)%Z ->
  (forall t, t ∈ requests_of self client_ip -> (t <= now')%Z) ->
  rate_limit max_requests window_seconds self client_ip now now'
  = (Some answer, self') ->
  snd answer = 429%Z
  /\ (exists (n : Z) (body : dict),
        fst answer = JDict body
        /\ dict_lookup "success" body = Some (JBool false)
        /\ dict_lookup "retry_after" body = Some (JInt n)
        /\ (0 <= n <= window_seconds)%Z)
  /\ requests_of self' client_ip
     = filter (fun t => (now - timedelta window_seconds < t)%Z)
              (requests_of self client_ip).
Proof.
  intros Hw Hpast Hcall. unfold rate_limit in Hcall.
  destruct (is_allowed self client_ip max_requests window_seconds now)
    as [allowed self1] eqn:Hallow.
  destruct allowed; [discriminate|].
  destruct (is_allowed_rejected self client_ip max_requests window_seconds now)
    as [_ Hrec]; [now rewrite Hallow|].
  rewrite Hallow in Hrec. simpl snd in Hrec.
  set (kept := filter (fun t => (now - timedelta window_seconds < t)%Z)
                      (requests_of self client_ip)) in *.
  destruct (get_retry_after self1 client_ip window_seconds now')
    as [retry_after self2] eqn:Hretry.
  injection Hcall as <- <-. simpl fst. simpl snd.
  assert (Hn : (0 <= retry_after <= window_seconds)%Z
               /\ requests_of self2 client_ip = kept).
  { unfold get_retry_after in Hretry. rewrite Hrec in Hretry.
    destruct kept as [|t ts] eqn:E.
    - injection Hretry as <- <-. split; [lia | apply requests_of_insert].
    - assert (Hmin : (list_min t ts <= now')%Z).
      { apply Hpast. pose proof (list_min_member t ts) as Hm.
        rewrite <- E in Hm. unfold kept in Hm.
        now apply list_elem_of_filter in Hm as [_ Hm]. }
      unfold timedelta in *.
      destruct (Z.ltb_spec now' (list_min t ts + window_seconds * 1000000));
        injection Hretry as <- <-.
      + split; [|apply requests_of_insert]. split.
        * apply Z.quot_pos; lia.
        * apply Z.quot_le_upper_bound; lia.
      + split; [lia | apply requests_of_insert]. }
  destruct Hn as [Hn Hrec2].
  split; [reflexivity|]. split; [|exact Hrec2].
  exists retry_after. eexists. split; [reflexivity|]. repeat split; [lia | lia].
Qed.

Lemma rate_limit_rejection_hint_witness :
  exists answer self',
    rate_limit 3 60 {| requests := {["10.0.0.7" := [0; 500000; 900000]%Z]} |}
      "10.0.0.7" 1500000 1500010 = (Some answer, self')
    /\ snd answer = 429%Z
    /\ requests_of self' "10.0.0.7" = [0; 500000; 900000]%Z.
Proof.
  destruct (rate_limit 3 60
              {| requests := {["10.0.0.7" := [0; 500000; 900000]%Z]} |}
              "10.0.0.7" 1500000 1500010) as [[answer|] self'] eqn:E;
    [|vm_compute in E; discriminate].
  exists answer, self'. split; [reflexivity|].
  destruct (rate_limit_rejection_hint
              {| requests := {["10.0.0.7" := [0; 500000; 900000]%Z]} |}
              "10.0.0.7" 3 60 1500000 1500010 answer self')
    as (Hstatus & _ & Hrec).
  - lia.
  - intros t Ht. vm_compute in Ht.
    repeat (apply elem_of_cons in Ht as [-> | Ht]; [lia|]).
    now apply not_elem_of_nil in Ht.
  - exact E.
  - split; [exact Hstatus|]. rewrite Hrec. vm_compute. reflexivity.
Defined.

End RetryHint.

(** ** Strings, continued *)

Lemma str_app_cons (x : ascii) (a b : string) :
  String x a +:+ b = String x (a +:+ b).
Proof. reflexivity. Qed.

Lemma str_app_assoc (a b c : string) : (a +:+ b) +:+ c = a +:+ (b +:+ c).
Proof.
  induction a as [|x a IH]; [reflexivity|]. now rewrite !str_app_cons, IH.
Qed.

Lemma str_app_nil_r (a : string) : a +:+ "" = a.
Proof.
  induction a as [|x a IH]; [reflexivity|]. now rewrite str_app_cons, IH.
Qed.

Lemma rev_app_rev_app (p cur acc : string) :
  String.rev_app (String.rev_app p cur) acc = String.rev_app cur (p +:+ acc).
Proof.
  revert cur acc. induction p as [|c p IH]; intros cur acc; simpl; [reflexivity|].
  now rewrite IH.
Qed.

Lemma rev_of_pushed (p : string) : String.rev (String.rev_app p "") = p.
Proof. unfold String.rev. rewrite rev_app_rev_app. simpl. apply str_app_nil_r. Qed.

Lemma has_char_app (c : ascii) (a b : string) :
  has_char c (a +:+ b) = has_char c a || has_char c b.
Proof.
  induction a as [|x a IH]; simpl; [reflexivity|]. rewrite IH.
  destruct (Ascii.eqb x c), (has_char c a); reflexivity.
Qed.

Lemma has_char_rev_app (c : ascii) (a b : string) :
  has_char c (String.rev_app a b) = has_char c a || has_char c b.
Proof.
  revert b. induction a as [|x a IH]; intros b; simpl; [reflexivity|].
  rewrite IH. simpl. destruct (Ascii.eqb x c), (has_char c a); reflexivity.
Qed.

(** Stripping *)

Lemma lstrip_starts_clean (s : string) : starts_clean (Str.lstrip s).
Proof.
  induction s as [|c s IH]; simpl; [exact I|].
  destruct (Str.is_space c) eqn:E; [exact IH | exact E].
Qed.

Lemma lstrip_clean (s : string) : starts_clean s -> Str.lstrip s = s.
Proof. destruct s as [|c s]; simpl; [reflexivity|]. now intros ->. Qed.

Lemma rstrip_starts_clean (s : string) : starts_clean s -> starts_clean (Str.rstrip s).
Proof.
  destruct s as [|c s]; simpl; [exact id|]. intros Hc.
  destruct (Str.rstrip s); [rewrite Hc|]; exact Hc.
Qed.

Lemma rstrip_idempotent (s : string) : Str.rstrip (Str.rstrip s) = Str.rstrip s.
Proof.
  induction s as [|c s IH]; simpl; [reflexivity|].
  destruct (Str.rstrip s) as [|c' r] eqn:E.
  - destruct (Str.is_space c) eqn:Ec; simpl; [reflexivity | now rewrite Ec].
  - cbn [Str.rstrip] in *. now rewrite IH.
Qed.

Lemma strip_idempotent (s : string) : Str.strip (Str.strip s) = Str.strip s.
Proof.
  unfold Str.strip.
  rewrite (lstrip_clean (Str.rstrip (Str.lstrip s)))
    by apply rstrip_starts_clean, lstrip_starts_clean.
  apply rstrip_idempotent.
Qed.

Lemma lstrip_keeps_out (c : ascii) (s : string) :
  has_char c s = false -> has_char c (Str.lstrip s) = false.
Proof.
  induction s as [|x s IH]; simpl; [auto|]. intros H.
  apply orb_false_iff in H as [Hx Hs].
  destruct (Str.is_space x); [auto | simpl; now rewrite Hx, Hs].
Qed.

Lemma rstrip_keeps_out (c : ascii) (s : string) :
  has_char c s = false -> has_char c (Str.rstrip s) = false.
Proof.
  induction s as [|x s IH]; simpl; [auto|]. intros H.
  apply orb_false_iff in H as [Hx Hs]. specialize (IH Hs).
  destruct (Str.rstrip s).
  - destruct (Str.is_space x); simpl; [reflexivity | now rewrite Hx].
  - cbn [has_char] in *. now rewrite Hx, IH.
Qed.

Lemma strip_keeps_out (c : ascii) (s : string) :
  has_char c s = false -> has_char c (Str.strip s) = false.
Proof. intros H. now apply rstrip_keeps_out, lstrip_keeps_out. Qed.

(** Splitting and joining *)

Lemma split_go_segment (sep : ascii) (p : string) :
  forall cur, has_char sep p = false ->
              Str.split_go sep cur p = [String.rev (String.rev_app p cur)].
Proof.
  induction p as [|c p IH]; intros cur H; simpl; [reflexivity|].
  simpl in H. apply orb_false_iff in H as [Hc Hp]. rewrite Hc. now apply IH.
Qed.

Lemma split_go_at_separator (sep : ascii) (p r : string) :
  forall cur, has_char sep p = false ->
              Str.split_go sep cur (p +:+ String sep r)
              = String.rev (String.rev_app p cur) :: Str.split_go sep "" r.
Proof.
  induction p as [|c p IH]; intros cur H; simpl.
  - now rewrite Ascii.eqb_refl.
  - simpl in H. apply orb_false_iff in H as [Hc Hp]. rewrite Hc. now apply IH.
Qed.

Lemma split_go_segments_clean (sep : ascii) (s : string) :
  forall cur, has_char sep cur = false ->
              Forall (fun x => has_char sep x = false) (Str.split_go sep cur s).
Proof.
  induction s as [|c s IH]; intros cur H; simpl.
  - constructor; [|constructor]. unfold String.rev.
    now rewrite has_char_rev_app, H.
  - destruct (Ascii.eqb c sep) eqn:E.
    + constructor; [|now apply IH]. unfold String.rev.
      now rewrite has_char_rev_app, H.
    + apply IH. simpl. now rewrite E, H.
Qed.

Lemma split_join (sep : ascii) (parts : list string) :
  parts <> [] ->
  Forall (fun x => has_char sep x = false) parts ->
  Str.split sep (Str.join (String sep "") parts) = parts.
Proof.
  induction parts as [|p rest IH]; [congruence|]. intros _ Hall.
  apply Forall_cons in Hall as [Hp Hrest]. unfold Str.split.
  destruct rest as [|q rest].
  - simpl. rewrite split_go_segment by exact Hp. now rewrite rev_of_pushed.
  - change (Str.join (String sep "") (p :: q :: rest))
      with (p +:+ String sep (Str.join (String sep "") (q :: rest))).
    rewrite split_go_at_separator by exact Hp. rewrite rev_of_pushed.
    f_equal. apply IH; [discriminate | exact Hrest].
Qed.

(** ** [_normalise_api_key], beyond the placeholders *)

(** The key the module keeps is never one of the placeholders, has no
    whitespace around it, and goes through [_normalise_api_key] again
    unchanged. *)
Theorem normalised_key_is_settled (raw_key : option string) :
  let key := _normalise_api_key raw_key in
  _normalise_api_key (Some key) = key
  /\ Str.strip key = key
  /\ (is_placeholder key -> key = "").
Proof.
  unfold _normalise_api_key at 1.
  destruct raw_key as [raw|]; [|repeat split; reflexivity].
  destruct (Str.nonempty raw); simpl negb; cbv iota; [|repeat split; reflexivity].
  destruct (Str.nonempty (Str.strip raw)) eqn:Hne; simpl negb; cbv iota;
    [|repeat split; reflexivity].
  destruct (Str.startswith (Str.upper (Str.strip raw)) "SET_"
            || Str.startswith (Str.upper (Str.strip raw)) "ENTER_"
            || Str.startswith (Str.upper (Str.strip raw)) "REPLACE_"
            || Str.startswith (Str.upper (Str.strip raw)) "YOUR_"
            || Str.contains "CHANGE" (Str.upper (Str.strip raw))) eqn:Hbad;
    [repeat split; reflexivity|].
  cbv zeta. repeat apply conj.
  - unfold _normalise_api_key. rewrite Hne. simpl negb. cbv iota.
    rewrite strip_idempotent, Hne, Hbad. reflexivity.
  - apply strip_idempotent.
  - intros Hp. rewrite <- (normalise_placeholder (Some (Str.strip raw))).
    + unfold _normalise_api_key. rewrite Hne. simpl negb. cbv iota.
      now rewrite strip_idempotent, Hne, Hbad.
    + simpl default. now rewrite strip_idempotent.
Qed.

(** ** [_normalise_recipients] *)

Section Recipients.
Context `{RT : PyRuntime}.

Lemma clean_parts_pass (parts : list string) :
  Forall clean_recipient parts ->
  map Str.strip
      (filter (fun segment => Str.nonempty (Str.strip segment) = true) parts)
  = parts.
Proof.
  induction 1 as [|x parts (Hc & Hs & Hn) _ IH]; [reflexivity|].
  rewrite filter_cons, decide_True by (now rewrite Hs).
  simpl. now rewrite Hs, IH.
Qed.

Lemma normalise_clean_parts (parts : list string) :
  Forall clean_recipient parts ->
  _normalise_recipients (JStr (Str.join "," parts)) = Str.join "," parts.
Proof.
  intros Hall. unfold _normalise_recipients.
  destruct parts as [|p rest]; [reflexivity|].
  rewrite (split_join "," (p :: rest));
    [| discriminate
     | eapply Forall_impl; [exact Hall | now intros x (Hx & _)]].
  now rewrite clean_parts_pass.
Qed.

Lemma normalised_parts_clean (segments : list string) :
  Forall (fun x => has_char "," x = false) segments ->
  Forall clean_recipient
    (map Str.strip
       (filter (fun segment => Str.nonempty (Str.strip segment) = true) segments)).
Proof.
  induction 1 as [|x segments Hx _ IH]; [constructor|].
  rewrite filter_cons. destruct (decide _) as [Hn|Hn]; [|exact IH].
  simpl. constructor; [|exact IH].
  repeat split; [now apply strip_keeps_out | apply strip_idempotent | exact Hn].
Qed.

(** What [_normalise_recipients] makes of a string is a comma-joined
    list of recipients, none empty, none with a comma or with whitespace
    around it; and it is a fixed point: normalising it again changes
    nothing. *)
Theorem recipients_string_is_normal_form (s : string) :
  exists parts,
    _normalise_recipients (JStr s) = Str.join "," parts
    /\ Forall clean_recipient parts
    /\ _normalise_recipients (JStr (_normalise_recipients (JStr s)))
       = _normalise_recipients (JStr s).
Proof.
  exists (map Str.strip
            (filter (fun segment => Str.nonempty (Str.strip segment) = true)
                    (Str.split "," s))).
  assert (Hclean : Forall clean_recipient
            (map Str.strip
               (filter (fun segment => Str.nonempty (Str.strip segment) = true)
                       (Str.split "," s))))
    by (apply normalised_parts_clean, split_go_segments_clean; reflexivity).
  split; [reflexivity|]. split; [exact Hclean|].
  change (_normalise_recipients (JStr s))
    with (Str.join ","
            (map Str.strip
               (filter (fun segment => Str.nonempty (Str.strip segment) = true)
                       (Str.split "," s)))).
  now apply normalise_clean_parts.
Qed.

(** A list of strings and the same strings joined by commas give the
    same recipients, as long as no string has a comma inside. *)
Theorem recipients_list_agrees_with_string (parts : list string) :
  Forall (fun x => has_char "," x = false) parts ->
  _normalise_recipients (JList (map JStr parts))
  = _normalise_recipients (JStr (Str.join "," parts)).
Proof.
  intros Hall. unfold _normalise_recipients.
  assert (Hlist :
    map (fun item => Str.strip (py_str item))
        (filter (fun item => Str.nonempty (Str.strip (py_str item)) = true)
                (map JStr parts))
    = map Str.strip
          (filter (fun segment => Str.nonempty (Str.strip segment) = true) parts)).
  { clear Hall. induction parts as [|x parts IH]; [reflexivity|].
    cbn [map]. rewrite !filter_cons. cbn [py_str].
    destruct (decide (Str.nonempty (Str.strip x) = true)); simpl; now rewrite IH. }
  rewrite Hlist. destruct parts as [|p rest]; [reflexivity|].
  now rewrite (split_join "," (p :: rest)) by (discriminate || exact Hall).
Qed.

End Recipients.

Lemma recipients_list_agrees_with_string_witness :
  _normalise_recipients (RT := Ref.runtime)
    (JList [JStr " 09171234567"; JStr ""; JStr "09181234567 "])
  = "09171234567,09181234567"
  /\ _normalise_recipients (RT := Ref.runtime)
       (JStr " 09171234567,,09181234567 ")
     = "09171234567,09181234567".
Proof.
  split; [reflexivity|].
  change (JStr " 09171234567,,09181234567 ")
    with (JStr (Str.join "," [" 09171234567"; ""; "09181234567 "])).
  rewrite <- (recipients_list_agrees_with_string (RT := Ref.runtime)
                [" 09171234567"; ""; "09181234567 "]).
  - reflexivity.
  - repeat constructor.
Defined.

(** ** [send_sms]: what reaches the provider *)

Lemma take_length (n : nat) (s : string) : (String.length (Str.take n s) <= n)%nat.
Proof.
  revert s. induction n as [|n IH]; intros s; [destruct s; simpl; lia|].
  destruct s as [|c s]; simpl; [lia|]. specialize (IH s). lia.
Qed.

Lemma method_strip_returned (v : json) (m : string) :
  method_strip v = Returned m -> exists m0, v = JStr m0 /\ m = Str.strip m0.
Proof. destruct v; simpl; try discriminate. intros [= <-]. eauto. Qed.

Section SendSmsFacts.
Context `{RT : PyRuntime}.
Variable cfg : config.

Lemma read_sms_request_message (request_json : option json)
    (message sender_name recipients : string) :
  read_sms_request cfg request_json = Returned (message, sender_name, recipients) ->
  exists m0, message = Str.strip m0.
Proof.
  unfold read_sms_request.
  set (payload := match request_json with
                  | Some j => py_or j (JDict [])
                  | None => JDict []
                  end).
  destruct (method_get payload "message") as [m|]; cbn [bind]; [|discriminate].
  destruct (method_strip (py_or m (JStr ""))) as [msg|] eqn:Hmsg; cbn [bind];
    [|discriminate].
  destruct (method_get payload "sender") as [s1|]; cbn [bind]; [|discriminate].
  destruct (method_get payload "sendername") as [s2|]; cbn [bind]; [|discriminate].
  destruct (method_strip (py_or s1 (py_or s2 (JStr "")))) as [sender|]; cbn [bind];
    [|discriminate].
  destruct (method_get payload "number") as [n1|]; cbn [bind]; [|discriminate].
  destruct (method_get payload "numbers") as [n2|]; cbn [bind]; [|discriminate].
  destruct (method_get payload "recipients") as [n3|]; cbn [bind]; [|discriminate].
  intros H. inversion H. subst.
  destruct (method_strip_returned _ _ Hmsg) as (m0 & _ & ->). now exists m0.
Qed.

(** Whatever [send_sms] posts to the provider carries the configured
    (non-empty) key, at least one recipient, a message of 1 to 160
    characters with no whitespace around it, and a sender name of at most
    11 characters. *)
Theorem every_forwarded_sms_is_well_formed (request_json : option json)
    (up : request_result) (form : sms_form) :
  snd (send_sms cfg request_json up) = Some form ->
  form_apikey form = SEMAPHORE_API_KEY cfg
  /\ form_apikey form <> ""
  /\ form_number form <> ""
  /\ (1 <= String.length (form_message form) <= 160)%nat
  /\ Str.strip (form_message form) = form_message form
  /\ (String.length (form_sendername form) <= 11)%nat.
Proof.
  unfold send_sms.
  destruct (Str.nonempty (SEMAPHORE_API_KEY cfg)) eqn:Hkey; simpl negb; cbv iota;
    [|discriminate].
  destruct (read_sms_request cfg request_json) as [[[message sender_name] recipients]|]
    eqn:Hread; [|discriminate].
  destruct (Str.nonempty recipients) eqn:Hrec; simpl negb; cbv iota; [|discriminate].
  destruct (Str.nonempty message) eqn:Hmsg; simpl negb; cbv iota; [|discriminate].
  destruct (Nat.ltb_spec 160 (String.length message)) as [|Hlen]; [discriminate|].
  cbn [snd]. intros [= <-].
  cbn [form_apikey form_number form_message form_sendername].
  destruct (read_sms_request_message _ _ _ _ Hread) as [m0 ->].
  repeat split.
  - now apply nonempty_true.
  - now apply nonempty_true.
  - destruct (Str.strip m0); [discriminate | simpl; lia].
  - exact Hlen.
  - apply strip_idempotent.
  - change (String.length (Str.take 11 sender_name) <= 11)%nat. apply take_length.
Qed.

(** A request that is JSON but not an object (a non-empty list or
    string, a non-zero number, [true]), or whose ["message"] is a truthy
    value other than a string, makes the handler raise [AttributeError];
    nothing is posted. *)
Theorem malformed_sms_request_raises (up : request_result) :
  Str.nonempty (SEMAPHORE_API_KEY cfg) = true ->
  (forall j, truthy j = true -> (forall d, j <> JDict d) ->
             send_sms cfg (Some j) up = (Raised AttributeError, None))
  /\ (forall d v, dict_lookup "message" d = Some v -> truthy v = true ->
                  (forall m, v <> JStr m) ->
                  send_sms cfg (Some (JDict d)) up = (Raised AttributeError, None)).
Proof.
  intros Hkey. split.
  - intros j Ht Hnd. unfold send_sms, read_sms_request, py_or.
    rewrite Hkey, Ht. simpl negb. cbv iota.
    destruct j; try reflexivity. now destruct (Hnd d).
  - intros d v Hv Ht Hns. unfold send_sms, read_sms_request.
    rewrite Hkey. simpl negb. cbv iota.
    assert (Hpay : py_or (JDict d) (JDict []) = JDict d)
      by (unfold py_or; destruct d; reflexivity).
    rewrite Hpay. cbn [method_get bind]. unfold dict_get at 1. rewrite Hv.
    unfold py_or at 1. rewrite Ht.
    destruct v; try reflexivity. now destruct (Hns s).
Qed.

End SendSmsFacts.

Lemma every_forwarded_sms_is_well_formed_witness :
  let request_json :=
    Some (JDict [("number", JStr "09171234567"); ("message", JStr "  Trip at 5pm  ");
                 ("sender", JStr "JeepNiDispatchCenter")]) in
  let up := RequestExceptionRaised "timed out" in
  exists form,
    snd (send_sms (RT := Ref.runtime) Sample.cfg request_json up) = Some form
    /\ form_message form = "Trip at 5pm"
    /\ (String.length (form_sendername form) <= 11)%nat.
Proof.
  intros request_json up.
  destruct (snd (send_sms (RT := Ref.runtime) Sample.cfg request_json up))
    as [form|] eqn:E; [|vm_compute in E; discriminate].
  exists form. split; [reflexivity|].
  destruct (every_forwarded_sms_is_well_formed (RT := Ref.runtime) Sample.cfg
              request_json up form E) as (_ & _ & _ & _ & _ & Hsender).
  split; [|exact Hsender].
  vm_compute in E. injection E as <-. reflexivity.
Defined.

Lemma malformed_sms_request_raises_witness :
  send_sms (RT := Ref.runtime) Sample.cfg
    (Some (JDict [("number", JStr "09171234567"); ("message", JInt 5)]))
    (RequestExceptionRaised "unused")
  = (Raised AttributeError, None).
Proof.
  destruct (malformed_sms_request_raises (RT := Ref.runtime) Sample.cfg
              (RequestExceptionRaised "unused") eq_refl) as [_ H].
  apply (H _ (JInt 5)); [reflexivity | reflexivity | discriminate].
Defined.

(** ** [_is_rate_limit_payload] on objects *)

Lemma join_member (sep x : string) (parts : list string) :
  In x parts -> exists a b, Str.join sep parts = a +:+ x +:+ b.
Proof.
  induction parts as [|p rest IH]; [intros []|]. intros [-> | Hin].
  - destruct rest as [|q rest].
    + exists "", "". simpl. now rewrite str_app_nil_r.
    + exists "", (sep +:+ Str.join sep (q :: rest)). reflexivity.
  - destruct (IH Hin) as (a & b & Hj). destruct rest as [|q rest]; [destruct Hin|].
    exists (p +:+ sep +:+ a), b.
    change (Str.join sep (p :: q :: rest))
      with (p +:+ sep +:+ Str.join sep (q :: rest)).
    now rewrite Hj, !str_app_assoc.
Qed.

Lemma contains_within (needle a x b : string) :
  Str.contains needle x = true -> Str.contains needle (a +:+ x +:+ b) = true.
Proof.
  intros H. destruct (contains_inv _ _ H) as (p & q & ->).
  replace (a +:+ (p +:+ needle +:+ q) +:+ b)
    with ((a +:+ p) +:+ needle +:+ (q +:+ b))
    by now rewrite !str_app_assoc.
  apply contains_intro.
Qed.

(** In an error body that is a JSON object, the words "rate limit", in
    any letter case, inside a key, a string value, or a string item of a
    list value, are found. *)
Theorem rate_limit_words_are_found `{RT : PyRuntime} (d : dict) (k s : string)
    (v : json) :
  In (k, v) d ->
  s = k \/ v = JStr s \/ (exists items, v = JList items /\ In (JStr s) items) ->
  Str.contains "rate limit" (Str.lower s) = true ->
  _is_rate_limit_payload (JDict d) = true.
Proof.
  intros Hkv Hs Hfound. unfold _is_rate_limit_payload, haystack_of.
  set (fragments :=
         concat (map (fun kv : string * json =>
                        py_str (JStr (fst kv)) ::
                        match snd kv with
                        | JList items => map py_str items
                        | value => [py_str value]
                        end) d)).
  assert (Hin : In s fragments).
  { unfold fragments. apply in_concat. eexists. split.
    - apply in_map. exact Hkv.
    - simpl. destruct Hs as [-> | [-> | (items & -> & Hitem)]].
      + now left.
      + right. now left.
      + right. change s with (py_str (JStr s)). now apply in_map. }
  destruct (join_member " " s fragments Hin) as (a & b & ->).
  unfold Str.lower in *. rewrite !map_chars_app. now apply contains_within.
Qed.

Lemma rate_limit_words_are_found_witness :
  _is_rate_limit_payload (RT := Ref.runtime)
    (JDict [("code", JInt 503);
            ("errors", JList [JStr "try later"; JStr "API Rate Limit exceeded"])])
  = true.
Proof.
  apply (rate_limit_words_are_found (RT := Ref.runtime) _ "errors"
           "API Rate Limit exceeded"
           (JList [JStr "try later"; JStr "API Rate Limit exceeded"])).
  - simpl. tauto.
  - right; right. eexists. split; [reflexivity | simpl; tauto].
  - reflexivity.
Defined.

(** ** [_build_balance_payload]: every outcome *)

(** The normaliser fails in two ways only: [AttributeError] when the
    account record is not an object, [OverflowError] when the selected
    balance is an integer too large for a float.  Otherwise it returns a
    payload that says [success], is not [stale], echoes the provider's
    JSON under ["raw"], is stamped with the UTC time followed by ["Z"],
    and whose balance is a finite number. *)
Theorem normaliser_outcome `{RT : PyRuntime} (cfg : config) (iso : string)
    (raw : json) :
  match _build_balance_payload cfg iso raw with
  | Returned p =>
      exists (d : dict) (q : Q),
        account_data_of raw = JDict d
        /\ dict_lookup "success" p = Some (JBool true)
        /\ dict_lookup "balance" p = Some (JFloat (FNum q))
        /\ dict_lookup "raw" p = Some raw
        /\ dict_lookup "stale" p = Some (JBool false)
        /\ dict_lookup "retrieved_at" p = Some (JStr (iso +:+ "Z"))
  | Raised e =>
      (e = AttributeError /\ forall d, account_data_of raw <> JDict d)
      \/ (e = OverflowError
          /\ exists (d : dict) (z : Z),
               account_data_of raw = JDict d
               /\ balance_source d = JInt z
               /\ (float_int_limit <= Z.abs z)%Z)
  end.
Proof.
  unfold _build_balance_payload.
  destruct (account_data_of raw) as [| | | | | |d] eqn:Hd;
    try (left; split; [reflexivity | discriminate]).
  cbn [method_get bind]. fold (balance_source d).
  destruct (_to_float (balance_source d)) as [f|e] eqn:Hf; cbn [bind].
  - exists d, (match f with FNum q => q | _ => 0%Q end).
    split; [reflexivity|]. destruct f; repeat split; reflexivity.
  - right. unfold _to_float in Hf.
    destruct (balance_source d) as [| |z| |s| |] eqn:Hsrc; simpl in Hf;
      try discriminate.
    + destruct (Z.ltb_spec (Z.abs z) float_int_limit); [discriminate|].
      injection Hf as <-. split; [reflexivity|]. now exists d, z.
    + destruct (float_of_str s); discriminate.
Qed.

(** ** [send_sms]: what a 200 answer means *)

(** [send_sms] answers 200 only with what the provider said: the form
    was posted, and the provider responded with a status that is not an
    error.  A provider error, or no response at all, is never reported
    with status 200. *)
Theorem sms_success_comes_from_provider `{RT : PyRuntime} (cfg : config)
    (request_json : option json) (up : request_result) (body : json)
    (posted : option sms_form) :
  send_sms cfg request_json up = (Returned (body, 200%Z), posted) ->
  exists (form : sms_form) (r : http_response),
    posted = Some form
    /\ up = Responded r
    /\ raises_for_status r = false
    /\ body = match json_body r with
              | Some result => result
              | None => JDict [("success", JBool true); ("raw", JStr (text r))]
              end.
Proof.
  unfold send_sms.
  destruct (negb (Str.nonempty (SEMAPHORE_API_KEY cfg))); [discriminate|].
  destruct (read_sms_request cfg request_json) as [[[message sender_name] recipients]|];
    [|discriminate].
  destruct (negb (Str.nonempty recipients)); [discriminate|].
  destruct (negb (Str.nonempty message)); [discriminate|].
  destruct (160 <? String.length message)%nat; [discriminate|].
  cbv zeta. intros H. injection H as Hresp <-.
  unfold sms_upstream_response in Hresp.
  destruct up as [r|msg|msg]; try discriminate.
  destruct (raises_for_status r) eqn:Hraise.
  - injection Hresp as _ Hcode. unfold raises_for_status in Hraise. lia.
  - eexists. exists r. split; [reflexivity|]. split; [reflexivity|].
    split; [exact Hraise|].
    destruct (json_body r); now injection Hresp as <-.
Qed.

Lemma sms_success_comes_from_provider_witness :
  let request_json :=
    Some (JDict [("number", JStr "09171234567"); ("message", JStr "Trip at 5pm")]) in
  let up := Sample.answers 200 None None in
  exists form r,
    snd (send_sms (RT := Ref.runtime) Sample.cfg request_json up) = Some form
    /\ up = Responded r /\ raises_for_status r = false.
Proof.
  intros request_json up.
  destruct (sms_success_comes_from_provider (RT := Ref.runtime) Sample.cfg
              request_json up
              (JDict [("success", JBool true); ("raw", JStr "")])
              (snd (send_sms (RT := Ref.runtime) Sample.cfg request_json up)))
    as (form & r & Hposted & Hup & Hok & _).
  - vm_compute. reflexivity.
  - exists form, r. auto.
Defined.

(** ** [get_sms_balance]: what the caches do between calls *)

Section BalanceCacheFacts.
Context `{RT : PyRuntime}.
Variable cfg : config.

Section Replay.
Variables (c : caches) (env : balance_env) (t : Q).
Hypothesis Hcache : (0 < BALANCE_CACHE_SECONDS cfg)%Z.
Hypothesis Hmiss : cached_response c (t_locked env) = None.
Hypothesis Hlocked : (t_locked env <= t_write env)%Q.
Hypothesis Hafter : (t_write env <= t)%Q.
Hypothesis Hsoon :
  (t < t_write env + inject_Z (Z.min (BALANCE_CACHE_SECONDS cfg) 5))%Q.

Lemma within_ttl (T : Z) :
  (Z.min (BALANCE_CACHE_SECONDS cfg) 5 <= T)%Z ->
  (0 < inject_Z T)%Q /\ (t - t_write env < inject_Z T)%Q.
Proof.
  intros HT.
  assert (H0 : (0 < T)%Z) by lia.
  rewrite Zlt_Qlt in H0. rewrite Zle_Qle in HT.
  change (inject_Z 0) with 0%Q in H0. split; lra.
Qed.

Lemma store_fresh_replays (p : dict) :
  cached_response (store_fresh cfg c p (t_write env)) t = Some (JDict p, 200%Z).
Proof.
  unfold store_fresh.
  destruct (Z.ltb_spec 0 (Z.max (BALANCE_CACHE_SECONDS cfg) 0)); [|lia].
  destruct (within_ttl (Z.max (BALANCE_CACHE_SECONDS cfg) 0)) as [H1 H2]; [lia|].
  unfold cached_response.
  erewrite read_success_hit; simpl; [reflexivity | reflexivity | lia | exact H1 | exact H2].
Qed.

Lemma store_error_replays (p : dict) (code T : Z) :
  (5 <= T)%Z ->
  cached_response (store_error c p code T (t_write env)) t = Some (JDict p, code).
Proof.
  intros HT. destruct (within_ttl T) as [H1 H2]; [lia|].
  assert (Hcold : read_success c t = None).
  { apply (read_success_stays_cold c (t_locked env)); [lra|].
    unfold cached_response in Hmiss.
    now destruct (read_success c (t_locked env)). }
  unfold cached_response.
  replace (read_success (store_error c p code T (t_write env)) t)
    with (read_success c t) by reflexivity.
  rewrite Hcold. unfold read_error. simpl.
  apply Qltb_true in H1, H2. now rewrite H1, H2.
Qed.

Lemma handle_http_error_replays (resp : option http_response) :
  cached_response (fst (handle_http_error cfg c env resp)) t
  = Some (snd (handle_http_error cfg c env resp)).
Proof.
  unfold handle_http_error.
  pose proof (retry_after_floor cfg (http_error_header resp)) as Hra.
  destruct (effective_status _ _ _ =? 429)%Z;
    [|apply store_error_replays, generic_error_ttl_floor].
  destruct (payload (_balance_cache c)) as [cp|];
    [|now apply store_error_replays].
  destruct (truthy (JDict cp) && (status (_balance_cache c) <? 400)%Z);
    [|now apply store_error_replays].
  destruct (within_ttl (retry_after_of cfg (http_error_header resp))) as [H1 H2];
    [lia|].
  unfold cached_response.
  erewrite read_success_hit; simpl; [reflexivity | reflexivity | lia | exact H1 | exact H2].
Qed.

Lemma fetch_balance_replays (r : response) :
  snd (fetch_balance cfg c env) = Returned r ->
  cached_response (fst (fetch_balance cfg c env)) t = Some r.
Proof.
  unfold fetch_balance. destruct (upstream env) as [resp| |].
  - destruct (raises_for_status resp).
    + pose proof (handle_http_error_replays (Some resp)) as H.
      destruct (handle_http_error cfg c env (Some resp)). simpl in *.
      now intros [= <-].
    + destruct (json_body resp) as [body|].
      * destruct (_build_balance_payload cfg (utcnow_iso env) body) as [p|e];
          simpl; [|discriminate].
        intros [= <-]. apply store_fresh_replays.
      * simpl. intros [= <-]. apply store_fresh_replays.
  - pose proof (handle_http_error_replays None) as H.
    destruct (handle_http_error cfg c env None). simpl in *.
    now intros [= <-].
  - simpl. intros [= <-]. apply store_error_replays, generic_error_ttl_floor.
Qed.

End Replay.

(** With a positive [BALANCE_CACHE_SECONDS] of [B], whatever answer a
    call obtained from the provider (a fresh balance, a stale one, a
    rate-limit answer, an error of the provider or of the network) is
    given again, word for word and with the same status, to every call
    that starts within [min(B, 5)] seconds of the write; that call
    leaves the caches alone and does not reach the provider. *)
Theorem provider_answer_is_replayed (c c' : caches) (env env' : balance_env)
    (r : response) :
  (0 < BALANCE_CACHE_SECONDS cfg)%Z ->
  (t_locked env <= t_write env)%Q ->
  (t_write env <= t_fast env')%Q ->
  (t_fast env' < t_write env + inject_Z (Z.min (BALANCE_CACHE_SECONDS cfg) 5))%Q ->
  get_sms_balance cfg c env = (c', Returned r, 1%nat) ->
  get_sms_balance cfg c' env' = (c', Returned r, 0%nat).
Proof.
  intros Hcache Hlocked Hafter Hsoon. unfold get_sms_balance.
  destruct (negb (Str.nonempty (SEMAPHORE_API_KEY cfg))); [discriminate|].
  destruct (cached_response c (t_fast env)); [discriminate|].
  destruct (cached_response c (t_locked env)) eqn:Hmiss; [discriminate|].
  destruct (fetch_balance cfg c env) as [c1 r1] eqn:Hfetch.
  intros H. inversion H. subst c1 r1.
  pose proof (fetch_balance_replays c env (t_fast env') Hcache Hmiss Hlocked
                Hafter Hsoon r) as Hreplay.
  rewrite Hfetch in Hreplay. simpl in Hreplay.
  now rewrite (Hreplay eq_refl).
Qed.

(** Whatever error entry a running gateway holds with status 429 is the
    rate-limit answer, kept for as long as it tells the client to wait. *)
Lemma reachable_error_entry (c : caches) (p : dict) :
  reachable cfg c ->
  err_payload (_balance_error_cache c) = Some p ->
  err_status (_balance_error_cache c) = 429%Z ->
  exists (n : Z) (details : json),
    p = rate_limited_payload n details /\ (5 <= n)%Z.
Proof.
  intros Hr. revert p. induction Hr as [|c env Hr IH Hpos]; intros p.
  - discriminate.
  - assert (Hfresh : forall q,
              err_payload (_balance_error_cache (store_fresh cfg c q (t_write env)))
              = Some p ->
              err_status (_balance_error_cache (store_fresh cfg c q (t_write env)))
              = 429%Z ->
              exists n details, p = rate_limited_payload n details /\ (5 <= n)%Z).
    { intros q. unfold store_fresh.
      destruct (0 <? Z.max (BALANCE_CACHE_SECONDS cfg) 0)%Z; simpl;
        [discriminate | apply IH]. }
    assert (Herr : forall resp,
              err_payload (_balance_error_cache (fst (handle_http_error cfg c env resp)))
              = Some p ->
              err_status (_balance_error_cache (fst (handle_http_error cfg c env resp)))
              = 429%Z ->
              exists n details, p = rate_limited_payload n details /\ (5 <= n)%Z).
    { intros resp. unfold handle_http_error.
      pose proof (retry_after_floor cfg (http_error_header resp)) as Hra.
      destruct (effective_status _ _ _ =? 429)%Z eqn:Hcode.
      - destruct (payload (_balance_cache c)) as [cp|];
          [destruct (truthy (JDict cp) && (status (_balance_cache c) <? 400)%Z)|];
          simpl; try discriminate;
          intros [= <-] _; eauto.
      - simpl. intros _ H429. rewrite H429 in Hcode. discriminate. }
    unfold fetch_balance. destruct (upstream env) as [r| |].
    + destruct (raises_for_status r).
      * specialize (Herr (Some r)).
        destruct (handle_http_error cfg c env (Some r)). exact Herr.
      * destruct (json_body r) as [body|]; simpl.
        -- destruct (_build_balance_payload cfg (utcnow_iso env) body) as [q|];
             simpl; [apply Hfresh | apply IH].
        -- apply Hfresh.
    + specialize (Herr None).
      destruct (handle_http_error cfg c env None). exact Herr.
    + simpl. discriminate.
Qed.

(** Every 429 answer of a running gateway, whether it comes from the
    provider call or from the error cache, says [success] false and
    carries a [retry_after] of at least 5 seconds. *)
Theorem every_429_answer_says_when_to_retry (c c' : caches) (env : balance_env)
    (body : json) (calls : nat) :
  reachable cfg c ->
  get_sms_balance cfg c env = (c', Returned (body, 429%Z), calls) ->
  exists (n : Z) (details : json),
    body = JDict (rate_limited_payload n details)
    /\ dict_lookup "success" (rate_limited_payload n details) = Some (JBool false)
    /\ dict_lookup "retry_after" (rate_limited_payload n details) = Some (JInt n)
    /\ (5 <= n)%Z.
Proof.
  intros Hr Hcall.
  assert (Hshape : forall n details, (5 <= n)%Z ->
            exists n0 details0,
              JDict (rate_limited_payload n details)
              = JDict (rate_limited_payload n0 details0)
              /\ dict_lookup "success" (rate_limited_payload n0 details0)
                 = Some (JBool false)
              /\ dict_lookup "retry_after" (rate_limited_payload n0 details0)
                 = Some (JInt n0)
              /\ (5 <= n0)%Z)
    by (intros n details Hn; exists n, details; repeat split; exact Hn).
  assert (Hcached : forall t, cached_response c t = Some (body, 429%Z) ->
            exists n details,
              body = JDict (rate_limited_payload n details)
              /\ dict_lookup "success" (rate_limited_payload n details)
                 = Some (JBool false)
              /\ dict_lookup "retry_after" (rate_limited_payload n details)
                 = Some (JInt n)
              /\ (5 <= n)%Z).
  { intros t. unfold cached_response, read_success, read_error.
    destruct (payload (_balance_cache c)) as [sp|] eqn:Hsp.
    - destruct (reachable_success_entry cfg c sp Hr Hsp) as (_ & Hst & _).
      rewrite Hst.
      destruct ((200 <? 400)%Z && Qltb 0 (ttl (_balance_cache c))
                && Qltb (t - timestamp (_balance_cache c)) (ttl (_balance_cache c)));
        [discriminate|].
      destruct (err_payload (_balance_error_cache c)) as [ep|] eqn:Hep;
        [|discriminate].
      destruct (Qltb 0 _ && Qltb _ _); [|discriminate].
      intros H. inversion H as [[Hb Hs]].
      destruct (reachable_error_entry c ep Hr Hep Hs) as (n & details & -> & Hn).
      now apply Hshape.
    - destruct (err_payload (_balance_error_cache c)) as [ep|] eqn:Hep;
        [|discriminate].
      destruct (Qltb 0 _ && Qltb _ _); [|discriminate].
      intros H. inversion H as [[Hb Hs]].
      destruct (reachable_error_entry c ep Hr Hep Hs) as (n & details & -> & Hn).
      now apply Hshape. }
  unfold get_sms_balance in Hcall.
  destruct (negb (Str.nonempty (SEMAPHORE_API_KEY cfg))); [discriminate|].
  destruct (cached_response c (t_fast env)) as [r1|] eqn:H1.
  { inversion Hcall. subst. eapply Hcached, H1. }
  destruct (cached_response c (t_locked env)) as [r2|] eqn:H2.
  { inversion Hcall. subst. eapply Hcached, H2. }
  destruct (fetch_balance cfg c env) as [c1 r1] eqn:Hfetch.
  inversion Hcall. subst. clear Hcall.
  assert (Herr : forall resp,
            snd (handle_http_error cfg c env resp) = (body, 429%Z) ->
            exists n details,
              body = JDict (rate_limited_payload n details)
              /\ dict_lookup "success" (rate_limited_payload n details)
                 = Some (JBool false)
              /\ dict_lookup "retry_after" (rate_limited_payload n details)
                 = Some (JInt n)
              /\ (5 <= n)%Z).
  { intros resp. unfold handle_http_error.
    pose proof (retry_after_floor cfg (http_error_header resp)) as Hra.
    destruct (effective_status _ _ _ =? 429)%Z eqn:Hcode.
    - destruct (payload (_balance_cache c)) as [cp|];
        [destruct (truthy (JDict cp) && (status (_balance_cache c) <? 400)%Z)|];
        simpl; try discriminate;
        intros [= <-]; now apply Hshape.
    - simpl. intros [= _ H429]. rewrite H429 in Hcode. discriminate. }
  unfold fetch_balance in Hfetch. destruct (upstream env) as [r| |].
  - destruct (raises_for_status r).
    + specialize (Herr (Some r)).
      destruct (handle_http_error cfg c env (Some r)) as [c2 r2].
      inversion Hfetch. subst. now apply Herr.
    + destruct (json_body r) as [b|].
      * destruct (_build_balance_payload cfg (utcnow_iso env) b);
          inversion Hfetch.
      * inversion Hfetch.
  - specialize (Herr None).
    destruct (handle_http_error cfg c env None) as [c2 r2].
    inversion Hfetch. subst. now apply Herr.
  - inversion Hfetch.
Qed.

(** No failure of the provider, whether an HTTP error of any status or
    no response at all, removes or alters the balance held in the
    success entry: afterwards the entry still has a payload, with the
    same ["balance"], ["account"], ["raw"] and ["retrieved_at"]. *)
Theorem provider_failure_keeps_cached_balance (c : caches) (env : balance_env)
    (p : dict) :
  payload (_balance_cache c) = Some p ->
  (forall r, upstream env = Responded r -> raises_for_status r = true) ->
  exists p',
    payload (_balance_cache (fst (fetch_balance cfg c env))) = Some p'
    /\ dict_lookup "balance" p' = dict_lookup "balance" p
    /\ dict_lookup "account" p' = dict_lookup "account" p
    /\ dict_lookup "raw" p' = dict_lookup "raw" p
    /\ dict_lookup "retrieved_at" p' = dict_lookup "retrieved_at" p.
Proof.
  intros Hp Hfail.
  assert (Herr : forall resp,
            exists p',
              payload (_balance_cache (fst (handle_http_error cfg c env resp)))
              = Some p'
              /\ dict_lookup "balance" p' = dict_lookup "balance" p
              /\ dict_lookup "account" p' = dict_lookup "account" p
              /\ dict_lookup "raw" p' = dict_lookup "raw" p
              /\ dict_lookup "retrieved_at" p' = dict_lookup "retrieved_at" p).
  { intros resp. unfold handle_http_error.
    destruct (effective_status _ _ _ =? 429)%Z;
      [|exists p; simpl; auto].
    rewrite Hp.
    destruct (truthy (JDict p) && (status (_balance_cache c) <? 400)%Z);
      [|exists p; simpl; auto].
    eexists. split; [reflexivity|]. unfold stale_payload_of.
    repeat split; now rewrite !dict_lookup_set_ne by discriminate. }
  unfold fetch_balance. destruct (upstream env) as [r| |] eqn:Hup.
  - rewrite (Hfail r eq_refl).
    specialize (Herr (Some r)).
    now destruct (handle_http_error cfg c env (Some r)).
  - specialize (Herr None).
    now destruct (handle_http_error cfg c env None).
  - exists p. simpl. auto.
Qed.

End BalanceCacheFacts.

Lemma provider_answer_is_replayed_witness :
  let env := Sample.at_time 10 (Sample.answers 503 (Some (JDict [])) None) in
  let env' := Sample.at_time 12 (Sample.answers 200 (Some Sample.account_json) None) in
  exists (c' : caches) (r : response),
    get_sms_balance (RT := Ref.runtime) Sample.cfg initial_caches env
    = (c', Returned r, 1%nat)
    /\ snd r = 503%Z
    /\ get_sms_balance (RT := Ref.runtime) Sample.cfg c' env'
       = (c', Returned r, 0%nat).
Proof.
  intros env env'.
  exists (fst (fetch_balance (RT := Ref.runtime) Sample.cfg initial_caches env)).
  exists (JDict [("success", JBool false); ("error", JDict [])], 503%Z).
  assert (Hcall :
    get_sms_balance (RT := Ref.runtime) Sample.cfg initial_caches env
    = (fst (fetch_balance (RT := Ref.runtime) Sample.cfg initial_caches env),
       Returned (JDict [("success", JBool false); ("error", JDict [])], 503%Z),
       1%nat))
    by (vm_compute; reflexivity).
  split; [exact Hcall|]. split; [reflexivity|].
  apply (provider_answer_is_replayed (RT := Ref.runtime) Sample.cfg initial_caches
           _ env env' _).
  - reflexivity.
  - vm_compute. discriminate.
  - vm_compute. discriminate.
  - vm_compute. reflexivity.
  - exact Hcall.
Defined.

Lemma every_429_answer_says_when_to_retry_witness :
  let env :=
    Sample.at_time 10 (Sample.answers 429 (Some (JDict [])) (Some "12")) in
  exists (n : Z) (details : json),
    snd (fst (get_sms_balance (RT := Ref.runtime) Sample.cfg initial_caches env))
    = Returned (JDict (rate_limited_payload n details), 429%Z)
    /\ (5 <= n)%Z.
Proof.
  intros env.
  destruct (every_429_answer_says_when_to_retry (RT := Ref.runtime) Sample.cfg
              initial_caches
              (fst (fst (get_sms_balance (RT := Ref.runtime) Sample.cfg
                           initial_caches env)))
              env (JDict (rate_limited_payload 12 (JDict []))) 1%nat)
    as (n & details & Hbody & _ & _ & Hn).
  - apply reachable_initial.
  - vm_compute. reflexivity.
  - exists n, details. split; [|exact Hn].
    rewrite <- Hbody. vm_compute. reflexivity.
Defined.

Lemma provider_failure_keeps_cached_balance_witness :
  let env := Sample.at_time 170 (Sample.answers 429 (Some (JDict [])) None) in
  exists p',
    payload (_balance_cache
               (fst (fetch_balance (RT := Ref.runtime) Sample.cfg Sample.cached env)))
    = Some p'
    /\ dict_lookup "balance" p' = Some (JFloat (FNum (25 # 2)))
    /\ dict_lookup "stale" p' = Some (JBool true).
Proof.
  intros env.
  destruct (provider_failure_keeps_cached_balance (RT := Ref.runtime) Sample.cfg
              Sample.cached env Sample.balance_payload)
    as (p' & Hp & Hb & _).
  - reflexivity.
  - intros r [= <-]. reflexivity.
  - exists p'. split; [exact Hp|]. split; [rewrite Hb; reflexivity|].
    vm_compute in Hp. injection Hp as <-. reflexivity.
Defined.

(** ** Concurrent callers: the fetch lock *)

Section FetchLock.
Import SingleFlight Arrivals.
Context `{RT : PyRuntime}.
Variable cfg : config.

Lemma lock_matches_region_arrive (c : caches) (n : nat) (t0 : Q) :
  lock_matches_region (arrive c n t0).
Proof.
  split; simpl.
  - intros i p H. apply lookup_replicate in H as [-> _]. discriminate.
  - discriminate.
Qed.

Lemma lock_matches_region_step (s s' : system) :
  lock_matches_region s -> step cfg s s' -> lock_matches_region s'.
Proof.
  intros [Hin Hout] Hstep.
  assert (Hne : forall i j p, threads s !! i = Some p -> in_fetch_region p = false ->
                              fetch_lock s = Some j -> j <> i).
  { intros i j p Hi Hp Hj ->. destruct (Hout i Hj) as (q & Hq & Hreg).
    rewrite Hi in Hq. injection Hq as ->. congruence. }
  destruct Hstep as [s i Hi Hkey | s i now r Hi Hkey Hclk Hhit
                    | s i now Hi Hkey Hclk Hmiss | s i Hi Hfree
                    | s i now r Hi Hclk Hhit | s i now Hi Hclk Hmiss
                    | s i env Hi Hclk Hwr];
    split; simpl; intros j.
  - intros p Hj Hp. apply lookup_set_thread in Hj as [[-> ->] | [_ Hj]];
      [discriminate | eauto].
  - intros Hj. destruct (Hout j Hj) as (p & Hp & Hreg). exists p. split; [|exact Hreg].
    unfold set_thread. rewrite list_lookup_insert_ne; [exact Hp|].
    intros ->. now apply (Hne j j AtFastPath).
  - intros p Hj Hp. apply lookup_set_thread in Hj as [[-> ->] | [_ Hj]];
      [discriminate | eauto].
  - intros Hj. destruct (Hout j Hj) as (p & Hp & Hreg). exists p. split; [|exact Hreg].
    unfold set_thread. rewrite list_lookup_insert_ne; [exact Hp|].
    intros ->. now apply (Hne j j AtFastPath).
  - intros p Hj Hp. apply lookup_set_thread in Hj as [[-> ->] | [_ Hj]];
      [discriminate | eauto].
  - intros Hj. destruct (Hout j Hj) as (p & Hp & Hreg). exists p. split; [|exact Hreg].
    unfold set_thread. rewrite list_lookup_insert_ne; [exact Hp|].
    intros ->. now apply (Hne j j AtFastPath).
  - intros p Hj Hp. apply lookup_set_thread in Hj as [[-> ->] | [_ Hj]];
      [reflexivity|].
    pose proof (Hin j p Hj Hp) as Hl. congruence.
  - intros [= <-]. exists HoldingFetchLock. split; [|reflexivity].
    eapply lookup_set_thread_same, Hi.
  - intros p Hj Hp. apply lookup_set_thread in Hj as [[-> ->] | [Hji Hj]];
      [discriminate|].
    pose proof (Hin j p Hj Hp) as Hl.
    pose proof (Hin i HoldingFetchLock Hi eq_refl) as Hl'. congruence.
  - discriminate.
  - intros p Hj Hp. apply lookup_set_thread in Hj as [[-> ->] | [_ Hj]];
      [now apply (Hin i HoldingFetchLock) | eauto].
  - intros Hj. pose proof (Hin i HoldingFetchLock Hi eq_refl) as Hl.
    assert (j = i) as -> by congruence.
    exists CallingUpstream. split; [|reflexivity].
    eapply lookup_set_thread_same, Hi.
  - intros p Hj Hp. apply lookup_set_thread in Hj as [[-> ->] | [Hji Hj]];
      [discriminate|].
    pose proof (Hin j p Hj Hp) as Hl.
    pose proof (Hin i CallingUpstream Hi eq_refl) as Hl'. congruence.
  - discriminate.
Qed.

Lemma lock_matches_region_steps (c : caches) (n : nat) (t0 : Q) (s : system) :
  steps cfg (arrive c n t0) s -> lock_matches_region s.
Proof.
  unfold steps. revert s. apply (rtc_ind_r (fun s => lock_matches_region s)).
  - apply lock_matches_region_arrive.
  - intros s s' _ Hstep IH. exact (lock_matches_region_step s s' IH Hstep).
Qed.

Lemma unfinished_caller (l : list pc) :
  forallb finished l = false -> exists i p, l !! i = Some p /\ finished p = false.
Proof.
  induction l as [|p l IH]; [discriminate|]. simpl.
  destruct (finished p) eqn:Hp; simpl.
  - intros H. destruct (IH H) as (i & q & Hq & Hf). now exists (S i), q.
  - intros _. now exists 0%nat, p.
Qed.

Lemma finished_caller (l : list pc) (i : nat) (p : pc) :
  forallb finished l = true -> l !! i = Some p -> finished p = true.
Proof.
  revert i. induction l as [|q l IH]; intros i; [discriminate|]. simpl.
  intros H. apply andb_true_iff in H as [Hq Hl].
  destruct i as [|i]; simpl; [now intros [= <-] | now apply IH].
Qed.

(** A caller inside the locked region can always take its next step. *)
Lemma region_caller_moves (s : system) (i : nat) (p : pc) :
  threads s !! i = Some p -> in_fetch_region p = true -> exists s', step cfg s s'.
Proof.
  intros Hi Hp. destruct p; try discriminate.
  - destruct (cached_response (sys_caches s) (clock s)) as [r|] eqn:Hc.
    + eexists. apply (step_recheck_hit cfg s i (clock s) r); [exact Hi | lra | exact Hc].
    + eexists. apply (step_recheck_miss cfg s i (clock s)); [exact Hi | lra | exact Hc].
  - eexists.
    apply (step_complete cfg s i
             {| t_fast := clock s; t_locked := clock s; t_elapsed := clock s;
                t_write := clock s; utcnow_iso := "";
                upstream := RequestExceptionRaised "" |});
      [exact Hi | simpl; lra | simpl; lra].
Qed.

(** Any number of callers enter [get_sms_balance] together and run in
    any interleaving, under any configuration.  At every moment at most
    one of them is inside [with _balance_fetch_lock], so at most one
    provider call is in flight; and that caller is the holder of the
    lock. *)
Theorem fetch_region_is_exclusive (c : caches) (n : nat) (t0 : Q) (s : system) :
  steps cfg (arrive c n t0) s ->
  forall i j p q,
    threads s !! i = Some p -> threads s !! j = Some q ->
    in_fetch_region p = true -> in_fetch_region q = true ->
    i = j /\ fetch_lock s = Some i.
Proof.
  intros Hrun i j p q Hi Hj Hp Hq.
  destruct (lock_matches_region_steps c n t0 s Hrun) as [Hin _].
  pose proof (Hin i p Hi Hp) as Li. pose proof (Hin j q Hj Hq) as Lj.
  split; [congruence | exact Li].
Qed.

(** The callers never block one another for good: in every state they
    can reach, either all of them have left the handler and the fetch
    lock is free, or one of them can take a step. *)
Theorem callers_never_deadlock (c : caches) (n : nat) (t0 : Q) (s : system) :
  steps cfg (arrive c n t0) s ->
  (all_finished s = true /\ fetch_lock s = None)
  \/ (exists s', step cfg s s').
Proof.
  intros Hrun.
  destruct (lock_matches_region_steps c n t0 s Hrun) as [Hin Hout].
  destruct (all_finished s) eqn:Hall.
  - left. split; [reflexivity|].
    destruct (fetch_lock s) as [i|] eqn:Hl; [|reflexivity].
    destruct (Hout i eq_refl) as (p & Hp & Hreg).
    pose proof (finished_caller _ i p Hall Hp) as Hf.
    destruct p; discriminate.
  - right. destruct (unfinished_caller _ Hall) as (i & p & Hi & Hf).
    destruct p; try discriminate.
    + destruct (Str.nonempty (SEMAPHORE_API_KEY cfg)) eqn:Hkey.
      * destruct (cached_response (sys_caches s) (clock s)) as [r|] eqn:Hc.
        -- eexists.
           apply (step_fast_hit cfg s i (clock s) r);
             [exact Hi | exact Hkey | lra | exact Hc].
        -- eexists.
           apply (step_fast_miss cfg s i (clock s));
             [exact Hi | exact Hkey | lra | exact Hc].
      * eexists. apply (step_not_configured cfg s i); [exact Hi | exact Hkey].
    + destruct (fetch_lock s) as [j|] eqn:Hl.
      * destruct (Hout j eq_refl) as (q & Hq & Hreg).
        exact (region_caller_moves s j q Hq Hreg).
      * eexists. apply (step_acquire cfg s i); [exact Hi | exact Hl].
    + exact (region_caller_moves s i _ Hi eq_refl).
    + exact (region_caller_moves s i _ Hi eq_refl).
Qed.

End FetchLock.

Section FetchLockRuns.
Import SingleFlight Arrivals.

Lemma one_in_flight_run :
  steps (RT := Ref.runtime) Sample.cfg (arrive initial_caches 2 10) one_in_flight.
Proof.
  eapply rtc_l.
  { apply (step_fast_miss (RT := Ref.runtime) Sample.cfg _ 0 10);
      [reflexivity | reflexivity | simpl; lra | reflexivity]. }
  eapply rtc_l.
  { apply (step_acquire (RT := Ref.runtime) Sample.cfg _ 0); reflexivity. }
  eapply rtc_l.
  { apply (step_recheck_miss (RT := Ref.runtime) Sample.cfg _ 0 10);
      [reflexivity | simpl; lra | reflexivity]. }
  eapply rtc_l.
  { apply (step_fast_miss (RT := Ref.runtime) Sample.cfg _ 1 10);
      [reflexivity | reflexivity | simpl; lra | reflexivity]. }
  apply rtc_refl.
Qed.

Lemma fetch_region_is_exclusive_witness :
  0%nat = 0%nat /\ fetch_lock one_in_flight = Some 0%nat.
Proof.
  apply (fetch_region_is_exclusive (RT := Ref.runtime) Sample.cfg initial_caches
           2 10 one_in_flight one_in_flight_run 0%nat 0%nat
           CallingUpstream CallingUpstream);
    reflexivity.
Defined.

Lemma callers_never_deadlock_witness :
  (all_finished one_in_flight = true /\ fetch_lock one_in_flight = None)
  \/ (exists s', step (RT := Ref.runtime) Sample.cfg one_in_flight s').
Proof.
  exact (callers_never_deadlock (RT := Ref.runtime) Sample.cfg initial_caches
           2 10 one_in_flight one_in_flight_run).
Defined.

End FetchLockRuns.

(** ** The admin endpoints ([routes.py]) *)

Section AdminFacts.
Import Admin.

(** [api_admin_create_profile] has no error answer of its own.  It
    answers 400 before any write, or 200 after both writes; whenever
    anything in its [try] body raises (a body that is not JSON or not an
    object, a failing write), the handler itself ends in
    [UnboundLocalError], and the 500 answer of line 272 is never given.
    The role write is made only after the user write has returned, and a
    user write is not undone when the role write fails. *)
Theorem create_profile_has_no_error_answer (env : environment)
    (request_json : option json) :
  let ending := api_admin_create_profile env request_json in
  match fst ending with
  | Answered (body, code) =>
      (code = 400%Z /\ snd ending = [])
      \/ (code = 200%Z /\ body = JDict [("success", JBool true)]
          /\ exists uid role profile,
               snd ending = [write_user_profile uid profile;
                             write_role_profile role uid profile]
               /\ truthy uid = true /\ valid_role role = true
               /\ on_write_user_profile env uid profile = None
               /\ on_write_role_profile env role uid profile = None)
  | UnboundLocalError =>
      snd ending = []
      \/ (exists uid profile message,
            snd ending = [write_user_profile uid profile]
            /\ on_write_user_profile env uid profile = Some message)
      \/ (exists uid role profile message,
            snd ending = [write_user_profile uid profile;
                          write_role_profile role uid profile]
            /\ on_write_user_profile env uid profile = None
            /\ on_write_role_profile env role uid profile = Some message)
  end.
Proof.
  unfold api_admin_create_profile, create_profile_body.
  destruct request_json as [j|]; [|left; reflexivity].
  destruct (py_or j (JDict [])) as [| | | | | |data]; try (left; reflexivity).
  destruct (truthy (dict_get "uid" data)) eqn:Huid; simpl negb; cbv iota;
    [|left; split; reflexivity].
  destruct (valid_role (dict_get "role" data)) eqn:Hrole; simpl negb; simpl orb;
    cbv iota; [|left; split; reflexivity].
  destruct (on_write_user_profile env _ _) as [m1|] eqn:Hu.
  - right; left. now eexists _, _, m1.
  - destruct (on_write_role_profile env _ _ _) as [m2|] eqn:Hr.
    + right; right. now eexists _, _, _, m2.
    + right. split; [reflexivity|]. split; [reflexivity|].
      now eexists _, _, _.
Qed.

Lemma is_extra_key_spec (k : string) : is_extra_key k = true <-> In k extra_keys.
Proof.
  unfold is_extra_key. rewrite existsb_exists. split.
  - intros (x & Hx & He). apply String.eqb_eq in He. now subst.
  - intros H. exists k. split; [exact H | apply String.eqb_refl].
Qed.

(** [api_admin_create_account] on a JSON object: the account service is
    called at most once, and only with a name and an email that are not
    empty and a role that is [driver] or [passenger]; the extra fields
    it receives are exactly the entries of the request under the six
    listed keys. *)
Theorem account_service_gets_checked_fields (env : environment) (data : dict)
    (name email password role : json) (extra : dict) :
  In (create_user_and_profiles name email password role extra)
     (snd (api_admin_create_account env (Some (JDict data)))) ->
  snd (api_admin_create_account env (Some (JDict data)))
  = [create_user_and_profiles name email password role extra]
  /\ truthy name = true /\ truthy email = true /\ valid_role role = true
  /\ name = dict_get "name" data /\ email = dict_get "email" data
  /\ password = dict_get "password" data
  /\ (forall k v, In (k, v) extra <-> In (k, v) data /\ In k extra_keys).
Proof.
  unfold api_admin_create_account, create_account_body.
  assert (Hdata : py_or (JDict data) (JDict []) = JDict data)
    by (unfold py_or; destruct data; reflexivity).
  rewrite Hdata.
  destruct (truthy (py_or (dict_get "name" data) (JStr ""))) eqn:Hname;
    simpl negb; cbv iota; [|intros []].
  destruct (truthy (py_or (dict_get "email" data) (JStr ""))) eqn:Hemail;
    simpl negb; simpl orb; cbv iota; [|intros []].
  destruct (valid_role (dict_get "role" data)) eqn:Hrole;
    simpl negb; simpl orb; cbv iota; [|intros []].
  assert (Hor : forall v, truthy (py_or v (JStr "")) = true -> py_or v (JStr "") = v).
  { intros v. unfold py_or. destruct (truthy v); [reflexivity | discriminate]. }
  assert (Hcall :
    In (create_user_and_profiles name email password role extra)
       [create_user_and_profiles (py_or (dict_get "name" data) (JStr ""))
          (py_or (dict_get "email" data) (JStr "")) (dict_get "password" data)
          (dict_get "role" data)
          (List.filter (fun kv : string * json => is_extra_key (fst kv)) data)] ->
    [create_user_and_profiles (py_or (dict_get "name" data) (JStr ""))
       (py_or (dict_get "email" data) (JStr "")) (dict_get "password" data)
       (dict_get "role" data)
       (List.filter (fun kv : string * json => is_extra_key (fst kv)) data)]
    = [create_user_and_profiles name email password role extra]
    /\ truthy name = true /\ truthy email = true /\ valid_role role = true
    /\ name = dict_get "name" data /\ email = dict_get "email" data
    /\ password = dict_get "password" data
    /\ (forall k v, In (k, v) extra <-> In (k, v) data /\ In k extra_keys)).
  { intros [H | []]. injection H as <- <- <- <- <-.
    split; [reflexivity|]. split; [exact Hname|]. split; [exact Hemail|].
    split; [exact Hrole|]. split; [now apply Hor|]. split; [now apply Hor|].
    split; [reflexivity|]. intros k v. rewrite filter_In, <- is_extra_key_spec.
    reflexivity. }
  destruct (on_create_user_and_profiles env _ _ _ _ _) as [m|res];
    [exact Hcall|].
  destruct res; exact Hcall.
Qed.

Lemma lookup_absent (k : string) (d : dict) :
  ~ In k (map fst d) -> dict_lookup k d = None.
Proof.
  induction d as [|[k' v] d IH]; [reflexivity|]. simpl. intros H.
  destruct (String.eqb k k') eqn:E.
  - apply String.eqb_eq in E. subst. tauto.
  - apply IH. tauto.
Qed.

Lemma unpack_into_lookup (k : string) (res base : dict) :
  List.NoDup (map fst res) ->
  dict_lookup k (unpack_into base res)
  = match dict_lookup k res with
    | Some v => Some v
    | None => dict_lookup k base
    end.
Proof.
  revert base. induction res as [|[k' v'] res IH]; intros base Hnd; [reflexivity|].
  inversion Hnd as [|? ? Hnotin Hnd']. subst.
  change (unpack_into base ((k', v') :: res))
    with (unpack_into (dict_set k' v' base) res).
  rewrite (IH _ Hnd'). simpl.
  destruct (String.eqb k k') eqn:E.
  - apply String.eqb_eq in E. subst k'.
    now rewrite (lookup_absent k res Hnotin), dict_lookup_set_eq.
  - apply String.eqb_neq in E. now rewrite dict_lookup_set_ne.
Qed.

(** When the account service returns an object, the answer is 200 and
    carries every field of that object as it is; ["success"] is [true]
    only if the object has no ["success"] of its own.  So a result that
    says [success] false is relayed under status 200. *)
Theorem account_answer_relays_service_result (env : environment)
    (request_json : option json) (name email password role : json)
    (extra res : dict) :
  snd (api_admin_create_account env request_json)
  = [create_user_and_profiles name email password role extra] ->
  on_create_user_and_profiles env name email password role extra
  = inr (JDict res) ->
  List.NoDup (map fst res) ->
  exists body,
    fst (api_admin_create_account env request_json) = Answered (JDict body, 200%Z)
    /\ forall k,
         dict_lookup k body
         = match dict_lookup k res with
           | Some v => Some v
           | None => if String.eqb k "success" then Some (JBool true) else None
           end.
Proof.
  unfold api_admin_create_account, create_account_body.
  destruct request_json as [j|]; [|discriminate].
  destruct (py_or j (JDict [])) as [| | | | | |data]; try discriminate.
  destruct (negb _ || negb _ || negb _); [discriminate|].
  cbv zeta.
  destruct (on_create_user_and_profiles env _ _ _ _ _) as [m|r] eqn:Hcall.
  - simpl. intros [= <- <- <- <- <-] Hres. congruence.
  - destruct r; simpl; intros [= <- <- <- <- <-] Hres Hnd;
      rewrite Hcall in Hres; try discriminate.
    injection Hres as ->.
    eexists. split; [reflexivity|]. intros k.
    rewrite (unpack_into_lookup k res _ Hnd). simpl.
    now destruct (dict_lookup k res).
Qed.

Lemma account_service_gets_checked_fields_witness :
  let data :=
    [("name", JStr "Ana"); ("email", JStr "ana@example.org");
     ("role", JStr "driver"); ("plate", JStr "ABC 123"); ("admin", JBool true)] in
  snd (api_admin_create_account (obliging (JDict [])) (Some (JDict data)))
  = [create_user_and_profiles (JStr "Ana") (JStr "ana@example.org") JNull
       (JStr "driver") [("plate", JStr "ABC 123")]]
  /\ valid_role (JStr "driver") = true.
Proof.
  intros data.
  destruct (account_service_gets_checked_fields (obliging (JDict [])) data
              (JStr "Ana") (JStr "ana@example.org") JNull (JStr "driver")
              [("plate", JStr "ABC 123")])
    as (Hcalls & _ & _ & Hrole & _).
  - left. reflexivity.
  - split; [exact Hcalls | exact Hrole].
Defined.

Lemma account_answer_relays_service_result_witness :
  let request_json :=
    Some (JDict [("name", JStr "Ana"); ("email", JStr "ana@example.org");
                 ("role", JStr "driver")]) in
  let res := [("success", JBool false); ("error", JStr "email already in use")] in
  exists body,
    fst (api_admin_create_account (obliging (JDict res)) request_json)
    = Answered (JDict body, 200%Z)
    /\ dict_lookup "success" body = Some (JBool false).
Proof.
  intros request_json res.
  destruct (account_answer_relays_service_result (obliging (JDict res))
              request_json (JStr "Ana") (JStr "ana@example.org") JNull
              (JStr "driver") [] res)
    as (body & Hanswer & Hfields).
  - reflexivity.
  - reflexivity.
  - repeat constructor; simpl; intuition discriminate.
  - exists body. split; [exact Hanswer|]. now rewrite Hfields.
Defined.

End AdminFacts.
